(** * Framify: card generators (ProfileCard, WelcomeCard, RankCard)

    A shallow embedding of the three card generators of the Framify
    library (TypeScript).  Numbers are IEEE 754 binary64 values
    ([spec_float] at precision 53), strings are [string], optional
    fields are [option], and the asynchronous drawing methods run in a
    state-and-exception monad over the trace of canvas calls. *)

From Stdlib Require Import ZArith Bool List String Ascii Lia.
From Stdlib Require Import Floats.SpecFloat.
From ExtLib Require Import Structures.Monad Structures.MonadState Structures.MonadExc.
From ExtLib Require Import Data.Monads.StateMonad Data.Monads.EitherMonad.
Import ListNotations.
Import MonadNotation.

Local Open Scope string_scope.
Local Open Scope monad_scope.

#[local] Existing Instance Monad_stateT.

(* ===================================================================== *)
(** ** The JavaScript values the generators compute with *)
(* ===================================================================== *)

Module JS.

(** A JavaScript number is a binary64 float. *)
Definition number : Type := spec_float.

Definition prec : Z := 53.
Definition emax : Z := 1024.

(** The number denoted by an integer literal of the source. *)
Definition lit (z : Z) : number := binary_normalize prec emax z 0 false.

Definition NaN : number := S754_nan.
Definition Infinity : number := S754_infinity false.
Definition NegInfinity : number := S754_infinity true.
Definition pzero : number := S754_zero false.
Definition nzero : number := S754_zero true.

Definition add (a b : number) : number := SFadd prec emax a b.
Definition sub (a b : number) : number := SFsub prec emax a b.
Definition mul (a b : number) : number := SFmul prec emax a b.
Definition div (a b : number) : number := SFdiv prec emax a b.

(** [a < b], [a > b] and [a <= b] of the source; all false on NaN. *)
Definition lt (a b : number) : bool := SFltb a b.
Definition gt (a b : number) : bool := SFltb b a.
Definition le (a b : number) : bool := SFleb a b.

Definition isNaN (a : number) : bool :=
  match a with S754_nan => true | _ => false end.

Definition is_pzero (a : number) : bool :=
  match a with S754_zero false => true | _ => false end.

Definition is_nzero (a : number) : bool :=
  match a with S754_zero true => true | _ => false end.

(** SameValueZero of ECMAScript: NaN equals NaN, and +0 equals -0. *)
Definition sameValueZero (a b : number) : bool :=
  (isNaN a && isNaN b) || SFeqb a b.

(** [Math.max(...args)]: start from -Infinity, return NaN as soon as an
    argument is NaN, and let +0 win over -0. *)
Fixpoint max_loop (highest : number) (args : list number) : number :=
  match args with
  | [] => highest
  | n :: rest =>
      if isNaN n then NaN
      else if is_pzero n && is_nzero highest then max_loop pzero rest
      else if gt n highest then max_loop n rest
      else max_loop highest rest
  end.

Definition Math_max (args : list number) : number := max_loop NegInfinity args.

(** [Math.min(...args)]: start from +Infinity, return NaN as soon as an
    argument is NaN, and let -0 win over +0. *)
Fixpoint min_loop (lowest : number) (args : list number) : number :=
  match args with
  | [] => lowest
  | n :: rest =>
      if isNaN n then NaN
      else if is_nzero n && is_pzero lowest then min_loop nzero rest
      else if lt n lowest then min_loop n rest
      else min_loop lowest rest
  end.

Definition Math_min (args : list number) : number := min_loop Infinity args.

(** Truthiness of a value in a condition or on the left of [||]. *)
Class Truthy (A : Type) : Type := truthy : A -> bool.

(** A number is falsy when it is +0, -0 or NaN. *)
#[export] Instance Truthy_number : Truthy number :=
  fun n => match n with
           | S754_zero _ => false
           | S754_nan => false
           | _ => true
           end.

(** A string is falsy when it is empty. *)
#[export] Instance Truthy_string : Truthy string :=
  fun s => match s with EmptyString => false | String _ _ => true end.

(** An array is an object: always truthy, also when empty. *)
#[export] Instance Truthy_array {A : Type} : Truthy (list A) := fun _ => true.

(** [x || d] where [x] may be [undefined] ([None]), which is falsy. *)
Definition or_else {A : Type} `{Truthy A} (x : option A) (d : A) : A :=
  match x with
  | Some v => if truthy v then v else d
  | None => d
  end.

(** [x || d] where the type of [x] excludes [undefined]. *)
Definition or_val {A : Type} `{Truthy A} (x : A) (d : A) : A :=
  if truthy x then x else d.

(** [o?.f]: [undefined] when [o] is, the field otherwise. *)
Definition opt_chain {R A : Type} (o : option R) (f : R -> option A) : option A :=
  match o with
  | Some r => f r
  | None => None
  end.

(** A possibly [undefined] number used in arithmetic ([x!] erases to [x],
    and ToNumber(undefined) is NaN). *)
Definition toNumber (x : option number) : number :=
  match x with
  | Some v => v
  | None => NaN
  end.

(** [s.startsWith(p)] and [s.includes(p)]. *)
Definition startsWith (p s : string) : bool := String.prefix p s.

Definition includes (p s : string) : bool :=
  match String.index 0 p s with
  | Some _ => true
  | None => false
  end.

(** [s.split(sep)] for a separator of one character. *)
Fixpoint split (sep : ascii) (s : string) : list string :=
  match s with
  | EmptyString => [EmptyString]
  | String c rest =>
      if Ascii.eqb c sep then EmptyString :: split sep rest
      else match split sep rest with
           | [] => [String c EmptyString]
           | w :: ws => String c w :: ws
           end
  end.

(** What a [throw] or a rejected promise carries: an [Error] object (with
    its class name and message) or some other value. *)
Inductive thrown : Type :=
| ErrorObject (name : string) (message : string)
| NonError (description : string).

(** [new Error(msg)]. *)
Definition new_Error (msg : string) : thrown := ErrorObject "Error" msg.

(** [error instanceof Error ? error.message : 'Unknown error']. *)
Definition message_of (e : thrown) : string :=
  match e with
  | ErrorObject _ m => m
  | NonError _ => "Unknown error"
  end.

End JS.

(* ===================================================================== *)
(** ** The host: HTTP client, image decoder, text metrics *)
(* ===================================================================== *)

Module Host.

(** The [Response] of node-fetch, as far as the generators read it. *)
Record Response : Type := {
  status : Z;
  statusText : string;
  arrayBuffer : JS.thrown + list Byte.byte
}.

(** [response.ok], as node-fetch defines it: the status is in the range
    200-299. *)
Definition ok (r : Response) : bool :=
  ((200 <=? status r) && (status r <? 300))%Z.

(** What is assigned to [img.src]: a path or URL string, or a buffer. *)
Inductive ImageSrc : Type :=
| SrcString (s : string)
| SrcBuffer (b : list Byte.byte).

(** An [Image] whose [onload] has fired. *)
Inductive Image : Type :=
| Loaded (src : ImageSrc).

(** Everything outside the generators.  [decode src] is [None] when
    assigning [src] fires [onload], and [Some e] when it fires [onerror]
    with [e]. [measureText font text] is the [width] of
    [ctx.measureText(text)] under [ctx.font = font]. *)
Record World : Type := {
  fetch : string -> JS.thrown + Response;
  decode : ImageSrc -> option JS.thrown;
  measureText : string -> string -> JS.number;
  toString : JS.number -> string;
  toLocaleString : JS.number -> string
}.

(** A number that may be [undefined], inside a template literal. *)
Definition show (w : World) (x : option JS.number) : string :=
  match x with
  | Some v => toString w v
  | None => "undefined"
  end.

End Host.

(* ===================================================================== *)
(** ** The drawing surface: the calls made on a 2D context, in order *)
(* ===================================================================== *)

Module Canvas.

Import JS.

(** A fill style: a CSS colour string, or a linear gradient with its
    colour stops. *)
Inductive style : Type :=
| Color (c : string)
| LinearGradient (x0 y0 x1 y1 : number) (stops : list (number * string)).

#[warning="-register-all"] Inductive op : Type :=
| SetFillStyle (s : style)
| SetStrokeStyle (c : string)
| SetLineWidth (w : number)
| SetGlobalAlpha (a : number)
| SetFont (f : string)
| SetTextAlign (a : string)
| SetFilter (f : string)
| FillRect (x y w h : number)
| StrokeRect (x y w h : number)
| FillText (text : string) (x y : number)
| DrawImage (img : Host.Image) (x y w h : number)
| DrawCanvas (width height : number) (content : list op) (x y : number)
| BeginPath
| ClosePath
| MoveTo (x y : number)
| LineTo (x y : number)
| QuadraticCurveTo (cpx cpy x y : number)
| Arc (x y r a0 a1 : number)
| Fill
| Clip
| Save
| Restore.

(** The surface of one generator instance. *)
Definition surface : Type := list op.

(** The result of [canvas.encode('png')]: the encoding of a surface of
    the given size. *)
Record Buffer : Type := {
  format : string;
  width : number;
  height : number;
  content : surface
}.

(** An asynchronous method of a generator: it draws on the instance's
    surface and resolves, or rejects. *)
Definition Render : Type -> Type := stateT surface (sum thrown).

(** One call on the context. *)
Definition draw (o : op) : Render unit :=
  c <- get ;; put (c ++ [o])%list.

(** [await p] for a promise of the host that is already settled. *)
Definition await {A : Type} (p : thrown + A) : Render A :=
  match p with
  | inl e => raise e
  | inr a => ret a
  end.

(** [draws m a ops]: from any surface, [m] resolves to [a] after making
    the calls [ops]. [rejects m e]: from any surface, [m] rejects with
    [e]. *)
Definition draws {A : Type} (m : Render A) (a : A) (ops : list op) : Prop :=
  forall c, runStateT m c = inr (a, (c ++ ops)%list).

Definition rejects {A : Type} (m : Render A) (e : thrown) : Prop :=
  forall c, runStateT m c = inl e.

(** [Math.PI], the binary64 value nearest to pi. *)
Definition Math_PI : number := S754_finite false 7074237752028440 (-51).

(** The text lines (first arguments of [fillText]) drawn on a surface. *)
Fixpoint fillTexts (c : surface) : list string :=
  match c with
  | [] => []
  | FillText t _ _ :: rest => t :: fillTexts rest
  | _ :: rest => fillTexts rest
  end.

(** The local-path test of [loadAvatar]. *)
Definition isLocalPath (avatarUrl : string) : bool :=
  startsWith "./" avatarUrl || startsWith "/" avatarUrl
  || negb (includes "://" avatarUrl).

Section Loader.

Variable world : Host.World.

(** [new Promise((resolve, reject) => { const img = new Image();
    img.onload = () => resolve(img); img.onerror = reject; img.src = src })] *)
Definition loadImage (src : Host.ImageSrc) : Render Host.Image :=
  match Host.decode world src with
  | None => ret (Host.Loaded src)
  | Some e => raise e
  end.

(** [loadAvatar], the same in the three generators.  The promise of the
    decoded image is returned from inside the [try] without being awaited
    there, so only the fetch, the status test and the buffering are under
    the [catch]. *)
Definition loadAvatar (avatarUrl : string) : Render Host.Image :=
  if isLocalPath avatarUrl then loadImage (Host.SrcString avatarUrl)
  else
    buffer <- catch
      (response <- await (Host.fetch world avatarUrl) ;;
       (if negb (Host.ok response)
        then raise (new_Error ("Failed to fetch image: " ++ Host.statusText response))
        else ret tt) ;;
       arrayBuffer <- await (Host.arrayBuffer response) ;;
       ret arrayBuffer)
      (fun error =>
         raise (new_Error ("Failed to load external avatar: " ++ avatarUrl
                           ++ ". Error: " ++ message_of error))) ;;
    loadImage (Host.SrcBuffer buffer).

(** [loadBackground], the same in ProfileCard and RankCard. *)
Definition loadBackground (backgroundImage : string) : Render (option Host.Image) :=
  if negb (truthy backgroundImage) then ret None
  else img <- loadImage (Host.SrcString backgroundImage) ;; ret (Some img).

End Loader.

(** The rounded-corner path and clip that end every [toBuffer]. *)
Definition roundedCorners (width height radius : number) : Render unit :=
  draw BeginPath ;;
  draw (MoveTo radius (lit 0)) ;;
  draw (LineTo (sub width radius) (lit 0)) ;;
  draw (QuadraticCurveTo width (lit 0) width radius) ;;
  draw (LineTo width (sub height radius)) ;;
  draw (QuadraticCurveTo width height (sub width radius) height) ;;
  draw (LineTo radius height) ;;
  draw (QuadraticCurveTo (lit 0) height (lit 0) (sub height radius)) ;;
  draw (LineTo (lit 0) radius) ;;
  draw (QuadraticCurveTo (lit 0) (lit 0) radius (lit 0)) ;;
  draw ClosePath ;;
  draw Clip.

(** [canvas.encode('png')]. *)
Definition encode (width height : number) : Render Buffer :=
  c <- get ;;
  ret {| format := "png"; width := width; height := height; content := c |}.

End Canvas.

(* ===================================================================== *)
(** ** Option records shared by the three generators *)
(* ===================================================================== *)

Module Types.

Import JS.

(** [padding?: { top?, right?, bottom?, left? }]. *)
Record Padding : Type := {
  top : option number;
  right : option number;
  bottom : option number;
  left : option number
}.

End Types.

(* ===================================================================== *)
(** ** ProfileCard *)
(* ===================================================================== *)

Module ProfileCard.

Import JS Canvas.

(** [layout?: 'horizontal' | 'vertical']. *)
Inductive Layout : Type := horizontal | vertical.

(** Both layout names are non-empty strings. *)
#[export] Instance Truthy_Layout : Truthy Layout := fun _ => true.

Definition Layout_eqb (a b : Layout) : bool :=
  match a, b with
  | horizontal, horizontal => true
  | vertical, vertical => true
  | _, _ => false
  end.

(** [fontSize?: { username?, bio?, badges? }]. *)
Module FontSize.
Record t : Type := {
  username : option number;
  bio : option number;
  badges : option number
}.
End FontSize.

(** [ProfileCardOptions].  [status] is kept as the string it is at run
    time, which is what [getStatusColor] receives. *)
Module Options.
Record t : Type := {
  username : string;
  discriminator : option string;
  avatarUrl : string;
  status : option string;
  statusColor : option string;
  bio : option string;
  badges : option (list string);
  backgroundColor : option string;
  textColor : option string;
  accentColor : option string;
  backgroundImage : option string;
  fontSize : option FontSize.t;
  padding : option Types.Padding;
  borderRadius : option number;
  layout : option Layout
}.
End Options.

(** [Required<ProfileCardOptions>] (shallow, as for RankCard). *)
Module Required.
Record t : Type := {
  username : string;
  discriminator : string;
  avatarUrl : string;
  status : string;
  statusColor : string;
  bio : string;
  badges : list string;
  backgroundColor : string;
  textColor : string;
  accentColor : string;
  backgroundImage : string;
  fontSize : FontSize.t;
  padding : Types.Padding;
  borderRadius : number;
  layout : Layout
}.
End Required.

(** [getStatusColor]: a [switch] on the status string. *)
Definition getStatusColor (status : string) : string :=
  if String.eqb status "online" then "#43B581"
  else if String.eqb status "idle" then "#FAA61A"
  else if String.eqb status "dnd" then "#F04747"
  else if String.eqb status "offline" then "#747F8D"
  else "#747F8D".

(** The constructor: [this.options]. *)
Definition constructor (options : Options.t) : Required.t :=
  {| Required.username := Options.username options;
     Required.discriminator := or_else (Options.discriminator options) "#0000";
     Required.avatarUrl := Options.avatarUrl options;
     Required.status := or_else (Options.status options) "online";
     Required.statusColor :=
       or_else (Options.statusColor options)
         (getStatusColor (or_else (Options.status options) "online"));
     Required.bio := or_else (Options.bio options) "";
     Required.badges := or_else (Options.badges options) [];
     Required.backgroundColor := or_else (Options.backgroundColor options) "#2C2F33";
     Required.textColor := or_else (Options.textColor options) "#FFFFFF";
     Required.accentColor := or_else (Options.accentColor options) "#7289DA";
     Required.backgroundImage := or_else (Options.backgroundImage options) "";
     Required.fontSize :=
       {| FontSize.username :=
            Some (or_else (opt_chain (Options.fontSize options) FontSize.username) (lit 32));
          FontSize.bio :=
            Some (or_else (opt_chain (Options.fontSize options) FontSize.bio) (lit 16));
          FontSize.badges :=
            Some (or_else (opt_chain (Options.fontSize options) FontSize.badges) (lit 14)) |};
     Required.padding :=
       {| Types.top :=
            Some (or_else (opt_chain (Options.padding options) Types.top) (lit 30));
          Types.right :=
            Some (or_else (opt_chain (Options.padding options) Types.right) (lit 30));
          Types.bottom :=
            Some (or_else (opt_chain (Options.padding options) Types.bottom) (lit 30));
          Types.left :=
            Some (or_else (opt_chain (Options.padding options) Types.left) (lit 30)) |};
     Required.borderRadius := or_else (Options.borderRadius options) (lit 10);
     Required.layout := or_else (Options.layout options) vertical |}.

(** [createCanvas(800, 400)]. *)
Definition canvas_width : number := lit 800.
Definition canvas_height : number := lit 400.

Section Drawing.

Variable world : Host.World.
Variable options : Required.t.

Let padding := Required.padding options.
Let fontSize := Required.fontSize options.

Definition avatarSize : number :=
  if Layout_eqb (Required.layout options) horizontal then lit 100 else lit 120.

Definition drawBackground : Render unit :=
  draw (SetFillStyle (Color (Required.backgroundColor options))) ;;
  draw (FillRect (lit 0) (lit 0) canvas_width canvas_height) ;;
  (if truthy (Required.backgroundImage options) then
     backgroundImage <- loadBackground world (Required.backgroundImage options) ;;
     match backgroundImage with
     | Some img =>
         draw (SetGlobalAlpha (div (lit 2) (lit 10))) ;;
         draw (DrawImage img (lit 0) (lit 0) canvas_width canvas_height) ;;
         draw (SetGlobalAlpha (lit 1))
     | None => ret tt
     end
   else ret tt) ;;
  draw (SetFillStyle
          (LinearGradient (lit 0) (lit 0) canvas_width canvas_height
             [(lit 0, "rgba(0, 0, 0, 0.3)"); (lit 1, "rgba(0, 0, 0, 0.7)")])) ;;
  draw (FillRect (lit 0) (lit 0) canvas_width canvas_height).

Definition drawAvatar : Render unit :=
  let x := toNumber (Types.left padding) in
  let y :=
    if Layout_eqb (Required.layout options) horizontal
    then toNumber (Types.top padding)
    else add (toNumber (Types.top padding))
             (div (sub (sub (sub canvas_height (toNumber (Types.top padding)))
                            (toNumber (Types.bottom padding)))
                       avatarSize)
                  (lit 2)) in
  draw BeginPath ;;
  draw (Arc (add x (div avatarSize (lit 2))) (add y (div avatarSize (lit 2)))
            (add (div avatarSize (lit 2)) (lit 3)) (lit 0) (mul Math_PI (lit 2))) ;;
  draw (SetFillStyle (Color (Required.accentColor options))) ;;
  draw Fill ;;
  draw Save ;;
  draw BeginPath ;;
  draw (Arc (add x (div avatarSize (lit 2))) (add y (div avatarSize (lit 2)))
            (div avatarSize (lit 2)) (lit 0) (mul Math_PI (lit 2))) ;;
  draw ClosePath ;;
  draw Clip ;;
  avatar <- loadAvatar world (Required.avatarUrl options) ;;
  draw (DrawImage avatar x y avatarSize avatarSize) ;;
  draw Restore ;;
  let statusSize := lit 16 in
  let statusX := sub (sub (add x avatarSize) (div statusSize (lit 2))) (lit 2) in
  let statusY := sub (sub (add y avatarSize) (div statusSize (lit 2))) (lit 2) in
  draw BeginPath ;;
  draw (Arc (add statusX (div statusSize (lit 2))) (add statusY (div statusSize (lit 2)))
            (div statusSize (lit 2)) (lit 0) (mul Math_PI (lit 2))) ;;
  draw (SetFillStyle (Color (Required.statusColor options))) ;;
  draw Fill.

(** Where the text column starts: [left! + avatarSize + 30]. *)
Definition textX : number :=
  add (add (toNumber (Types.left padding)) avatarSize) (lit 30).

(** The username and discriminator lines of the vertical layout. *)
Definition drawHeader (currentY : number) : Render number :=
  if Layout_eqb (Required.layout options) vertical then
    let fs_username := or_else (FontSize.username fontSize) (lit 0) in
    draw (SetFont ("bold " ++ Host.show world (FontSize.username fontSize) ++ "px Arial")) ;;
    draw (SetFillStyle (Color (Required.textColor options))) ;;
    draw (FillText (Required.username options) textX
            (add (or_val currentY (lit 0)) fs_username)) ;;
    let currentY := add (add (or_val currentY (lit 0)) fs_username) (lit 10) in
    draw (SetFont (Host.toString world (sub fs_username (lit 8)) ++ "px Arial")) ;;
    draw (SetFillStyle (Color "#AAAAAA")) ;;
    draw (FillText (Required.discriminator options) textX
            (add (or_val currentY (lit 0)) (sub fs_username (lit 8)))) ;;
    ret (add (add (or_val currentY (lit 0)) fs_username) (lit 20))
  else ret currentY.

(** The font of the bio lines and the width of their column. *)
Definition bioFont : string :=
  Host.show world (FontSize.bio fontSize) ++ "px Arial".

Definition maxWidth : number :=
  sub canvas_width (add (add (toNumber (Types.left padding)) avatarSize) (lit 60)).

(** The word-wrap loop [for (let i = 0; i < words.length; i++)], entered
    at index [i] with the words from [i] on still to place. It returns
    the last [line] and [currentY]. *)
Fixpoint wrapLoop (words : list string) (i : nat) (line : string) (currentY : number)
  : Render (string * number) :=
  match words with
  | [] => ret (line, currentY)
  | word :: rest =>
      let testLine := line ++ word ++ " " in
      let testWidth := Host.measureText world bioFont testLine in
      if gt testWidth maxWidth && (0 <? i)%nat then
        draw (FillText line textX
                (add (or_val currentY (lit 0)) (or_else (FontSize.bio fontSize) (lit 0)))) ;;
        wrapLoop rest (S i) (word ++ " ")
          (add (add (or_val currentY (lit 0)) (or_else (FontSize.bio fontSize) (lit 0)))
               (lit 5))
      else wrapLoop rest (S i) testLine currentY
  end.

(** The bio block of [drawText]. *)
Definition drawBio (currentY : number) : Render number :=
  if truthy (Required.bio options) then
    draw (SetFont bioFont) ;;
    draw (SetFillStyle (Color (Required.textColor options))) ;;
    let words := split " "%char (Required.bio options) in
    r <- wrapLoop words 0 "" currentY ;;
    let '(line, currentY) := r in
    draw (FillText line textX
            (add (or_val currentY (lit 0)) (or_else (FontSize.bio fontSize) (lit 0)))) ;;
    ret (add (add (or_val currentY (lit 0)) (or_else (FontSize.bio fontSize) (lit 0)))
             (lit 20))
  else ret currentY.

Definition badgesFont : string :=
  Host.show world (FontSize.badges fontSize) ++ "px Arial".

(** The loop [for (const badge of badges)], with [badgeX] and [currentY]
    as its variables. *)
Fixpoint badgeLoop (badges : list string) (badgeY badgeX currentY : number)
  : Render (number * number) :=
  match badges with
  | [] => ret (badgeX, currentY)
  | badge :: rest =>
      let badgeText := "• " ++ badge in
      let width := Host.measureText world badgesFont badgeText in
      let overflow :=
        gt (add badgeX width) (sub canvas_width (toNumber (Types.right padding))) in
      let badgeX' := if overflow then textX else badgeX in
      let currentY' :=
        if overflow
        then add (add (or_val currentY (lit 0)) (or_else (FontSize.badges fontSize) (lit 0)))
                 (lit 5)
        else currentY in
      draw (FillText badgeText badgeX' badgeY) ;;
      badgeLoop rest badgeY (add badgeX' (add width (lit 10))) currentY'
  end.

(** The badges block of [drawText]. *)
Definition drawBadges (currentY : number) : Render unit :=
  match Required.badges options with
  | [] => ret tt
  | _ :: _ =>
      draw (SetFont badgesFont) ;;
      draw (SetFillStyle (Color (Required.accentColor options))) ;;
      let badgeX := textX in
      let badgeY := add (or_val currentY (lit 0)) (or_else (FontSize.badges fontSize) (lit 0)) in
      _ <- badgeLoop (Required.badges options) badgeY badgeX currentY ;;
      ret tt
  end.

Definition drawText : Render unit :=
  let currentY := toNumber (Types.top padding) in
  currentY <- drawHeader currentY ;;
  currentY <- drawBio currentY ;;
  drawBadges currentY.

Definition toBuffer : Render Buffer :=
  drawBackground ;;
  drawAvatar ;;
  drawText ;;
  roundedCorners canvas_width canvas_height (Required.borderRadius options) ;;
  encode canvas_width canvas_height.

End Drawing.

(** A generator instance is created with its options and an empty
    surface, and rendered once. *)
Definition render (world : Host.World) (options : Options.t) : thrown + Buffer :=
  match runStateT (toBuffer world (constructor options)) [] with
  | inl e => inl e
  | inr (buffer, _) => inr buffer
  end.

End ProfileCard.

(* ===================================================================== *)
(** ** WelcomeCard *)
(* ===================================================================== *)

Module WelcomeCard.

Import JS Canvas.

(** [fontSize?: { title?, subtitle?, memberCount? }]. *)
Module FontSize.
Record t : Type := {
  title : option number;
  subtitle : option number;
  memberCount : option number
}.
End FontSize.

(** [WelcomeImageOptions]. *)
Module Options.
Record t : Type := {
  username : string;
  discriminator : option string;
  avatarUrl : string;
  serverName : string;
  memberCount : option number;
  backgroundColor : option string;
  textColor : option string;
  accentColor : option string;
  backgroundImage : option string;
  fontSize : option FontSize.t;
  padding : option Types.Padding;
  borderRadius : option number
}.
End Options.

(** [Required<WelcomeImageOptions>] (shallow, as for RankCard). *)
Module Required.
Record t : Type := {
  username : string;
  discriminator : string;
  avatarUrl : string;
  serverName : string;
  memberCount : number;
  backgroundColor : string;
  textColor : string;
  accentColor : string;
  backgroundImage : string;
  fontSize : FontSize.t;
  padding : Types.Padding;
  borderRadius : number
}.
End Required.

(** The constructor: [this.options]. *)
Definition constructor (options : Options.t) : Required.t :=
  {| Required.username := Options.username options;
     Required.discriminator := or_else (Options.discriminator options) "#0000";
     Required.avatarUrl := Options.avatarUrl options;
     Required.serverName := Options.serverName options;
     Required.memberCount := or_else (Options.memberCount options) (lit 0);
     Required.backgroundColor := or_else (Options.backgroundColor options) "#2C2F33";
     Required.textColor := or_else (Options.textColor options) "#FFFFFF";
     Required.accentColor := or_else (Options.accentColor options) "#7289DA";
     Required.backgroundImage := or_else (Options.backgroundImage options) "";
     Required.fontSize :=
       {| FontSize.title :=
            Some (or_else (opt_chain (Options.fontSize options) FontSize.title) (lit 60));
          FontSize.subtitle :=
            Some (or_else (opt_chain (Options.fontSize options) FontSize.subtitle) (lit 28));
          FontSize.memberCount :=
            Some (or_else (opt_chain (Options.fontSize options) FontSize.memberCount)
                    (lit 20)) |};
     Required.padding :=
       {| Types.top :=
            Some (or_else (opt_chain (Options.padding options) Types.top) (lit 60));
          Types.right :=
            Some (or_else (opt_chain (Options.padding options) Types.right) (lit 60));
          Types.bottom :=
            Some (or_else (opt_chain (Options.padding options) Types.bottom) (lit 60));
          Types.left :=
            Some (or_else (opt_chain (Options.padding options) Types.left) (lit 60)) |};
     Required.borderRadius := or_else (Options.borderRadius options) (lit 15) |}.

(** [createCanvas(1024, 500)]. *)
Definition canvas_width : number := lit 1024.
Definition canvas_height : number := lit 500.

Section Drawing.

Variable world : Host.World.
Variable options : Required.t.

Let padding := Required.padding options.
Let fontSize := Required.fontSize options.

Definition drawBackground : Render unit :=
  avatar <- loadAvatar world (Required.avatarUrl options) ;;
  draw Save ;;
  let tempCanvas := [DrawImage avatar (lit 0) (lit 0) canvas_width canvas_height] in
  draw (SetFilter "blur(8px)") ;;
  draw (DrawCanvas canvas_width canvas_height tempCanvas (lit 0) (lit 0)) ;;
  draw (SetFilter "none") ;;
  draw Restore ;;
  draw (SetFillStyle
          (LinearGradient (lit 0) (lit 0) (lit 0) canvas_height
             [(lit 0, "rgba(0, 0, 0, 0.4)"); (lit 1, "rgba(0, 0, 0, 0.7)")])) ;;
  draw (FillRect (lit 0) (lit 0) canvas_width canvas_height).

(** Kept for compatibility; it draws nothing. *)
Definition drawAvatar : Render unit := ret tt.

Definition drawText : Render unit :=
  let discriminator := Required.discriminator options in
  let memberCount := Required.memberCount options in
  let topValue := or_else (Types.top padding) (lit 0) in
  let centerX := div canvas_width (lit 2) in
  let startY := add topValue (lit 100) in
  let subtitle := or_else (FontSize.subtitle fontSize) (lit 0) in
  draw (SetFont ("bold " ++ Host.show world (FontSize.title fontSize) ++ "px Arial")) ;;
  draw (SetFillStyle (Color (Required.textColor options))) ;;
  draw (SetTextAlign "center") ;;
  draw (FillText (Required.username options) centerX startY) ;;
  (if truthy discriminator then
     draw (SetFont (Host.show world (FontSize.subtitle fontSize) ++ "px Arial")) ;;
     draw (SetFillStyle (Color "#AAAAAA")) ;;
     draw (FillText discriminator centerX (add (add startY subtitle) (lit 5)))
   else ret tt) ;;
  draw (SetFont ("bold " ++ Host.show world (FontSize.subtitle fontSize) ++ "px Arial")) ;;
  draw (SetFillStyle (Color (Required.textColor options))) ;;
  draw (FillText ("Welcome to " ++ Required.serverName options ++ "!") centerX
          (add (add startY subtitle) (if truthy discriminator then lit 40 else lit 60))) ;;
  (if gt memberCount (lit 0) then
     draw (SetFont (Host.show world (FontSize.memberCount fontSize) ++ "px Arial")) ;;
     draw (SetFillStyle (Color "#AAAAAA")) ;;
     draw (FillText ("Member #" ++ Host.toString world memberCount) centerX
             (add (add (add (add startY subtitle)
                            (if truthy discriminator then lit 80 else lit 100))
                       (or_else (FontSize.memberCount fontSize) (lit 0)))
                  (lit 10)))
   else ret tt) ;;
  draw (SetTextAlign "left").

Definition drawAccentBar : Render unit :=
  let barHeight := lit 5 in
  let barWidth :=
    sub canvas_width
        (add (toNumber (Types.left padding)) (toNumber (Types.right padding))) in
  let x := toNumber (Types.left padding) in
  let y := sub (sub canvas_height (or_else (Types.bottom padding) (lit 0))) barHeight in
  draw (SetFillStyle (Color (Required.accentColor options))) ;;
  draw (FillRect x y barWidth barHeight).

Definition toBuffer : Render Buffer :=
  drawBackground ;;
  drawAvatar ;;
  drawText ;;
  drawAccentBar ;;
  roundedCorners canvas_width canvas_height (Required.borderRadius options) ;;
  encode canvas_width canvas_height.

End Drawing.

(** A generator instance is created with its options and an empty
    surface, and rendered once. *)
Definition render (world : Host.World) (options : Options.t) : thrown + Buffer :=
  match runStateT (toBuffer world (constructor options)) [] with
  | inl e => inl e
  | inr (buffer, _) => inr buffer
  end.

End WelcomeCard.

(* ===================================================================== *)
(** ** RankCard *)
(* ===================================================================== *)

Module RankCard.

Import JS Canvas.

(** [fontSize?: { username?, rank?, level?, xp? }]. *)
Module FontSize.
Record t : Type := {
  username : option number;
  rank : option number;
  level : option number;
  xp : option number
}.
End FontSize.

(** [RankCardOptions]. *)
Module Options.
Record t : Type := {
  username : string;
  discriminator : option string;
  avatarUrl : string;
  rank : number;
  level : number;
  currentXP : number;
  nextLevelXP : number;
  progress : option number;
  backgroundColor : option string;
  textColor : option string;
  accentColor : option string;
  rankColor : option string;
  levelColor : option string;
  progressBarColor : option string;
  progressBarBackgroundColor : option string;
  backgroundImage : option string;
  fontSize : option FontSize.t;
  padding : option Types.Padding;
  borderRadius : option number;
  showProgress : option bool
}.
End Options.

(** [Required<RankCardOptions>]: the top-level fields are all present;
    [Required] is shallow, so the fields of [fontSize] and [padding] keep
    their optional type. *)
Module Required.
Record t : Type := {
  username : string;
  discriminator : string;
  avatarUrl : string;
  rank : number;
  level : number;
  currentXP : number;
  nextLevelXP : number;
  progress : number;
  backgroundColor : string;
  textColor : string;
  accentColor : string;
  rankColor : string;
  levelColor : string;
  progressBarColor : string;
  progressBarBackgroundColor : string;
  backgroundImage : string;
  fontSize : FontSize.t;
  padding : Types.Padding;
  borderRadius : number;
  showProgress : bool
}.
End Required.

(** [calculateProgress]. *)
Definition calculateProgress (currentXP nextLevelXP : number) : number :=
  Math_min [lit 100; Math_max [lit 0; mul (div currentXP nextLevelXP) (lit 100)]].

(** The constructor: [this.options]. *)
Definition constructor (options : Options.t) : Required.t :=
  {| Required.username := Options.username options;
     Required.discriminator := or_else (Options.discriminator options) "#0000";
     Required.avatarUrl := Options.avatarUrl options;
     Required.rank := Options.rank options;
     Required.level := Options.level options;
     Required.currentXP := Options.currentXP options;
     Required.nextLevelXP := Options.nextLevelXP options;
     Required.progress :=
       or_else (Options.progress options)
         (calculateProgress (Options.currentXP options) (Options.nextLevelXP options));
     Required.backgroundColor := or_else (Options.backgroundColor options) "#2C2F33";
     Required.textColor := or_else (Options.textColor options) "#FFFFFF";
     Required.accentColor := or_else (Options.accentColor options) "#7289DA";
     Required.rankColor := or_else (Options.rankColor options) "#FFD700";
     Required.levelColor := or_else (Options.levelColor options) "#7289DA";
     Required.progressBarColor := or_else (Options.progressBarColor options) "#43B581";
     Required.progressBarBackgroundColor :=
       or_else (Options.progressBarBackgroundColor options) "#23272A";
     Required.backgroundImage := or_else (Options.backgroundImage options) "";
     Required.fontSize :=
       {| FontSize.username :=
            Some (or_else (opt_chain (Options.fontSize options) FontSize.username) (lit 32));
          FontSize.rank :=
            Some (or_else (opt_chain (Options.fontSize options) FontSize.rank) (lit 24));
          FontSize.level :=
            Some (or_else (opt_chain (Options.fontSize options) FontSize.level) (lit 20));
          FontSize.xp :=
            Some (or_else (opt_chain (Options.fontSize options) FontSize.xp) (lit 16)) |};
     Required.padding :=
       {| Types.top :=
            Some (or_else (opt_chain (Options.padding options) Types.top) (lit 30));
          Types.right :=
            Some (or_else (opt_chain (Options.padding options) Types.right) (lit 30));
          Types.bottom :=
            Some (or_else (opt_chain (Options.padding options) Types.bottom) (lit 30));
          Types.left :=
            Some (or_else (opt_chain (Options.padding options) Types.left) (lit 30)) |};
     Required.borderRadius := or_else (Options.borderRadius options) (lit 10);
     Required.showProgress :=
       match Options.showProgress options with
       | Some b => b
       | None => true
       end |}.

(** [createCanvas(900, 300)]. *)
Definition canvas_width : number := lit 900.
Definition canvas_height : number := lit 300.

Section Drawing.

Variable world : Host.World.
Variable options : Required.t.

Let padding := Required.padding options.
Let fontSize := Required.fontSize options.

Definition drawBackground : Render unit :=
  draw (SetFillStyle (Color (Required.backgroundColor options))) ;;
  draw (FillRect (lit 0) (lit 0) canvas_width canvas_height) ;;
  (if truthy (Required.backgroundImage options) then
     backgroundImage <- loadBackground world (Required.backgroundImage options) ;;
     match backgroundImage with
     | Some img =>
         draw (SetGlobalAlpha (div (lit 15) (lit 100))) ;;
         draw (DrawImage img (lit 0) (lit 0) canvas_width canvas_height) ;;
         draw (SetGlobalAlpha (lit 1))
     | None => ret tt
     end
   else ret tt) ;;
  draw (SetFillStyle
          (LinearGradient (lit 0) (lit 0) canvas_width canvas_height
             [(lit 0, "rgba(0, 0, 0, 0.4)"); (lit 1, "rgba(0, 0, 0, 0.6)")])) ;;
  draw (FillRect (lit 0) (lit 0) canvas_width canvas_height).

Definition drawAvatar : Render unit :=
  let avatarSize := lit 80 in
  let x := toNumber (Types.left padding) in
  let y :=
    add (toNumber (Types.top padding))
        (div (sub (sub (sub canvas_height (toNumber (Types.top padding)))
                       (toNumber (Types.bottom padding)))
                  avatarSize)
             (lit 2)) in
  draw BeginPath ;;
  draw (Arc (add x (div avatarSize (lit 2))) (add y (div avatarSize (lit 2)))
            (add (div avatarSize (lit 2)) (lit 4)) (lit 0) (mul Math_PI (lit 2))) ;;
  draw (SetFillStyle (Color (Required.accentColor options))) ;;
  draw Fill ;;
  draw Save ;;
  draw BeginPath ;;
  draw (Arc (add x (div avatarSize (lit 2))) (add y (div avatarSize (lit 2)))
            (div avatarSize (lit 2)) (lit 0) (mul Math_PI (lit 2))) ;;
  draw ClosePath ;;
  draw Clip ;;
  avatar <- loadAvatar world (Required.avatarUrl options) ;;
  draw (DrawImage avatar x y avatarSize avatarSize) ;;
  draw Restore.

Definition drawRankInfo : Render unit :=
  let left := toNumber (Types.left padding) in
  let avatarSize := lit 80 in
  let currentY := toNumber (Types.top padding) in
  let fs_username := or_else (FontSize.username fontSize) (lit 0) in
  let fs_rank := or_else (FontSize.rank fontSize) (lit 0) in
  let fs_level := or_else (FontSize.level fontSize) (lit 0) in
  draw (SetFont ("bold " ++ Host.show world (FontSize.username fontSize) ++ "px Arial")) ;;
  draw (SetFillStyle (Color (Required.textColor options))) ;;
  draw (FillText (Required.username options)
          (add (add left avatarSize) (lit 30))
          (add (or_val currentY (lit 0)) fs_username)) ;;
  let currentY := add (add (or_val currentY (lit 0)) fs_username) (lit 15) in
  draw (SetFont (Host.toString world (sub fs_username (lit 8)) ++ "px Arial")) ;;
  draw (SetFillStyle (Color "#AAAAAA")) ;;
  draw (FillText (Required.discriminator options)
          (add (add left avatarSize) (lit 30))
          (add (or_val currentY (lit 0)) (sub fs_username (lit 8)))) ;;
  let currentY := add (add (or_val currentY (lit 0)) fs_username) (lit 25) in
  draw (SetFont ("bold " ++ Host.show world (FontSize.rank fontSize) ++ "px Arial")) ;;
  draw (SetFillStyle (Color (Required.rankColor options))) ;;
  draw (FillText ("Rank #" ++ Host.toString world (Required.rank options))
          (add (add left avatarSize) (lit 30))
          (add (or_val currentY (lit 0)) fs_rank)) ;;
  let currentY := add (add (or_val currentY (lit 0)) fs_rank) (lit 15) in
  draw (SetFont (Host.show world (FontSize.level fontSize) ++ "px Arial")) ;;
  draw (SetFillStyle (Color (Required.levelColor options))) ;;
  draw (FillText ("Level " ++ Host.toString world (Required.level options))
          (add (add left avatarSize) (lit 30))
          (add (or_val currentY (lit 0)) fs_level)).

(** The width of the progress-bar track and of its fill in [drawXPInfo]. *)
Definition progressBarWidth : number :=
  sub (sub canvas_width (add (add (toNumber (Types.left padding)) (lit 80)) (lit 60)))
      (toNumber (Types.right padding)).

Definition progressWidth : number :=
  div (mul progressBarWidth (Required.progress options)) (lit 100).

Definition drawXPInfo : Render unit :=
  let left := toNumber (Types.left padding) in
  let avatarSize := lit 80 in
  draw (SetFont (Host.show world (FontSize.xp fontSize) ++ "px Arial")) ;;
  draw (SetFillStyle (Color (Required.textColor options))) ;;
  draw (FillText
          (Host.toLocaleString world (Required.currentXP options) ++ " / "
           ++ Host.toLocaleString world (Required.nextLevelXP options) ++ " XP")
          (add (add left avatarSize) (lit 30))
          (sub (sub canvas_height (toNumber (Types.bottom padding))) (lit 20))) ;;
  let progressBarHeight := lit 12 in
  let progressBarY := sub (sub canvas_height (toNumber (Types.bottom padding))) (lit 40) in
  let progressBarX := add (add left avatarSize) (lit 30) in
  draw (SetFillStyle (Color (Required.progressBarBackgroundColor options))) ;;
  draw (FillRect progressBarX progressBarY progressBarWidth progressBarHeight) ;;
  (if Required.showProgress options then
     draw (SetFillStyle (Color (Required.progressBarColor options))) ;;
     draw (FillRect progressBarX progressBarY progressWidth progressBarHeight)
   else ret tt) ;;
  draw (SetStrokeStyle (Required.accentColor options)) ;;
  draw (SetLineWidth (lit 1)) ;;
  draw (StrokeRect progressBarX progressBarY progressBarWidth progressBarHeight).

Definition toBuffer : Render Buffer :=
  drawBackground ;;
  drawAvatar ;;
  drawRankInfo ;;
  drawXPInfo ;;
  roundedCorners canvas_width canvas_height (Required.borderRadius options) ;;
  encode canvas_width canvas_height.

End Drawing.

(** A generator instance is created with its options and an empty
    surface, and rendered once. *)
Definition render (world : Host.World) (options : Options.t) : thrown + Buffer :=
  match runStateT (toBuffer world (constructor options)) [] with
  | inl e => inl e
  | inr (buffer, _) => inr buffer
  end.

End RankCard.

(* ===================================================================== *)
(** ** Vocabulary of the specification *)
(* ===================================================================== *)

Module Spec.

Import JS.

(** [clamp(x, lo, hi)], as the specification uses it: [lo] below [lo],
    [hi] above [hi], [x] itself in between. *)
Definition clamp (x lo hi : number) : number :=
  if lt x lo then lo else if gt x hi then hi else x.

(** A percentage: a number in [0,100]. *)
Definition percentage (p : number) : bool :=
  le (lit 0) p && le p (lit 100).

(** An optional value that is absent or falsy: the left operand of a
    [||] that yields its right operand. *)
Definition absent_or_falsy {A : Type} `{Truthy A} (x : option A) : Prop :=
  match x with
  | Some v => truthy v = false
  | None => True
  end.

(** The two ways an optional field can fail to carry a usable value:
    it is omitted, or it is supplied with a falsy value (0, -0, NaN or
    the empty string). *)
Definition omitted {A : Type} `{Truthy A} (x : option A) : Prop :=
  x = None.

Definition supplied_falsy {A : Type} `{Truthy A} (x : option A) : Prop :=
  exists v, x = Some v /\ truthy v = false.

Definition trigger : Type := forall (A : Type), Truthy A -> option A -> Prop.

(** The four sides of a padding, under a trigger on each side. *)
Definition padding_defaults (when : trigger) (supplied : option Types.Padding)
  (normalized : Types.Padding) (pixels : Z) : Prop :=
  (when _ _ (opt_chain supplied Types.top) ->
     Types.top normalized = Some (lit pixels))
  /\ (when _ _ (opt_chain supplied Types.right) ->
      Types.right normalized = Some (lit pixels))
  /\ (when _ _ (opt_chain supplied Types.bottom) ->
      Types.bottom normalized = Some (lit pixels))
  /\ (when _ _ (opt_chain supplied Types.left) ->
      Types.left normalized = Some (lit pixels)).

(** The defaults of ProfileCard, one row per optional field read with
    [||]: when the trigger holds of the field, the normalized field is
    the default. *)
Definition profile_defaults (when : trigger) (o : ProfileCard.Options.t) : Prop :=
  (when _ _ (ProfileCard.Options.discriminator o) ->
     ProfileCard.Required.discriminator (ProfileCard.constructor o) = "#0000")
  /\ (when _ _ (ProfileCard.Options.status o) ->
      ProfileCard.Required.status (ProfileCard.constructor o) = "online")
  /\ (when _ _ (ProfileCard.Options.statusColor o) ->
      ProfileCard.Required.statusColor (ProfileCard.constructor o)
      = ProfileCard.getStatusColor
          (ProfileCard.Required.status (ProfileCard.constructor o)))
  /\ (when _ _ (ProfileCard.Options.bio o) ->
      ProfileCard.Required.bio (ProfileCard.constructor o) = "")
  /\ (when _ _ (ProfileCard.Options.badges o) ->
      ProfileCard.Required.badges (ProfileCard.constructor o) = [])
  /\ (when _ _ (ProfileCard.Options.backgroundColor o) ->
      ProfileCard.Required.backgroundColor (ProfileCard.constructor o) = "#2C2F33")
  /\ (when _ _ (ProfileCard.Options.textColor o) ->
      ProfileCard.Required.textColor (ProfileCard.constructor o) = "#FFFFFF")
  /\ (when _ _ (ProfileCard.Options.accentColor o) ->
      ProfileCard.Required.accentColor (ProfileCard.constructor o) = "#7289DA")
  /\ (when _ _ (ProfileCard.Options.backgroundImage o) ->
      ProfileCard.Required.backgroundImage (ProfileCard.constructor o) = "")
  /\ (when _ _ (opt_chain (ProfileCard.Options.fontSize o) ProfileCard.FontSize.username) ->
      ProfileCard.FontSize.username
        (ProfileCard.Required.fontSize (ProfileCard.constructor o)) = Some (lit 32))
  /\ (when _ _ (opt_chain (ProfileCard.Options.fontSize o) ProfileCard.FontSize.bio) ->
      ProfileCard.FontSize.bio
        (ProfileCard.Required.fontSize (ProfileCard.constructor o)) = Some (lit 16))
  /\ (when _ _ (opt_chain (ProfileCard.Options.fontSize o) ProfileCard.FontSize.badges) ->
      ProfileCard.FontSize.badges
        (ProfileCard.Required.fontSize (ProfileCard.constructor o)) = Some (lit 14))
  /\ padding_defaults when (ProfileCard.Options.padding o)
       (ProfileCard.Required.padding (ProfileCard.constructor o)) 30
  /\ (when _ _ (ProfileCard.Options.borderRadius o) ->
      ProfileCard.Required.borderRadius (ProfileCard.constructor o) = lit 10)
  /\ (when _ ProfileCard.Truthy_Layout (ProfileCard.Options.layout o) ->
      ProfileCard.Required.layout (ProfileCard.constructor o) = ProfileCard.vertical).

(** The defaults of WelcomeCard. *)
Definition welcome_defaults (when : trigger) (o : WelcomeCard.Options.t) : Prop :=
  (when _ _ (WelcomeCard.Options.discriminator o) ->
     WelcomeCard.Required.discriminator (WelcomeCard.constructor o) = "#0000")
  /\ (when _ _ (WelcomeCard.Options.memberCount o) ->
      WelcomeCard.Required.memberCount (WelcomeCard.constructor o) = lit 0)
  /\ (when _ _ (WelcomeCard.Options.backgroundColor o) ->
      WelcomeCard.Required.backgroundColor (WelcomeCard.constructor o) = "#2C2F33")
  /\ (when _ _ (WelcomeCard.Options.textColor o) ->
      WelcomeCard.Required.textColor (WelcomeCard.constructor o) = "#FFFFFF")
  /\ (when _ _ (WelcomeCard.Options.accentColor o) ->
      WelcomeCard.Required.accentColor (WelcomeCard.constructor o) = "#7289DA")
  /\ (when _ _ (WelcomeCard.Options.backgroundImage o) ->
      WelcomeCard.Required.backgroundImage (WelcomeCard.constructor o) = "")
  /\ (when _ _ (opt_chain (WelcomeCard.Options.fontSize o) WelcomeCard.FontSize.title) ->
      WelcomeCard.FontSize.title
        (WelcomeCard.Required.fontSize (WelcomeCard.constructor o)) = Some (lit 60))
  /\ (when _ _ (opt_chain (WelcomeCard.Options.fontSize o) WelcomeCard.FontSize.subtitle) ->
      WelcomeCard.FontSize.subtitle
        (WelcomeCard.Required.fontSize (WelcomeCard.constructor o)) = Some (lit 28))
  /\ (when _ _
        (opt_chain (WelcomeCard.Options.fontSize o) WelcomeCard.FontSize.memberCount) ->
      WelcomeCard.FontSize.memberCount
        (WelcomeCard.Required.fontSize (WelcomeCard.constructor o)) = Some (lit 20))
  /\ padding_defaults when (WelcomeCard.Options.padding o)
       (WelcomeCard.Required.padding (WelcomeCard.constructor o)) 60
  /\ (when _ _ (WelcomeCard.Options.borderRadius o) ->
      WelcomeCard.Required.borderRadius (WelcomeCard.constructor o) = lit 15).

(** The defaults of RankCard; the default of [progress] is computed from
    the XP fields. [showProgress] is not read with [||] and has no row. *)
Definition rank_defaults (when : trigger) (o : RankCard.Options.t) : Prop :=
  (when _ _ (RankCard.Options.discriminator o) ->
     RankCard.Required.discriminator (RankCard.constructor o) = "#0000")
  /\ (when _ _ (RankCard.Options.progress o) ->
      RankCard.Required.progress (RankCard.constructor o)
      = RankCard.calculateProgress (RankCard.Options.currentXP o)
          (RankCard.Options.nextLevelXP o))
  /\ (when _ _ (RankCard.Options.backgroundColor o) ->
      RankCard.Required.backgroundColor (RankCard.constructor o) = "#2C2F33")
  /\ (when _ _ (RankCard.Options.textColor o) ->
      RankCard.Required.textColor (RankCard.constructor o) = "#FFFFFF")
  /\ (when _ _ (RankCard.Options.accentColor o) ->
      RankCard.Required.accentColor (RankCard.constructor o) = "#7289DA")
  /\ (when _ _ (RankCard.Options.rankColor o) ->
      RankCard.Required.rankColor (RankCard.constructor o) = "#FFD700")
  /\ (when _ _ (RankCard.Options.levelColor o) ->
      RankCard.Required.levelColor (RankCard.constructor o) = "#7289DA")
  /\ (when _ _ (RankCard.Options.progressBarColor o) ->
      RankCard.Required.progressBarColor (RankCard.constructor o) = "#43B581")
  /\ (when _ _ (RankCard.Options.progressBarBackgroundColor o) ->
      RankCard.Required.progressBarBackgroundColor (RankCard.constructor o) = "#23272A")
  /\ (when _ _ (RankCard.Options.backgroundImage o) ->
      RankCard.Required.backgroundImage (RankCard.constructor o) = "")
  /\ (when _ _ (opt_chain (RankCard.Options.fontSize o) RankCard.FontSize.username) ->
      RankCard.FontSize.username
        (RankCard.Required.fontSize (RankCard.constructor o)) = Some (lit 32))
  /\ (when _ _ (opt_chain (RankCard.Options.fontSize o) RankCard.FontSize.rank) ->
      RankCard.FontSize.rank
        (RankCard.Required.fontSize (RankCard.constructor o)) = Some (lit 24))
  /\ (when _ _ (opt_chain (RankCard.Options.fontSize o) RankCard.FontSize.level) ->
      RankCard.FontSize.level
        (RankCard.Required.fontSize (RankCard.constructor o)) = Some (lit 20))
  /\ (when _ _ (opt_chain (RankCard.Options.fontSize o) RankCard.FontSize.xp) ->
      RankCard.FontSize.xp
        (RankCard.Required.fontSize (RankCard.constructor o)) = Some (lit 16))
  /\ padding_defaults when (RankCard.Options.padding o)
       (RankCard.Required.padding (RankCard.constructor o)) 30
  /\ (when _ _ (RankCard.Options.borderRadius o) ->
      RankCard.Required.borderRadius (RankCard.constructor o) = lit 10).

(** The fields that [Required] leaves optional in the type (it is
    shallow) are nevertheless set. *)
Definition padding_set (p : Types.Padding) : Prop :=
  Types.top p <> None /\ Types.right p <> None
  /\ Types.bottom p <> None /\ Types.left p <> None.

Definition profile_fontSize_set (f : ProfileCard.FontSize.t) : Prop :=
  ProfileCard.FontSize.username f <> None /\ ProfileCard.FontSize.bio f <> None
  /\ ProfileCard.FontSize.badges f <> None.

Definition welcome_fontSize_set (f : WelcomeCard.FontSize.t) : Prop :=
  WelcomeCard.FontSize.title f <> None /\ WelcomeCard.FontSize.subtitle f <> None
  /\ WelcomeCard.FontSize.memberCount f <> None.

Definition rank_fontSize_set (f : RankCard.FontSize.t) : Prop :=
  RankCard.FontSize.username f <> None /\ RankCard.FontSize.rank f <> None
  /\ RankCard.FontSize.level f <> None /\ RankCard.FontSize.xp f <> None.

(** What the background stage leaves on the surface when there is no
    background image: the solid colour, then the gradient overlay. *)
Definition rank_solid_background (options : RankCard.Required.t) : list Canvas.op :=
  [ Canvas.SetFillStyle (Canvas.Color (RankCard.Required.backgroundColor options));
    Canvas.FillRect (lit 0) (lit 0) RankCard.canvas_width RankCard.canvas_height;
    Canvas.SetFillStyle
      (Canvas.LinearGradient (lit 0) (lit 0) RankCard.canvas_width RankCard.canvas_height
         [(lit 0, "rgba(0, 0, 0, 0.4)"); (lit 1, "rgba(0, 0, 0, 0.6)")]);
    Canvas.FillRect (lit 0) (lit 0) RankCard.canvas_width RankCard.canvas_height ].

Definition profile_solid_background (options : ProfileCard.Required.t)
  : list Canvas.op :=
  [ Canvas.SetFillStyle (Canvas.Color (ProfileCard.Required.backgroundColor options));
    Canvas.FillRect (lit 0) (lit 0) ProfileCard.canvas_width ProfileCard.canvas_height;
    Canvas.SetFillStyle
      (Canvas.LinearGradient (lit 0) (lit 0)
         ProfileCard.canvas_width ProfileCard.canvas_height
         [(lit 0, "rgba(0, 0, 0, 0.3)"); (lit 1, "rgba(0, 0, 0, 0.7)")]);
    Canvas.FillRect (lit 0) (lit 0) ProfileCard.canvas_width ProfileCard.canvas_height ].

(** What the background stage of WelcomeCard leaves on the surface: the
    avatar at full size on an offscreen canvas, that canvas drawn through
    a blur of 8 pixels, and the gradient overlay. *)
Definition welcome_blurred_background (avatar : Host.Image) : list Canvas.op :=
  [ Canvas.Save;
    Canvas.SetFilter "blur(8px)";
    Canvas.DrawCanvas WelcomeCard.canvas_width WelcomeCard.canvas_height
      [Canvas.DrawImage avatar (lit 0) (lit 0)
         WelcomeCard.canvas_width WelcomeCard.canvas_height]
      (lit 0) (lit 0);
    Canvas.SetFilter "none";
    Canvas.Restore;
    Canvas.SetFillStyle
      (Canvas.LinearGradient (lit 0) (lit 0) (lit 0) WelcomeCard.canvas_height
         [(lit 0, "rgba(0, 0, 0, 0.4)"); (lit 1, "rgba(0, 0, 0, 0.7)")]);
    Canvas.FillRect (lit 0) (lit 0)
      WelcomeCard.canvas_width WelcomeCard.canvas_height ].

(** Two WelcomeCard option records that differ at most in their
    [backgroundImage]. *)
Definition welcome_same_but_backgroundImage (a b : WelcomeCard.Options.t) : Prop :=
  WelcomeCard.Options.username a = WelcomeCard.Options.username b
  /\ WelcomeCard.Options.discriminator a = WelcomeCard.Options.discriminator b
  /\ WelcomeCard.Options.avatarUrl a = WelcomeCard.Options.avatarUrl b
  /\ WelcomeCard.Options.serverName a = WelcomeCard.Options.serverName b
  /\ WelcomeCard.Options.memberCount a = WelcomeCard.Options.memberCount b
  /\ WelcomeCard.Options.backgroundColor a = WelcomeCard.Options.backgroundColor b
  /\ WelcomeCard.Options.textColor a = WelcomeCard.Options.textColor b
  /\ WelcomeCard.Options.accentColor a = WelcomeCard.Options.accentColor b
  /\ WelcomeCard.Options.fontSize a = WelcomeCard.Options.fontSize b
  /\ WelcomeCard.Options.padding a = WelcomeCard.Options.padding b
  /\ WelcomeCard.Options.borderRadius a = WelcomeCard.Options.borderRadius b.

(** A bio line is too wide when its measured width, under the font of
    the bio, is greater than the width of the text column. *)
Definition too_wide (world : Host.World) (options : ProfileCard.Required.t)
  (line : string) : Prop :=
  gt (Host.measureText world (ProfileCard.bioFont world options) line)
     (ProfileCard.maxWidth options) = true.

(** A line made of one word of the list (each word is drawn with the
    space that the loop appends to it). *)
Definition single_word (words : list string) (line : string) : Prop :=
  exists word, In word words /\ line = word ++ " ".

(** A bio line is acceptable when it is not too wide, or is a single
    word. *)
Definition acceptable_line (world : Host.World) (options : ProfileCard.Required.t)
  (words : list string) (line : string) : Prop :=
  too_wide world options line -> single_word words line.

(** The request for a remote avatar is answered with a status that is
    not ok. *)
Definition fetch_not_ok (world : Host.World) (avatarUrl : string)
  (response : Host.Response) : Prop :=
  Canvas.isLocalPath avatarUrl = false
  /\ Host.fetch world avatarUrl = inr response
  /\ Host.ok response = false.

(** The error that [loadAvatar] rejects with in that case. *)
Definition avatar_error (avatarUrl : string) (response : Host.Response) : thrown :=
  new_Error ("Failed to load external avatar: " ++ avatarUrl
             ++ ". Error: Failed to fetch image: " ++ Host.statusText response).

(** The background stage of ProfileCard and RankCard gets past its load:
    there is no background image, or it decodes. *)
Definition background_passes (world : Host.World) (backgroundImage : string) : Prop :=
  truthy backgroundImage = false
  \/ Host.decode world (Host.SrcString backgroundImage) = None.

End Spec.

(* ===================================================================== *)
(** ** Concrete hosts and option records *)
(* ===================================================================== *)

Module Samples.

Import JS.

(** A host where every request answers 200 and every image decodes; a
    text is as wide as its number of characters. *)
Definition world_ok : Host.World :=
  {| Host.fetch := fun _ =>
       inr {| Host.status := 200; Host.statusText := "OK"; Host.arrayBuffer := inr [] |};
     Host.decode := fun _ => None;
     Host.measureText := fun _ text => lit (Z.of_nat (String.length text));
     Host.toString := fun _ => "0";
     Host.toLocaleString := fun _ => "0" |}.

(** The same host, but every request answers 404 Not Found. *)
Definition world_404 : Host.World :=
  {| Host.fetch := fun _ =>
       inr {| Host.status := 404; Host.statusText := "Not Found";
              Host.arrayBuffer := inr [] |};
     Host.decode := fun _ => None;
     Host.measureText := fun _ text => lit (Z.of_nat (String.length text));
     Host.toString := fun _ => "0";
     Host.toLocaleString := fun _ => "0" |}.

(** The same as [world_ok], but no image given by a string decodes. *)
Definition world_no_file : Host.World :=
  {| Host.fetch := Host.fetch world_ok;
     Host.decode := fun src =>
       match src with
       | Host.SrcString _ => Some (new_Error "Unsupported image type")
       | Host.SrcBuffer _ => None
       end;
     Host.measureText := Host.measureText world_ok;
     Host.toString := Host.toString world_ok;
     Host.toLocaleString := Host.toLocaleString world_ok |}.

(** The same as [world_ok], but a text is a hundred times as wide as
    its number of characters. *)
Definition world_wide : Host.World :=
  {| Host.fetch := Host.fetch world_ok;
     Host.decode := Host.decode world_ok;
     Host.measureText := fun _ text => lit (100 * Z.of_nat (String.length text));
     Host.toString := Host.toString world_ok;
     Host.toLocaleString := Host.toLocaleString world_ok |}.

(** RankCard options with only the required fields, and [progress]. *)
Definition rank_options (avatarUrl : string) (currentXP nextLevelXP : number)
  (progress : option number) (backgroundImage : option string)
  : RankCard.Options.t :=
  {| RankCard.Options.username := "user";
     RankCard.Options.discriminator := None;
     RankCard.Options.avatarUrl := avatarUrl;
     RankCard.Options.rank := lit 3;
     RankCard.Options.level := lit 7;
     RankCard.Options.currentXP := currentXP;
     RankCard.Options.nextLevelXP := nextLevelXP;
     RankCard.Options.progress := progress;
     RankCard.Options.backgroundColor := None;
     RankCard.Options.textColor := None;
     RankCard.Options.accentColor := None;
     RankCard.Options.rankColor := None;
     RankCard.Options.levelColor := None;
     RankCard.Options.progressBarColor := None;
     RankCard.Options.progressBarBackgroundColor := None;
     RankCard.Options.backgroundImage := backgroundImage;
     RankCard.Options.fontSize := None;
     RankCard.Options.padding := None;
     RankCard.Options.borderRadius := None;
     RankCard.Options.showProgress := None |}.

(** ProfileCard options with only the required fields, a bio and a
    background image. *)
Definition profile_options (avatarUrl : string) (bio : option string)
  (backgroundImage : option string) : ProfileCard.Options.t :=
  {| ProfileCard.Options.username := "user";
     ProfileCard.Options.discriminator := None;
     ProfileCard.Options.avatarUrl := avatarUrl;
     ProfileCard.Options.status := None;
     ProfileCard.Options.statusColor := None;
     ProfileCard.Options.bio := bio;
     ProfileCard.Options.badges := None;
     ProfileCard.Options.backgroundColor := None;
     ProfileCard.Options.textColor := None;
     ProfileCard.Options.accentColor := None;
     ProfileCard.Options.backgroundImage := backgroundImage;
     ProfileCard.Options.fontSize := None;
     ProfileCard.Options.padding := None;
     ProfileCard.Options.borderRadius := None;
     ProfileCard.Options.layout := None |}.

(** WelcomeCard options with only the required fields, and a background
    image. *)
Definition welcome_options (avatarUrl : string) (backgroundImage : option string)
  : WelcomeCard.Options.t :=
  {| WelcomeCard.Options.username := "user";
     WelcomeCard.Options.discriminator := None;
     WelcomeCard.Options.avatarUrl := avatarUrl;
     WelcomeCard.Options.serverName := "server";
     WelcomeCard.Options.memberCount := None;
     WelcomeCard.Options.backgroundColor := None;
     WelcomeCard.Options.textColor := None;
     WelcomeCard.Options.accentColor := None;
     WelcomeCard.Options.backgroundImage := backgroundImage;
     WelcomeCard.Options.fontSize := None;
     WelcomeCard.Options.padding := None;
     WelcomeCard.Options.borderRadius := None |}.

(** Every side of the padding is 0. *)
Definition padding_zero : Types.Padding :=
  {| Types.top := Some (lit 0); Types.right := Some (lit 0);
     Types.bottom := Some (lit 0); Types.left := Some (lit 0) |}.

(** Option records whose optional numbers are 0 and whose optional
    strings are empty. *)
Definition profile_falsy : ProfileCard.Options.t :=
  {| ProfileCard.Options.username := "user";
     ProfileCard.Options.discriminator := Some "";
     ProfileCard.Options.avatarUrl := "./avatar.png";
     ProfileCard.Options.status := Some "";
     ProfileCard.Options.statusColor := Some "";
     ProfileCard.Options.bio := Some "";
     ProfileCard.Options.badges := None;
     ProfileCard.Options.backgroundColor := Some "";
     ProfileCard.Options.textColor := Some "";
     ProfileCard.Options.accentColor := Some "";
     ProfileCard.Options.backgroundImage := Some "";
     ProfileCard.Options.fontSize :=
       Some {| ProfileCard.FontSize.username := Some (lit 0);
               ProfileCard.FontSize.bio := Some (lit 0);
               ProfileCard.FontSize.badges := Some (lit 0) |};
     ProfileCard.Options.padding := Some padding_zero;
     ProfileCard.Options.borderRadius := Some (lit 0);
     ProfileCard.Options.layout := None |}.

Definition welcome_falsy : WelcomeCard.Options.t :=
  {| WelcomeCard.Options.username := "user";
     WelcomeCard.Options.discriminator := Some "";
     WelcomeCard.Options.avatarUrl := "./avatar.png";
     WelcomeCard.Options.serverName := "server";
     WelcomeCard.Options.memberCount := Some (lit 0);
     WelcomeCard.Options.backgroundColor := Some "";
     WelcomeCard.Options.textColor := Some "";
     WelcomeCard.Options.accentColor := Some "";
     WelcomeCard.Options.backgroundImage := Some "";
     WelcomeCard.Options.fontSize :=
       Some {| WelcomeCard.FontSize.title := Some (lit 0);
               WelcomeCard.FontSize.subtitle := Some (lit 0);
               WelcomeCard.FontSize.memberCount := Some (lit 0) |};
     WelcomeCard.Options.padding := Some padding_zero;
     WelcomeCard.Options.borderRadius := Some (lit 0) |}.

Definition rank_falsy : RankCard.Options.t :=
  {| RankCard.Options.username := "user";
     RankCard.Options.discriminator := Some "";
     RankCard.Options.avatarUrl := "./avatar.png";
     RankCard.Options.rank := lit 3;
     RankCard.Options.level := lit 7;
     RankCard.Options.currentXP := lit 50;
     RankCard.Options.nextLevelXP := lit 100;
     RankCard.Options.progress := Some (lit 0);
     RankCard.Options.backgroundColor := Some "";
     RankCard.Options.textColor := Some "";
     RankCard.Options.accentColor := Some "";
     RankCard.Options.rankColor := Some "";
     RankCard.Options.levelColor := Some "";
     RankCard.Options.progressBarColor := Some "";
     RankCard.Options.progressBarBackgroundColor := Some "";
     RankCard.Options.backgroundImage := Some "";
     RankCard.Options.fontSize :=
       Some {| RankCard.FontSize.username := Some (lit 0);
               RankCard.FontSize.rank := Some (lit 0);
               RankCard.FontSize.level := Some (lit 0);
               RankCard.FontSize.xp := Some (lit 0) |};
     RankCard.Options.padding := Some padding_zero;
     RankCard.Options.borderRadius := Some (lit 0);
     RankCard.Options.showProgress := None |}.

End Samples.

(* ===================================================================== *)
(** ** Vocabulary for the behaviour of the loaders and of the stages *)
(* ===================================================================== *)

Module Behaviour.

Import JS Canvas.

(** The same host with another HTTP client. *)
Definition with_fetch (world : Host.World)
  (fetch : string -> thrown + Host.Response) : Host.World :=
  {| Host.fetch := fetch;
     Host.decode := Host.decode world;
     Host.measureText := Host.measureText world;
     Host.toString := Host.toString world;
     Host.toLocaleString := Host.toLocaleString world |}.

(** The error that the [catch] of [loadAvatar] throws for a cause. *)
Definition load_error (avatarUrl : string) (cause : thrown) : thrown :=
  new_Error ("Failed to load external avatar: " ++ avatarUrl
             ++ ". Error: " ++ message_of cause).

(** The twelve calls that trace the rounded rectangle and clip to it. *)
Definition corner_path (width height radius : number) : list op :=
  [ BeginPath;
    MoveTo radius (lit 0);
    LineTo (sub width radius) (lit 0);
    QuadraticCurveTo width (lit 0) width radius;
    LineTo width (sub height radius);
    QuadraticCurveTo width height (sub width radius) height;
    LineTo radius height;
    QuadraticCurveTo (lit 0) height (lit 0) (sub height radius);
    LineTo (lit 0) radius;
    QuadraticCurveTo (lit 0) (lit 0) radius (lit 0);
    ClosePath;
    Clip ].

(** The rectangles filled on a surface, and the baselines of its texts. *)
Fixpoint fillRects (c : surface) : list (number * number * number * number) :=
  match c with
  | [] => []
  | FillRect x y w h :: rest => (x, y, w, h) :: fillRects rest
  | _ :: rest => fillRects rest
  end.

Fixpoint fillTextYs (c : surface) : list number :=
  match c with
  | [] => []
  | FillText _ _ y :: rest => y :: fillTextYs rest
  | _ :: rest => fillTextYs rest
  end.

(** A supplied value that is truthy is the normalized value. *)
Definition kept {A : Type} `{Truthy A} (supplied : option A) (normalized : A) : Prop :=
  forall v, supplied = Some v -> truthy v = true -> normalized = v.

Definition kept_inner (supplied normalized : option number) : Prop :=
  forall v, supplied = Some v -> truthy v = true -> normalized = Some v.

Definition padding_kept (supplied : option Types.Padding)
  (normalized : Types.Padding) : Prop :=
  kept_inner (opt_chain supplied Types.top) (Types.top normalized)
  /\ kept_inner (opt_chain supplied Types.right) (Types.right normalized)
  /\ kept_inner (opt_chain supplied Types.bottom) (Types.bottom normalized)
  /\ kept_inner (opt_chain supplied Types.left) (Types.left normalized).

(** What each constructor takes over from the caller: the required
    fields as they are, and every optional field whose value is truthy. *)
Definition profile_kept (o : ProfileCard.Options.t) : Prop :=
  ProfileCard.Required.username (ProfileCard.constructor o)
  = ProfileCard.Options.username o
  /\ ProfileCard.Required.avatarUrl (ProfileCard.constructor o)
     = ProfileCard.Options.avatarUrl o
  /\ kept (ProfileCard.Options.discriminator o)
       (ProfileCard.Required.discriminator (ProfileCard.constructor o))
  /\ kept (ProfileCard.Options.status o)
       (ProfileCard.Required.status (ProfileCard.constructor o))
  /\ kept (ProfileCard.Options.statusColor o)
       (ProfileCard.Required.statusColor (ProfileCard.constructor o))
  /\ kept (ProfileCard.Options.bio o)
       (ProfileCard.Required.bio (ProfileCard.constructor o))
  /\ kept (ProfileCard.Options.badges o)
       (ProfileCard.Required.badges (ProfileCard.constructor o))
  /\ kept (ProfileCard.Options.backgroundColor o)
       (ProfileCard.Required.backgroundColor (ProfileCard.constructor o))
  /\ kept (ProfileCard.Options.textColor o)
       (ProfileCard.Required.textColor (ProfileCard.constructor o))
  /\ kept (ProfileCard.Options.accentColor o)
       (ProfileCard.Required.accentColor (ProfileCard.constructor o))
  /\ kept (ProfileCard.Options.backgroundImage o)
       (ProfileCard.Required.backgroundImage (ProfileCard.constructor o))
  /\ kept_inner (opt_chain (ProfileCard.Options.fontSize o) ProfileCard.FontSize.username)
       (ProfileCard.FontSize.username
          (ProfileCard.Required.fontSize (ProfileCard.constructor o)))
  /\ kept_inner (opt_chain (ProfileCard.Options.fontSize o) ProfileCard.FontSize.bio)
       (ProfileCard.FontSize.bio
          (ProfileCard.Required.fontSize (ProfileCard.constructor o)))
  /\ kept_inner (opt_chain (ProfileCard.Options.fontSize o) ProfileCard.FontSize.badges)
       (ProfileCard.FontSize.badges
          (ProfileCard.Required.fontSize (ProfileCard.constructor o)))
  /\ padding_kept (ProfileCard.Options.padding o)
       (ProfileCard.Required.padding (ProfileCard.constructor o))
  /\ kept (ProfileCard.Options.borderRadius o)
       (ProfileCard.Required.borderRadius (ProfileCard.constructor o))
  /\ @kept _ ProfileCard.Truthy_Layout (ProfileCard.Options.layout o)
       (ProfileCard.Required.layout (ProfileCard.constructor o)).

Definition welcome_kept (o : WelcomeCard.Options.t) : Prop :=
  WelcomeCard.Required.username (WelcomeCard.constructor o)
  = WelcomeCard.Options.username o
  /\ WelcomeCard.Required.avatarUrl (WelcomeCard.constructor o)
     = WelcomeCard.Options.avatarUrl o
  /\ WelcomeCard.Required.serverName (WelcomeCard.constructor o)
     = WelcomeCard.Options.serverName o
  /\ kept (WelcomeCard.Options.discriminator o)
       (WelcomeCard.Required.discriminator (WelcomeCard.constructor o))
  /\ kept (WelcomeCard.Options.memberCount o)
       (WelcomeCard.Required.memberCount (WelcomeCard.constructor o))
  /\ kept (WelcomeCard.Options.backgroundColor o)
       (WelcomeCard.Required.backgroundColor (WelcomeCard.constructor o))
  /\ kept (WelcomeCard.Options.textColor o)
       (WelcomeCard.Required.textColor (WelcomeCard.constructor o))
  /\ kept (WelcomeCard.Options.accentColor o)
       (WelcomeCard.Required.accentColor (WelcomeCard.constructor o))
  /\ kept (WelcomeCard.Options.backgroundImage o)
       (WelcomeCard.Required.backgroundImage (WelcomeCard.constructor o))
  /\ kept_inner (opt_chain (WelcomeCard.Options.fontSize o) WelcomeCard.FontSize.title)
       (WelcomeCard.FontSize.title
          (WelcomeCard.Required.fontSize (WelcomeCard.constructor o)))
  /\ kept_inner (opt_chain (WelcomeCard.Options.fontSize o) WelcomeCard.FontSize.subtitle)
       (WelcomeCard.FontSize.subtitle
          (WelcomeCard.Required.fontSize (WelcomeCard.constructor o)))
  /\ kept_inner
       (opt_chain (WelcomeCard.Options.fontSize o) WelcomeCard.FontSize.memberCount)
       (WelcomeCard.FontSize.memberCount
          (WelcomeCard.Required.fontSize (WelcomeCard.constructor o)))
  /\ padding_kept (WelcomeCard.Options.padding o)
       (WelcomeCard.Required.padding (WelcomeCard.constructor o))
  /\ kept (WelcomeCard.Options.borderRadius o)
       (WelcomeCard.Required.borderRadius (WelcomeCard.constructor o)).

(** For RankCard, [showProgress] is taken over whenever it is supplied,
    [false] included. *)
Definition rank_kept (o : RankCard.Options.t) : Prop :=
  RankCard.Required.username (RankCard.constructor o) = RankCard.Options.username o
  /\ RankCard.Required.avatarUrl (RankCard.constructor o) = RankCard.Options.avatarUrl o
  /\ RankCard.Required.rank (RankCard.constructor o) = RankCard.Options.rank o
  /\ RankCard.Required.level (RankCard.constructor o) = RankCard.Options.level o
  /\ RankCard.Required.currentXP (RankCard.constructor o) = RankCard.Options.currentXP o
  /\ RankCard.Required.nextLevelXP (RankCard.constructor o)
     = RankCard.Options.nextLevelXP o
  /\ kept (RankCard.Options.discriminator o)
       (RankCard.Required.discriminator (RankCard.constructor o))
  /\ kept (RankCard.Options.progress o)
       (RankCard.Required.progress (RankCard.constructor o))
  /\ kept (RankCard.Options.backgroundColor o)
       (RankCard.Required.backgroundColor (RankCard.constructor o))
  /\ kept (RankCard.Options.textColor o)
       (RankCard.Required.textColor (RankCard.constructor o))
  /\ kept (RankCard.Options.accentColor o)
       (RankCard.Required.accentColor (RankCard.constructor o))
  /\ kept (RankCard.Options.rankColor o)
       (RankCard.Required.rankColor (RankCard.constructor o))
  /\ kept (RankCard.Options.levelColor o)
       (RankCard.Required.levelColor (RankCard.constructor o))
  /\ kept (RankCard.Options.progressBarColor o)
       (RankCard.Required.progressBarColor (RankCard.constructor o))
  /\ kept (RankCard.Options.progressBarBackgroundColor o)
       (RankCard.Required.progressBarBackgroundColor (RankCard.constructor o))
  /\ kept (RankCard.Options.backgroundImage o)
       (RankCard.Required.backgroundImage (RankCard.constructor o))
  /\ kept_inner (opt_chain (RankCard.Options.fontSize o) RankCard.FontSize.username)
       (RankCard.FontSize.username (RankCard.Required.fontSize (RankCard.constructor o)))
  /\ kept_inner (opt_chain (RankCard.Options.fontSize o) RankCard.FontSize.rank)
       (RankCard.FontSize.rank (RankCard.Required.fontSize (RankCard.constructor o)))
  /\ kept_inner (opt_chain (RankCard.Options.fontSize o) RankCard.FontSize.level)
       (RankCard.FontSize.level (RankCard.Required.fontSize (RankCard.constructor o)))
  /\ kept_inner (opt_chain (RankCard.Options.fontSize o) RankCard.FontSize.xp)
       (RankCard.FontSize.xp (RankCard.Required.fontSize (RankCard.constructor o)))
  /\ padding_kept (RankCard.Options.padding o)
       (RankCard.Required.padding (RankCard.constructor o))
  /\ kept (RankCard.Options.borderRadius o)
       (RankCard.Required.borderRadius (RankCard.constructor o))
  /\ (forall b, RankCard.Options.showProgress o = Some b ->
        RankCard.Required.showProgress (RankCard.constructor o) = b).

(** A field of [fontSize] or [padding] that holds a truthy number: one
    that is neither 0 nor NaN. *)
Definition usable (x : option number) : Prop :=
  exists v, x = Some v /\ truthy v = true.

Definition padding_usable (p : Types.Padding) : Prop :=
  usable (Types.top p) /\ usable (Types.right p)
  /\ usable (Types.bottom p) /\ usable (Types.left p).

(** The fields of a normalized configuration that can never be falsy:
    the strings are not empty, the numbers are neither 0 nor NaN. *)
Definition profile_usable (c : ProfileCard.Required.t) : Prop :=
  truthy (ProfileCard.Required.discriminator c) = true
  /\ truthy (ProfileCard.Required.status c) = true
  /\ truthy (ProfileCard.Required.statusColor c) = true
  /\ truthy (ProfileCard.Required.backgroundColor c) = true
  /\ truthy (ProfileCard.Required.textColor c) = true
  /\ truthy (ProfileCard.Required.accentColor c) = true
  /\ usable (ProfileCard.FontSize.username (ProfileCard.Required.fontSize c))
  /\ usable (ProfileCard.FontSize.bio (ProfileCard.Required.fontSize c))
  /\ usable (ProfileCard.FontSize.badges (ProfileCard.Required.fontSize c))
  /\ padding_usable (ProfileCard.Required.padding c)
  /\ truthy (ProfileCard.Required.borderRadius c) = true.

Definition welcome_usable (c : WelcomeCard.Required.t) : Prop :=
  truthy (WelcomeCard.Required.discriminator c) = true
  /\ truthy (WelcomeCard.Required.backgroundColor c) = true
  /\ truthy (WelcomeCard.Required.textColor c) = true
  /\ truthy (WelcomeCard.Required.accentColor c) = true
  /\ usable (WelcomeCard.FontSize.title (WelcomeCard.Required.fontSize c))
  /\ usable (WelcomeCard.FontSize.subtitle (WelcomeCard.Required.fontSize c))
  /\ usable (WelcomeCard.FontSize.memberCount (WelcomeCard.Required.fontSize c))
  /\ padding_usable (WelcomeCard.Required.padding c)
  /\ truthy (WelcomeCard.Required.borderRadius c) = true.

Definition rank_usable (c : RankCard.Required.t) : Prop :=
  truthy (RankCard.Required.discriminator c) = true
  /\ truthy (RankCard.Required.backgroundColor c) = true
  /\ truthy (RankCard.Required.textColor c) = true
  /\ truthy (RankCard.Required.accentColor c) = true
  /\ truthy (RankCard.Required.rankColor c) = true
  /\ truthy (RankCard.Required.levelColor c) = true
  /\ truthy (RankCard.Required.progressBarColor c) = true
  /\ truthy (RankCard.Required.progressBarBackgroundColor c) = true
  /\ usable (RankCard.FontSize.username (RankCard.Required.fontSize c))
  /\ usable (RankCard.FontSize.rank (RankCard.Required.fontSize c))
  /\ usable (RankCard.FontSize.level (RankCard.Required.fontSize c))
  /\ usable (RankCard.FontSize.xp (RankCard.Required.fontSize c))
  /\ padding_usable (RankCard.Required.padding c)
  /\ truthy (RankCard.Required.borderRadius c) = true.

(** The strings of a list, one after the other. *)
Definition join_all (l : list string) : string :=
  fold_right append "" l.

(** The track of the progress bar of a RankCard and its fill. *)
Definition rank_bar_track (c : RankCard.Required.t)
  : number * number * number * number :=
  (add (add (toNumber (Types.left (RankCard.Required.padding c))) (lit 80)) (lit 30),
   sub (sub RankCard.canvas_height (toNumber (Types.bottom (RankCard.Required.padding c))))
       (lit 40),
   RankCard.progressBarWidth c,
   lit 12).

Definition rank_bar_fill (c : RankCard.Required.t)
  : number * number * number * number :=
  (add (add (toNumber (Types.left (RankCard.Required.padding c))) (lit 80)) (lit 30),
   sub (sub RankCard.canvas_height (toNumber (Types.bottom (RankCard.Required.padding c))))
       (lit 40),
   RankCard.progressWidth c,
   lit 12).

(** A surface on which the corner path has been traced after everything
    else, and its encoding. *)
Definition finished (width height radius : number) (drawn : list op) : surface :=
  (drawn ++ corner_path width height radius)%list.

Definition png (width height : number) (c : surface) : Buffer :=
  {| format := "png"; Canvas.width := width; Canvas.height := height; content := c |}.

(** Two WelcomeCard option records that differ at most in their
    [backgroundColor] and [backgroundImage]. *)
Definition welcome_same_but_background (a b : WelcomeCard.Options.t) : Prop :=
  WelcomeCard.Options.username a = WelcomeCard.Options.username b
  /\ WelcomeCard.Options.discriminator a = WelcomeCard.Options.discriminator b
  /\ WelcomeCard.Options.avatarUrl a = WelcomeCard.Options.avatarUrl b
  /\ WelcomeCard.Options.serverName a = WelcomeCard.Options.serverName b
  /\ WelcomeCard.Options.memberCount a = WelcomeCard.Options.memberCount b
  /\ WelcomeCard.Options.textColor a = WelcomeCard.Options.textColor b
  /\ WelcomeCard.Options.accentColor a = WelcomeCard.Options.accentColor b
  /\ WelcomeCard.Options.fontSize a = WelcomeCard.Options.fontSize b
  /\ WelcomeCard.Options.padding a = WelcomeCard.Options.padding b
  /\ WelcomeCard.Options.borderRadius a = WelcomeCard.Options.borderRadius b.

(** Two ProfileCard option records that differ at most in their
    [status]. *)
Definition profile_same_but_status (a b : ProfileCard.Options.t) : Prop :=
  ProfileCard.Options.username a = ProfileCard.Options.username b
  /\ ProfileCard.Options.discriminator a = ProfileCard.Options.discriminator b
  /\ ProfileCard.Options.avatarUrl a = ProfileCard.Options.avatarUrl b
  /\ ProfileCard.Options.statusColor a = ProfileCard.Options.statusColor b
  /\ ProfileCard.Options.bio a = ProfileCard.Options.bio b
  /\ ProfileCard.Options.badges a = ProfileCard.Options.badges b
  /\ ProfileCard.Options.backgroundColor a = ProfileCard.Options.backgroundColor b
  /\ ProfileCard.Options.textColor a = ProfileCard.Options.textColor b
  /\ ProfileCard.Options.accentColor a = ProfileCard.Options.accentColor b
  /\ ProfileCard.Options.backgroundImage a = ProfileCard.Options.backgroundImage b
  /\ ProfileCard.Options.fontSize a = ProfileCard.Options.fontSize b
  /\ ProfileCard.Options.padding a = ProfileCard.Options.padding b
  /\ ProfileCard.Options.borderRadius a = ProfileCard.Options.borderRadius b
  /\ ProfileCard.Options.layout a = ProfileCard.Options.layout b.

(** A line made of one word of the list, where the word is by itself,
    without the space drawn after it, wider than the text column. *)
Definition single_word_too_wide_by_itself (world : Host.World)
  (options : ProfileCard.Required.t) (words : list string) (line : string) : Prop :=
  exists word,
    In word words /\ line = word ++ " " /\ Spec.too_wide world options word.

End Behaviour.

(** More hosts. *)
Module Cases.

Import JS.

(** The network is down: every request rejects. *)
Definition world_offline : Host.World :=
  Behaviour.with_fetch Samples.world_ok
    (fun _ => inl (ErrorObject "FetchError" "request failed, reason: ENOTFOUND")).

(** Every request answers 200, but reading the body rejects with a
    value that is not an [Error]. *)
Definition world_broken_body : Host.World :=
  Behaviour.with_fetch Samples.world_ok
    (fun _ => inr {| Host.status := 200; Host.statusText := "OK";
                     Host.arrayBuffer := inl (NonError "aborted") |}).

(** Every request answers 200 with a body of three bytes, and no buffer
    decodes. *)
Definition world_not_an_image : Host.World :=
  {| Host.fetch := fun _ =>
       inr {| Host.status := 200; Host.statusText := "OK";
              Host.arrayBuffer := inr [Byte.x01; Byte.x02; Byte.x03] |};
     Host.decode := fun src =>
       match src with
       | Host.SrcString _ => None
       | Host.SrcBuffer _ => Some (new_Error "Unsupported image type")
       end;
     Host.measureText := Host.measureText Samples.world_ok;
     Host.toString := Host.toString Samples.world_ok;
     Host.toLocaleString := Host.toLocaleString Samples.world_ok |}.

(** Option records with some values of the caller's own. *)
Definition profile_custom : ProfileCard.Options.t :=
  {| ProfileCard.Options.username := "user";
     ProfileCard.Options.discriminator := Some "#1234";
     ProfileCard.Options.avatarUrl := "./avatar.png";
     ProfileCard.Options.status := Some "dnd";
     ProfileCard.Options.statusColor := None;
     ProfileCard.Options.bio := Some "hello";
     ProfileCard.Options.badges := Some ["Staff"; "Early supporter"];
     ProfileCard.Options.backgroundColor := None;
     ProfileCard.Options.textColor := None;
     ProfileCard.Options.accentColor := None;
     ProfileCard.Options.backgroundImage := None;
     ProfileCard.Options.fontSize := None;
     ProfileCard.Options.padding := None;
     ProfileCard.Options.borderRadius := Some (lit 24);
     ProfileCard.Options.layout := Some ProfileCard.horizontal |}.

Definition welcome_custom : WelcomeCard.Options.t :=
  {| WelcomeCard.Options.username := "user";
     WelcomeCard.Options.discriminator := None;
     WelcomeCard.Options.avatarUrl := "./avatar.png";
     WelcomeCard.Options.serverName := "server";
     WelcomeCard.Options.memberCount := Some (lit 42);
     WelcomeCard.Options.backgroundColor := None;
     WelcomeCard.Options.textColor := Some "#101010";
     WelcomeCard.Options.accentColor := None;
     WelcomeCard.Options.backgroundImage := None;
     WelcomeCard.Options.fontSize := None;
     WelcomeCard.Options.padding := None;
     WelcomeCard.Options.borderRadius := None |}.

Definition rank_custom : RankCard.Options.t :=
  {| RankCard.Options.username := "user";
     RankCard.Options.discriminator := None;
     RankCard.Options.avatarUrl := "./avatar.png";
     RankCard.Options.rank := lit 3;
     RankCard.Options.level := lit 7;
     RankCard.Options.currentXP := lit 50;
     RankCard.Options.nextLevelXP := lit 100;
     RankCard.Options.progress := None;
     RankCard.Options.backgroundColor := None;
     RankCard.Options.textColor := None;
     RankCard.Options.accentColor := None;
     RankCard.Options.rankColor := None;
     RankCard.Options.levelColor := None;
     RankCard.Options.progressBarColor := None;
     RankCard.Options.progressBarBackgroundColor := None;
     RankCard.Options.backgroundImage := None;
     RankCard.Options.fontSize := None;
     RankCard.Options.padding :=
       Some {| Types.top := Some (lit 12); Types.right := None;
               Types.bottom := None; Types.left := None |};
     RankCard.Options.borderRadius := None;
     RankCard.Options.showProgress := Some false |}.

(** [welcome_custom] on a red background. *)
Definition welcome_custom_red : WelcomeCard.Options.t :=
  {| WelcomeCard.Options.username := "user";
     WelcomeCard.Options.discriminator := None;
     WelcomeCard.Options.avatarUrl := "./avatar.png";
     WelcomeCard.Options.serverName := "server";
     WelcomeCard.Options.memberCount := Some (lit 42);
     WelcomeCard.Options.backgroundColor := Some "#FF0000";
     WelcomeCard.Options.textColor := Some "#101010";
     WelcomeCard.Options.accentColor := None;
     WelcomeCard.Options.backgroundImage := Some "./background.png";
     WelcomeCard.Options.fontSize := None;
     WelcomeCard.Options.padding := None;
     WelcomeCard.Options.borderRadius := None |}.

(** Two profiles with a blue indicator, one idle and one busy. *)
Definition profile_blue (status : string) : ProfileCard.Options.t :=
  {| ProfileCard.Options.username := "user";
     ProfileCard.Options.discriminator := None;
     ProfileCard.Options.avatarUrl := "./avatar.png";
     ProfileCard.Options.status := Some status;
     ProfileCard.Options.statusColor := Some "#0000FF";
     ProfileCard.Options.bio := None;
     ProfileCard.Options.badges := None;
     ProfileCard.Options.backgroundColor := None;
     ProfileCard.Options.textColor := None;
     ProfileCard.Options.accentColor := None;
     ProfileCard.Options.backgroundImage := None;
     ProfileCard.Options.fontSize := None;
     ProfileCard.Options.padding := None;
     ProfileCard.Options.borderRadius := None;
     ProfileCard.Options.layout := None |}.

Definition profile_idle_blue : ProfileCard.Options.t := profile_blue "idle".
Definition profile_dnd_blue : ProfileCard.Options.t := profile_blue "dnd".

End Cases.

(* ===================================================================== *)
(** ** Numbers: comparison, [Math.max], [Math.min] *)
(* ===================================================================== *)

Module NumberFacts.

Import JS.

(** The corner cases of [Math.max], [Math.min] and [split]. *)
Example Math_max_zeros :
  Math_max [nzero; pzero] = pzero /\ Math_max [pzero; nzero] = pzero
  /\ Math_max [] = NegInfinity /\ Math_max [lit 1; NaN] = NaN.
Proof. repeat split. Qed.

Example Math_min_zeros :
  Math_min [nzero; pzero] = nzero /\ Math_min [pzero; nzero] = nzero
  /\ Math_min [] = Infinity /\ Math_min [NaN; lit 1] = NaN.
Proof. repeat split. Qed.

Example split_spaces :
  split " " "a  b c " = ["a"; ""; "b"; "c"; ""] /\ split " " "" = [""].
Proof. repeat split. Qed.

Lemma compare_antisym (a b : number) :
  SFcompare a b = option_map CompOpp (SFcompare b a).
Proof.
  destruct a as [sa|sa| |sa ma ea], b as [sb|sb| |sb mb eb]; simpl;
    try reflexivity;
    try (destruct sa; reflexivity); try (destruct sb; reflexivity);
    try (destruct sa, sb; reflexivity).
  destruct sa, sb; try reflexivity;
    rewrite (Z.compare_antisym ea eb);
    destruct (ea ?= eb)%Z; simpl; try reflexivity;
    rewrite (Pos.compare_cont_antisym mb ma Eq); simpl;
    try rewrite CompOpp_involutive; reflexivity.
Qed.

Lemma compare_finite_refl (s : bool) (m : positive) (e : Z) :
  SFcompare (S754_finite s m e) (S754_finite s m e) = Some Eq.
Proof.
  unfold SFcompare. rewrite Z.compare_refl, Pos.compare_cont_refl.
  destruct s; reflexivity.
Qed.

Lemma compare_finite_eq (s : bool) (m m' : positive) (e e' : Z) :
  SFcompare (S754_finite s m e) (S754_finite s m' e') = Some Eq ->
  m = m' /\ e = e'.
Proof.
  unfold SFcompare.
  destruct (Z.compare_spec e e') as [He|He|He];
    [ | destruct s; discriminate ..].
  destruct (Pos.compare_cont Eq m m') eqn:Hm;
    [ | destruct s; discriminate ..].
  intros _. split; [now apply Pos.compare_eq | exact He].
Qed.

Lemma lit_0 : lit 0 = pzero.
Proof. reflexivity. Qed.

Lemma lit_100 : lit 100 = S754_finite false 7036874417766400 (-46).
Proof. reflexivity. Qed.

Lemma ltb_leb (a b : number) : SFltb a b = true -> SFleb a b = true.
Proof.
  unfold SFltb, SFleb. destruct (SFcompare a b) as [[]|]; congruence.
Qed.

(** [Math.max(0, x)] *)
Lemma Math_max_0 (x : number) :
  Math_max [lit 0; x] = if isNaN x then NaN else if gt x pzero then x else pzero.
Proof.
  rewrite lit_0. unfold Math_max. simpl.
  destruct x as [s|s| |s m e]; try reflexivity.
  destruct s; reflexivity.
Qed.

(** [Math.min(100, y)] *)
Lemma Math_min_100 (y : number) :
  Math_min [lit 100; y]
  = if isNaN y then NaN else if lt y (lit 100) then y else lit 100.
Proof.
  rewrite lit_100. unfold Math_min. simpl.
  destruct y as [s|s| |s m e]; try reflexivity.
  destruct s; reflexivity.
Qed.

(** The two nested calls of [calculateProgress] on an arbitrary argument. *)
Lemma min_max_cases (x : number) :
  Math_min [lit 100; Math_max [lit 0; x]]
  = if isNaN x then NaN
    else if gt x pzero then (if lt x (lit 100) then x else lit 100)
    else pzero.
Proof.
  rewrite Math_max_0. destruct (isNaN x) eqn:Hn; [reflexivity|].
  destruct (gt x pzero) eqn:Hg; rewrite Math_min_100.
  - rewrite Hn. reflexivity.
  - reflexivity.
Qed.

Lemma min_max_nan (x : number) :
  isNaN x = true -> Math_min [lit 100; Math_max [lit 0; x]] = NaN.
Proof. intros H. rewrite min_max_cases, H. reflexivity. Qed.

Lemma min_max_percentage (x : number) :
  isNaN x = false ->
  Spec.percentage (Math_min [lit 100; Math_max [lit 0; x]]) = true.
Proof.
  intros Hn. rewrite min_max_cases, Hn. unfold Spec.percentage, le.
  destruct (gt x pzero) eqn:Hg; [|reflexivity].
  unfold gt in Hg. rewrite lit_0.
  destruct (lt x (lit 100)) eqn:Hl.
  - rewrite (ltb_leb _ _ Hg), (ltb_leb _ _ Hl). reflexivity.
  - reflexivity.
Qed.

End NumberFacts.

(* ===================================================================== *)
(** ** Running a drawing method *)
(* ===================================================================== *)

Module RenderFacts.

Import JS Canvas.

Lemma run_bind {A B : Type} (m : Render A) (k : A -> Render B) (c : surface) :
  runStateT (bind m k) c
  = match runStateT m c with
    | inl e => inl e
    | inr (a, c') => runStateT (k a) c'
    end.
Proof. simpl. destruct (runStateT m c) as [e|[a c']]; reflexivity. Qed.

Lemma run_draw (o : op) (c : surface) :
  runStateT (draw o) c = inr (tt, (c ++ [o])%list).
Proof. reflexivity. Qed.

Lemma run_ret {A : Type} (a : A) (c : surface) :
  runStateT (ret a : Render A) c = inr (a, c).
Proof. reflexivity. Qed.

Lemma run_raise {A : Type} (e : thrown) (c : surface) :
  runStateT (raise e : Render A) c = inl e.
Proof. reflexivity. Qed.

Lemma run_catch {A : Type} (m : Render A) (h : thrown -> Render A) (c : surface) :
  runStateT (catch m h) c
  = match runStateT m c with
    | inl e => runStateT (h e) c
    | inr r => inr r
    end.
Proof. simpl. destruct (runStateT m c) as [e|[a c']]; reflexivity. Qed.

Lemma draws_draw (o : op) : draws (draw o) tt [o].
Proof. intros c. apply run_draw. Qed.

Lemma draws_ret {A : Type} (a : A) : draws (ret a : Render A) a [].
Proof. intros c. rewrite run_ret, app_nil_r. reflexivity. Qed.

Lemma draws_bind {A B : Type} (m : Render A) (k : A -> Render B)
  (a : A) (b : B) (ops1 ops2 : list op) :
  draws m a ops1 -> draws (k a) b ops2 -> draws (bind m k) b (ops1 ++ ops2)%list.
Proof.
  intros Hm Hk c. rewrite run_bind, Hm, Hk, app_assoc. reflexivity.
Qed.

Lemma rejects_raise {A : Type} (e : thrown) : rejects (raise e : Render A) e.
Proof. intros c. apply run_raise. Qed.

Lemma rejects_bind_l {A B : Type} (m : Render A) (k : A -> Render B) (e : thrown) :
  rejects m e -> rejects (bind m k) e.
Proof. intros Hm c. rewrite run_bind, Hm. reflexivity. Qed.

Lemma rejects_bind_r {A B : Type} (m : Render A) (k : A -> Render B)
  (a : A) (ops : list op) (e : thrown) :
  draws m a ops -> rejects (k a) e -> rejects (bind m k) e.
Proof. intros Hm Hk c. rewrite run_bind, Hm, Hk. reflexivity. Qed.

Lemma draws_rejects_absurd {A : Type} (m : Render A) (a : A) (ops : list op)
  (e : thrown) : draws m a ops -> rejects m e -> False.
Proof. intros Hd Hr. specialize (Hd []). rewrite (Hr []) in Hd. discriminate. Qed.

(** A method that only draws is followed one call at a time; its
    conditions are decided before the calls are collected. *)
Ltac decide_conditions :=
  repeat match goal with
         | |- context [if ?b then _ else _] => destruct b
         end.

Ltac draws_step :=
  cbv zeta iota;
  lazymatch goal with
  | |- draws (bind (draw _) _) _ _ =>
      eapply draws_bind; [apply draws_draw | cbv beta]
  | |- draws (draw _) _ _ => apply draws_draw
  | |- draws (ret _) _ _ => apply draws_ret
  | |- draws (bind (bind _ _) _) _ _ => eapply draws_bind; [ | cbv beta]
  | |- draws (bind (ret _) _) _ _ =>
      eapply draws_bind; [apply draws_ret | cbv beta]
  end.

(** The rounded-corner clip draws twelve calls and nothing else. *)
Lemma roundedCorners_draws (width height radius : number) :
  exists ops, draws (roundedCorners width height radius) tt ops.
Proof. eexists. unfold roundedCorners. repeat draws_step. Qed.

(** [encode] returns the surface as it stands. *)
Lemma run_encode (width height : number) (c : surface) :
  runStateT (encode width height) c
  = inr ({| format := "png"; Canvas.width := width; Canvas.height := height;
            content := c |}, c).
Proof. reflexivity. Qed.

(** The image loader, by the answer of the decoder. *)
Lemma loadImage_draws (world : Host.World) (src : Host.ImageSrc) :
  Host.decode world src = None ->
  draws (loadImage world src) (Host.Loaded src) [].
Proof. intros H c. unfold loadImage. rewrite H. apply draws_ret. Qed.

Lemma loadImage_rejects (world : Host.World) (src : Host.ImageSrc) (e : thrown) :
  Host.decode world src = Some e -> rejects (loadImage world src) e.
Proof. intros H c. unfold loadImage. rewrite H. reflexivity. Qed.


Lemma loadBackground_draws (world : Host.World) (backgroundImage : string) :
  truthy backgroundImage = true ->
  Host.decode world (Host.SrcString backgroundImage) = None ->
  draws (loadBackground world backgroundImage)
    (Some (Host.Loaded (Host.SrcString backgroundImage))) [].
Proof.
  intros Ht Hd. unfold loadBackground. rewrite Ht. cbn [negb].
  change [] with ([] ++ [] : list op)%list.
  eapply draws_bind; [now apply loadImage_draws | apply draws_ret].
Qed.

Lemma loadBackground_rejects (world : Host.World) (backgroundImage : string)
  (e : thrown) :
  truthy backgroundImage = true ->
  Host.decode world (Host.SrcString backgroundImage) = Some e ->
  rejects (loadBackground world backgroundImage) e.
Proof.
  intros Ht Hd. unfold loadBackground. rewrite Ht. cbn [negb].
  apply rejects_bind_l. now apply loadImage_rejects.
Qed.

(** A remote avatar whose response is not ok: the error thrown in the
    [try] is caught and wrapped, whatever the decoder would do. *)
Lemma loadAvatar_not_ok (world : Host.World) (avatarUrl : string)
  (response : Host.Response) :
  isLocalPath avatarUrl = false ->
  Host.fetch world avatarUrl = inr response ->
  Host.ok response = false ->
  rejects (loadAvatar world avatarUrl)
    (new_Error ("Failed to load external avatar: " ++ avatarUrl
                ++ ". Error: Failed to fetch image: " ++ Host.statusText response)).
Proof.
  intros Hlocal Hfetch Hok c. unfold loadAvatar. rewrite Hlocal.
  rewrite run_bind, run_catch, run_bind. unfold await. rewrite Hfetch.
  rewrite run_ret, run_bind, Hok. cbn [negb]. rewrite run_raise, run_raise.
  reflexivity.
Qed.

(** A local avatar goes to the decoder as it is. *)
Lemma loadAvatar_local (world : Host.World) (avatarUrl : string) :
  isLocalPath avatarUrl = true ->
  loadAvatar world avatarUrl = loadImage world (Host.SrcString avatarUrl).
Proof. intros H. unfold loadAvatar. now rewrite H. Qed.

Lemma fillTexts_app (a b : surface) :
  fillTexts (a ++ b)%list = (fillTexts a ++ fillTexts b)%list.
Proof.
  induction a as [|o a IH]; [reflexivity|].
  destruct o; simpl; rewrite IH; reflexivity.
Qed.

End RenderFacts.

(* ===================================================================== *)
(** ** The stages of the three pipelines *)
(* ===================================================================== *)

Module RankStages.

Import JS Canvas RenderFacts RankCard.

Section Stages.

Variable world : Host.World.
Variable options : Required.t.

Lemma rank_drawBackground_absent :
  truthy (Required.backgroundImage options) = false ->
  draws (drawBackground world options) tt (Spec.rank_solid_background options).
Proof.
  intros H. unfold drawBackground. rewrite H.
  change (Spec.rank_solid_background options) with
    ([SetFillStyle (Color (Required.backgroundColor options))]
     ++ [FillRect (lit 0) (lit 0) canvas_width canvas_height]
     ++ []
     ++ [SetFillStyle
           (LinearGradient (lit 0) (lit 0) canvas_width canvas_height
              [(lit 0, "rgba(0, 0, 0, 0.4)"); (lit 1, "rgba(0, 0, 0, 0.6)")])]
     ++ [FillRect (lit 0) (lit 0) canvas_width canvas_height])%list.
  repeat draws_step.
Qed.

Lemma rank_drawBackground_loaded :
  truthy (Required.backgroundImage options) = true ->
  Host.decode world (Host.SrcString (Required.backgroundImage options)) = None ->
  exists ops, draws (drawBackground world options) tt ops.
Proof.
  intros Ht Hd. eexists. unfold drawBackground. rewrite Ht.
  do 3 draws_step.
  - eapply draws_bind; [now apply loadBackground_draws | cbv beta iota].
    repeat draws_step.
  - repeat draws_step.
Qed.

Lemma rank_drawBackground_rejects (e : thrown) :
  truthy (Required.backgroundImage options) = true ->
  Host.decode world (Host.SrcString (Required.backgroundImage options)) = Some e ->
  rejects (drawBackground world options) e.
Proof.
  intros Ht Hd. unfold drawBackground. rewrite Ht.
  eapply rejects_bind_r; [apply draws_draw | cbv beta].
  eapply rejects_bind_r; [apply draws_draw | cbv beta].
  apply rejects_bind_l. apply rejects_bind_l.
  now apply loadBackground_rejects.
Qed.

Lemma rank_drawAvatar_rejects (e : thrown) :
  rejects (loadAvatar world (Required.avatarUrl options)) e ->
  rejects (drawAvatar world options) e.
Proof.
  intros H. unfold drawAvatar. cbv zeta.
  repeat (eapply rejects_bind_r; [apply draws_draw | cbv beta]).
  now apply rejects_bind_l.
Qed.

Lemma rank_drawAvatar_draws (avatar : Host.Image) :
  draws (loadAvatar world (Required.avatarUrl options)) avatar [] ->
  exists ops, draws (drawAvatar world options) tt ops.
Proof.
  intros H. eexists. unfold drawAvatar.
  repeat draws_step.
  eapply draws_bind; [exact H | cbv beta]. repeat draws_step.
Qed.

Lemma rank_drawRankInfo_draws : exists ops, draws (drawRankInfo world options) tt ops.
Proof. eexists. unfold drawRankInfo. repeat draws_step. Qed.

Lemma rank_drawXPInfo_draws : exists ops, draws (drawXPInfo world options) tt ops.
Proof. unfold drawXPInfo. decide_conditions; eexists; repeat draws_step. Qed.

(** The whole pipeline, by the outcome of its two loads. *)
Lemma rank_toBuffer_rejects_background (e : thrown) :
  rejects (drawBackground world options) e ->
  rejects (toBuffer world options) e.
Proof. intros H. unfold toBuffer. now apply rejects_bind_l. Qed.

Lemma rank_toBuffer_rejects_avatar (ops : list op) (e : thrown) :
  draws (drawBackground world options) tt ops ->
  rejects (loadAvatar world (Required.avatarUrl options)) e ->
  rejects (toBuffer world options) e.
Proof.
  intros Hb Ha. unfold toBuffer.
  eapply rejects_bind_r; [exact Hb | cbv beta].
  apply rejects_bind_l. now apply rank_drawAvatar_rejects.
Qed.


End Stages.

End RankStages.

Module WelcomeStages.

Import JS Canvas RenderFacts WelcomeCard.

Section Stages.

Variable world : Host.World.
Variable options : Required.t.

Lemma welcome_drawBackground_draws (avatar : Host.Image) :
  draws (loadAvatar world (Required.avatarUrl options)) avatar [] ->
  draws (drawBackground world options) tt (Spec.welcome_blurred_background avatar).
Proof.
  intros H. unfold drawBackground.
  change (Spec.welcome_blurred_background avatar) with
    ([] ++ firstn 1 (Spec.welcome_blurred_background avatar)
        ++ firstn 1 (skipn 1 (Spec.welcome_blurred_background avatar))
        ++ firstn 1 (skipn 2 (Spec.welcome_blurred_background avatar))
        ++ firstn 1 (skipn 3 (Spec.welcome_blurred_background avatar))
        ++ firstn 1 (skipn 4 (Spec.welcome_blurred_background avatar))
        ++ firstn 1 (skipn 5 (Spec.welcome_blurred_background avatar))
        ++ skipn 6 (Spec.welcome_blurred_background avatar))%list.
  eapply draws_bind; [exact H | cbv beta].
  unfold Spec.welcome_blurred_background. cbn [firstn skipn].
  repeat draws_step.
Qed.

Lemma welcome_drawBackground_rejects (e : thrown) :
  rejects (loadAvatar world (Required.avatarUrl options)) e ->
  rejects (drawBackground world options) e.
Proof. intros H. unfold drawBackground. now apply rejects_bind_l. Qed.

Lemma welcome_drawText_draws : exists ops, draws (drawText world options) tt ops.
Proof.
  unfold drawText. cbv zeta.
  destruct (truthy (Required.discriminator options));
    destruct (gt (Required.memberCount options) (lit 0));
    eexists; repeat draws_step.
Qed.

Lemma welcome_drawAccentBar_draws : exists ops, draws (drawAccentBar options) tt ops.
Proof. eexists. unfold drawAccentBar. repeat draws_step. Qed.

Lemma welcome_toBuffer_rejects (e : thrown) :
  rejects (loadAvatar world (Required.avatarUrl options)) e ->
  rejects (toBuffer world options) e.
Proof.
  intros H. unfold toBuffer. apply rejects_bind_l. now apply welcome_drawBackground_rejects.
Qed.

Lemma welcome_toBuffer_resolves (avatar : Host.Image) :
  draws (loadAvatar world (Required.avatarUrl options)) avatar [] ->
  exists buffer c, runStateT (toBuffer world options) [] = inr (buffer, c).
Proof.
  intros Ha. unfold toBuffer.
  destruct welcome_drawText_draws as [ops3 H3].
  destruct welcome_drawAccentBar_draws as [ops4 H4].
  destruct (roundedCorners_draws canvas_width canvas_height
              (Required.borderRadius options)) as [ops5 H5].
  rewrite run_bind, (welcome_drawBackground_draws avatar Ha), run_bind.
  unfold drawAvatar at 1. rewrite run_ret.
  rewrite run_bind, H3, run_bind, H4, run_bind, H5, run_encode. eauto.
Qed.

End Stages.

(** No stage reads the [backgroundImage] of the options. *)
Lemma welcome_toBuffer_ignores_backgroundImage (world : Host.World) (a b : Required.t) :
  Required.username a = Required.username b ->
  Required.discriminator a = Required.discriminator b ->
  Required.avatarUrl a = Required.avatarUrl b ->
  Required.serverName a = Required.serverName b ->
  Required.memberCount a = Required.memberCount b ->
  Required.textColor a = Required.textColor b ->
  Required.accentColor a = Required.accentColor b ->
  Required.fontSize a = Required.fontSize b ->
  Required.padding a = Required.padding b ->
  Required.borderRadius a = Required.borderRadius b ->
  toBuffer world a = toBuffer world b.
Proof.
  intros H1 H2 H3 H4 H5 H6 H7 H8 H9 H10.
  unfold toBuffer, drawBackground, drawAvatar, drawText, drawAccentBar.
  rewrite H1, H2, H3, H4, H5, H6, H7, H8, H9, H10. reflexivity.
Qed.

End WelcomeStages.

Module ProfileStages.

Import JS Canvas RenderFacts ProfileCard.

Section Stages.

Variable world : Host.World.
Variable options : Required.t.

Lemma profile_drawBackground_absent :
  truthy (Required.backgroundImage options) = false ->
  draws (drawBackground world options) tt (Spec.profile_solid_background options).
Proof.
  intros H. unfold drawBackground. rewrite H.
  change (Spec.profile_solid_background options) with
    (firstn 1 (Spec.profile_solid_background options)
     ++ firstn 1 (skipn 1 (Spec.profile_solid_background options))
     ++ []
     ++ firstn 1 (skipn 2 (Spec.profile_solid_background options))
     ++ skipn 3 (Spec.profile_solid_background options))%list.
  unfold Spec.profile_solid_background. cbn [firstn skipn].
  repeat draws_step.
Qed.

Lemma profile_drawBackground_loaded :
  truthy (Required.backgroundImage options) = true ->
  Host.decode world (Host.SrcString (Required.backgroundImage options)) = None ->
  exists ops, draws (drawBackground world options) tt ops.
Proof.
  intros Ht Hd. eexists. unfold drawBackground. rewrite Ht.
  do 3 draws_step.
  - eapply draws_bind; [now apply loadBackground_draws | cbv beta iota].
    repeat draws_step.
  - repeat draws_step.
Qed.

Lemma profile_drawBackground_rejects (e : thrown) :
  truthy (Required.backgroundImage options) = true ->
  Host.decode world (Host.SrcString (Required.backgroundImage options)) = Some e ->
  rejects (drawBackground world options) e.
Proof.
  intros Ht Hd. unfold drawBackground. rewrite Ht.
  eapply rejects_bind_r; [apply draws_draw | cbv beta].
  eapply rejects_bind_r; [apply draws_draw | cbv beta].
  apply rejects_bind_l. apply rejects_bind_l.
  now apply loadBackground_rejects.
Qed.

Lemma profile_drawAvatar_rejects (e : thrown) :
  rejects (loadAvatar world (Required.avatarUrl options)) e ->
  rejects (drawAvatar world options) e.
Proof.
  intros H. unfold drawAvatar. cbv zeta.
  repeat (eapply rejects_bind_r; [apply draws_draw | cbv beta]).
  now apply rejects_bind_l.
Qed.

Lemma profile_drawAvatar_draws (avatar : Host.Image) :
  draws (loadAvatar world (Required.avatarUrl options)) avatar [] ->
  exists ops, draws (drawAvatar world options) tt ops.
Proof.
  intros H. eexists. unfold drawAvatar.
  repeat draws_step.
  eapply draws_bind; [exact H | cbv beta]. repeat draws_step.
Qed.

Lemma profile_drawHeader_draws (currentY : number) :
  exists currentY' ops, draws (drawHeader world options currentY) currentY' ops.
Proof.
  unfold drawHeader. decide_conditions; do 2 eexists; repeat draws_step.
Qed.

(** The word-wrap loop.  [W] is the list of all the words of the bio. *)
Section WordWrap.

Variable W : list string.


Lemma profile_wrapLoop_lines (words : list string) :
  forall (i : nat) (line : string) (currentY : number),
    incl words W ->
    (i = 0%nat -> line = "") ->
    (i <> 0%nat -> Spec.acceptable_line world options W line) ->
    exists line' currentY' ops,
      draws (wrapLoop world options words i line currentY) (line', currentY') ops
      /\ Forall (Spec.acceptable_line world options W) (fillTexts ops)
      /\ (words <> [] \/ i <> 0%nat -> Spec.acceptable_line world options W line').
Proof.
  induction words as [|word rest IH]; intros i line currentY Hincl Hfirst Hline.
  - exists line, currentY, []. split; [apply draws_ret|].
    split; [constructor|]. intros [H|H]; [congruence | auto].
  - assert (In word W) as Hword by (apply Hincl; now left).
    assert (incl rest W) as Hrest by (intros w Hw; apply Hincl; now right).
    cbn [wrapLoop]. cbv zeta.
    destruct (gt (Host.measureText world (bioFont world options)
                    (line ++ word ++ " ")) (maxWidth options)
              && (0 <? i)%nat) eqn:Hcond.
    + apply andb_true_iff in Hcond as [Hwide Hpos].
      apply Nat.ltb_lt in Hpos.
      destruct (IH (S i) (word ++ " ")
                  (add (add (or_val currentY (lit 0))
                          (or_else (FontSize.bio (Required.fontSize options)) (lit 0)))
                       (lit 5)))
        as (line' & currentY' & ops & Hd & Hops & Hlast); auto.
      { discriminate. }
      { intros _ _. now exists word. }
      exists line', currentY'. eexists. split.
      * eapply draws_bind; [apply draws_draw | exact Hd].
      * split.
        -- cbn [app fillTexts]. constructor; [apply Hline; lia | exact Hops].
        -- intros _. apply Hlast. right. discriminate.
    + destruct (IH (S i) (line ++ word ++ " ") currentY)
        as (line' & currentY' & ops & Hd & Hops & Hlast); auto.
      { discriminate. }
      { intros _ Hwide. destruct i as [|i].
        - rewrite (Hfirst eq_refl). now exists word.
        - unfold Spec.too_wide in Hwide. rewrite Hwide in Hcond. discriminate. }
      exists line', currentY', ops. split; [exact Hd|].
      split; [exact Hops|]. intros _. apply Hlast. right. discriminate.
Qed.

End WordWrap.

Lemma profile_split_not_nil (sep : ascii) (s : string) : split sep s <> [].
Proof.
  destruct s as [|c s]; simpl; [discriminate|].
  destruct (Ascii.eqb c sep); [discriminate|].
  destruct (split sep s); discriminate.
Qed.

(** The bio block: it always resolves, and each line it draws is
    acceptable. *)
Lemma profile_drawBio_lines (currentY : number) :
  exists currentY' ops,
    draws (drawBio world options currentY) currentY' ops
    /\ Forall (Spec.acceptable_line world options
                 (split " " (Required.bio options)))
              (fillTexts ops).
Proof.
  unfold drawBio. destruct (truthy (Required.bio options)).
  - destruct (profile_wrapLoop_lines (split " " (Required.bio options))
                (split " " (Required.bio options)) 0 "" currentY)
      as (line & currentY' & ops & Hd & Hops & Hlast).
    { apply incl_refl. }
    { reflexivity. }
    { intros H. now contradiction H. }
    do 2 eexists. split.
    + do 2 draws_step. cbv zeta.
      eapply draws_bind; [exact Hd | cbv beta iota]. repeat draws_step.
    + cbn [app fillTexts]. rewrite fillTexts_app. apply Forall_app. split.
      * exact Hops.
      * cbn [fillTexts]. constructor; [|constructor].
        apply Hlast. left. apply profile_split_not_nil.
  - exists currentY, []. split; [apply draws_ret | constructor].
Qed.

Lemma profile_badgeLoop_draws (badges : list string) :
  forall badgeY badgeX currentY : number,
    exists r ops, draws (badgeLoop world options badges badgeY badgeX currentY) r ops.
Proof.
  induction badges as [|badge rest IH]; intros badgeY badgeX currentY.
  - do 2 eexists. apply draws_ret.
  - cbn [badgeLoop]. cbv zeta.
    match goal with
    | |- context [badgeLoop world options rest ?y ?x ?c] =>
        destruct (IH y x c) as (r & ops & Hd)
    end.
    do 2 eexists. eapply draws_bind; [apply draws_draw | exact Hd].
Qed.

Lemma profile_drawBadges_draws (currentY : number) :
  exists ops, draws (drawBadges world options currentY) tt ops.
Proof.
  unfold drawBadges. destruct (Required.badges options) as [|badge rest] eqn:Hb.
  - eexists. apply draws_ret.
  - cbv zeta.
    match goal with
    | |- context [badgeLoop world options ?l ?y ?x ?c] =>
        destruct (profile_badgeLoop_draws l y x c) as (r & ops & Hd)
    end.
    eexists. do 2 draws_step.
    eapply draws_bind; [exact Hd | cbv beta]. apply draws_ret.
Qed.

Lemma profile_drawText_draws : exists ops, draws (drawText world options) tt ops.
Proof.
  unfold drawText. cbv zeta.
  destruct (profile_drawHeader_draws (toNumber (Types.top (Required.padding options))))
    as (y1 & ops1 & H1).
  destruct (profile_drawBio_lines y1) as (y2 & ops2 & H2 & _).
  destruct (profile_drawBadges_draws y2) as (ops3 & H3).
  eexists. eapply draws_bind; [exact H1 | cbv beta].
  eapply draws_bind; [exact H2 | exact H3].
Qed.

Lemma profile_toBuffer_rejects_background (e : thrown) :
  rejects (drawBackground world options) e ->
  rejects (toBuffer world options) e.
Proof. intros H. unfold toBuffer. now apply rejects_bind_l. Qed.

Lemma profile_toBuffer_rejects_avatar (ops : list op) (e : thrown) :
  draws (drawBackground world options) tt ops ->
  rejects (loadAvatar world (Required.avatarUrl options)) e ->
  rejects (toBuffer world options) e.
Proof.
  intros Hb Ha. unfold toBuffer.
  eapply rejects_bind_r; [exact Hb | cbv beta].
  apply rejects_bind_l. now apply profile_drawAvatar_rejects.
Qed.


End Stages.

End ProfileStages.

(* ===================================================================== *)
(** ** The options normalizer of the three generators *)
(* ===================================================================== *)

Module NormalizerSpec.

Import JS.

#[local] Arguments or_else : simpl never.
#[local] Arguments opt_chain : simpl never.
#[local] Arguments lit : simpl never.
#[local] Arguments RankCard.calculateProgress : simpl never.
#[local] Arguments ProfileCard.getStatusColor : simpl never.

(** What [x || d] yields, by the cases of [x]. *)
Lemma or_else_absent {A : Type} `{Truthy A} (d : A) : or_else None d = d.
Proof. reflexivity. Qed.

Lemma or_else_falsy {A : Type} `{Truthy A} (v d : A) :
  truthy v = false -> or_else (Some v) d = d.
Proof. unfold or_else. now intros ->. Qed.

Lemma or_else_truthy {A : Type} `{Truthy A} (v d : A) :
  truthy v = true -> or_else (Some v) d = v.
Proof. unfold or_else. now intros ->. Qed.

(** One row of a defaults table: the field is read through [simpl], the
    option is rewritten with the hypothesis, and [||] yields the default. *)
Ltac default_row :=
  let H := fresh "H" in
  intros H; simpl; rewrite H;
  first [ apply or_else_absent | apply or_else_falsy; reflexivity | reflexivity ].

(** C4: [getStatusColor] maps the four status names to their colours and
    every other string to the offline colour. *)
Theorem getStatusColor_table :
  ProfileCard.getStatusColor "online" = "#43B581"
  /\ ProfileCard.getStatusColor "idle" = "#FAA61A"
  /\ ProfileCard.getStatusColor "dnd" = "#F04747"
  /\ ProfileCard.getStatusColor "offline" = "#747F8D"
  /\ (forall status : string,
        status <> "online" -> status <> "idle" -> status <> "dnd" ->
        status <> "offline" ->
        ProfileCard.getStatusColor status = "#747F8D").
Proof.
  repeat split; try reflexivity.
  intros status H1 H2 H3 H4. unfold ProfileCard.getStatusColor.
  apply String.eqb_neq in H1, H2, H3, H4.
  now rewrite H1, H2, H3, H4.
Qed.

Lemma getStatusColor_table_witness :
  ProfileCard.getStatusColor "busy" = "#747F8D".
Proof.
  apply (proj2 (proj2 (proj2 (proj2 getStatusColor_table)))); discriminate.
Defined.

(** The tables of defaults hold under both triggers. *)
Ltac omitted_rows :=
  repeat split;
  let H := fresh "H" in
  intros H; unfold Spec.omitted in H; simpl; rewrite H; reflexivity.

Ltac falsy_rows :=
  repeat split;
  let H := fresh "H" in
  let v := fresh "v" in
  let Hf := fresh "Hf" in
  intros (v & H & Hf); simpl; rewrite H; rewrite (or_else_falsy _ _ Hf); reflexivity.

Lemma profile_omitted_rows (o : ProfileCard.Options.t) :
  Spec.profile_defaults (@Spec.omitted) o.
Proof. unfold Spec.profile_defaults, Spec.padding_defaults. omitted_rows. Qed.

Lemma welcome_omitted_rows (o : WelcomeCard.Options.t) :
  Spec.welcome_defaults (@Spec.omitted) o.
Proof. unfold Spec.welcome_defaults, Spec.padding_defaults. omitted_rows. Qed.

Lemma rank_omitted_rows (o : RankCard.Options.t) :
  Spec.rank_defaults (@Spec.omitted) o.
Proof. unfold Spec.rank_defaults, Spec.padding_defaults. omitted_rows. Qed.

Lemma profile_falsy_rows (o : ProfileCard.Options.t) :
  Spec.profile_defaults (@Spec.supplied_falsy) o.
Proof. unfold Spec.profile_defaults, Spec.padding_defaults. falsy_rows. Qed.

Lemma welcome_falsy_rows (o : WelcomeCard.Options.t) :
  Spec.welcome_defaults (@Spec.supplied_falsy) o.
Proof. unfold Spec.welcome_defaults, Spec.padding_defaults. falsy_rows. Qed.

Lemma rank_falsy_rows (o : RankCard.Options.t) :
  Spec.rank_defaults (@Spec.supplied_falsy) o.
Proof. unfold Spec.rank_defaults, Spec.padding_defaults. falsy_rows. Qed.

(** Reading one row of a table at a concrete record. *)
Ltac read_rows H :=
  unfold Spec.profile_defaults, Spec.welcome_defaults, Spec.rank_defaults,
    Spec.padding_defaults in H;
  decompose [and] H; clear H.

Ltac by_row tac :=
  match goal with
  | H : _ -> ?G |- ?G => apply H; tac
  end.

(** C7: an omitted optional field gets its default in each of the three
    generators (discriminator [#0000], background [#2C2F33], text
    [#FFFFFF], accent [#7289DA], radius 10 or 15, padding 30 or 60 on the
    four sides, and the other fields of the tables), and after
    normalization no field is unset: the top-level fields by the type
    [Required], the fields of [fontSize] and [padding] by their values. *)
Theorem omitted_fields_get_defaults
  (p : ProfileCard.Options.t) (w : WelcomeCard.Options.t) (r : RankCard.Options.t) :
  Spec.profile_defaults (@Spec.omitted) p
  /\ Spec.welcome_defaults (@Spec.omitted) w
  /\ Spec.rank_defaults (@Spec.omitted) r
  /\ (RankCard.Options.showProgress r = None ->
      RankCard.Required.showProgress (RankCard.constructor r) = true)
  /\ Spec.padding_set (ProfileCard.Required.padding (ProfileCard.constructor p))
  /\ Spec.profile_fontSize_set (ProfileCard.Required.fontSize (ProfileCard.constructor p))
  /\ Spec.padding_set (WelcomeCard.Required.padding (WelcomeCard.constructor w))
  /\ Spec.welcome_fontSize_set (WelcomeCard.Required.fontSize (WelcomeCard.constructor w))
  /\ Spec.padding_set (RankCard.Required.padding (RankCard.constructor r))
  /\ Spec.rank_fontSize_set (RankCard.Required.fontSize (RankCard.constructor r)).
Proof.
  split; [apply profile_omitted_rows|].
  split; [apply welcome_omitted_rows|].
  split; [apply rank_omitted_rows|].
  split; [intros H; simpl; now rewrite H|].
  unfold Spec.padding_set, Spec.profile_fontSize_set, Spec.welcome_fontSize_set,
    Spec.rank_fontSize_set.
  repeat split; simpl; discriminate.
Qed.

Lemma omitted_fields_get_defaults_witness :
  (ProfileCard.Required.discriminator
     (ProfileCard.constructor (Samples.profile_options "./a.png" None None)) = "#0000"
   /\ ProfileCard.Required.backgroundColor
        (ProfileCard.constructor (Samples.profile_options "./a.png" None None)) = "#2C2F33"
   /\ ProfileCard.Required.textColor
        (ProfileCard.constructor (Samples.profile_options "./a.png" None None)) = "#FFFFFF"
   /\ ProfileCard.Required.accentColor
        (ProfileCard.constructor (Samples.profile_options "./a.png" None None)) = "#7289DA"
   /\ ProfileCard.Required.borderRadius
        (ProfileCard.constructor (Samples.profile_options "./a.png" None None)) = lit 10
   /\ Types.top
        (ProfileCard.Required.padding
           (ProfileCard.constructor (Samples.profile_options "./a.png" None None)))
      = Some (lit 30))
  /\ (WelcomeCard.Required.discriminator
        (WelcomeCard.constructor (Samples.welcome_options "./a.png" None)) = "#0000"
      /\ WelcomeCard.Required.borderRadius
           (WelcomeCard.constructor (Samples.welcome_options "./a.png" None)) = lit 15
      /\ Types.left
           (WelcomeCard.Required.padding
              (WelcomeCard.constructor (Samples.welcome_options "./a.png" None)))
         = Some (lit 60))
  /\ (RankCard.Required.discriminator
        (RankCard.constructor
           (Samples.rank_options "./a.png" (lit 50) (lit 100) None None)) = "#0000"
      /\ RankCard.Required.borderRadius
           (RankCard.constructor
              (Samples.rank_options "./a.png" (lit 50) (lit 100) None None)) = lit 10
      /\ Types.bottom
           (RankCard.Required.padding
              (RankCard.constructor
                 (Samples.rank_options "./a.png" (lit 50) (lit 100) None None)))
         = Some (lit 30)
      /\ RankCard.Required.showProgress
           (RankCard.constructor
              (Samples.rank_options "./a.png" (lit 50) (lit 100) None None)) = true).
Proof.
  destruct (omitted_fields_get_defaults
              (Samples.profile_options "./a.png" None None)
              (Samples.welcome_options "./a.png" None)
              (Samples.rank_options "./a.png" (lit 50) (lit 100) None None))
    as (Hp & Hw & Hr & Hs & _).
  read_rows Hp. read_rows Hw. read_rows Hr.
  repeat split; by_row reflexivity.
Defined.

(** C9: a supplied falsy value (0, the empty string) is replaced by the
    default, as an omitted one is: every row of the three tables holds
    for supplied falsy values, and an explicit progress of 0 on a
    RankCard gives way to the value computed from the XP fields. *)
Theorem falsy_fields_get_defaults
  (p : ProfileCard.Options.t) (w : WelcomeCard.Options.t) (r : RankCard.Options.t) :
  Spec.supplied_falsy (Some (lit 0))
  /\ Spec.supplied_falsy (Some "")
  /\ Spec.profile_defaults (@Spec.supplied_falsy) p
  /\ Spec.welcome_defaults (@Spec.supplied_falsy) w
  /\ Spec.rank_defaults (@Spec.supplied_falsy) r
  /\ (RankCard.Options.progress r = Some (lit 0) ->
      RankCard.Required.progress (RankCard.constructor r)
      = RankCard.calculateProgress (RankCard.Options.currentXP r)
          (RankCard.Options.nextLevelXP r)).
Proof.
  split; [exists (lit 0); split; reflexivity|].
  split; [exists ""; split; reflexivity|].
  split; [apply profile_falsy_rows|].
  split; [apply welcome_falsy_rows|].
  split; [apply rank_falsy_rows|].
  intros H. simpl. rewrite H. reflexivity.
Qed.

Lemma falsy_fields_get_defaults_witness :
  (ProfileCard.Required.borderRadius (ProfileCard.constructor Samples.profile_falsy)
   = lit 10
   /\ ProfileCard.Required.backgroundColor (ProfileCard.constructor Samples.profile_falsy)
      = "#2C2F33"
   /\ ProfileCard.FontSize.bio
        (ProfileCard.Required.fontSize (ProfileCard.constructor Samples.profile_falsy))
      = Some (lit 16)
   /\ Types.top
        (ProfileCard.Required.padding (ProfileCard.constructor Samples.profile_falsy))
      = Some (lit 30))
  /\ (WelcomeCard.Required.borderRadius (WelcomeCard.constructor Samples.welcome_falsy)
      = lit 15
      /\ WelcomeCard.Required.textColor (WelcomeCard.constructor Samples.welcome_falsy)
         = "#FFFFFF"
      /\ WelcomeCard.FontSize.title
           (WelcomeCard.Required.fontSize (WelcomeCard.constructor Samples.welcome_falsy))
         = Some (lit 60)
      /\ Types.right
           (WelcomeCard.Required.padding (WelcomeCard.constructor Samples.welcome_falsy))
         = Some (lit 60))
  /\ (RankCard.Required.borderRadius (RankCard.constructor Samples.rank_falsy) = lit 10
      /\ RankCard.Required.accentColor (RankCard.constructor Samples.rank_falsy)
         = "#7289DA"
      /\ RankCard.FontSize.xp
           (RankCard.Required.fontSize (RankCard.constructor Samples.rank_falsy))
         = Some (lit 16)
      /\ Types.left
           (RankCard.Required.padding (RankCard.constructor Samples.rank_falsy))
         = Some (lit 30))
  /\ RankCard.Required.progress (RankCard.constructor Samples.rank_falsy)
     = RankCard.calculateProgress (RankCard.Options.currentXP Samples.rank_falsy)
         (RankCard.Options.nextLevelXP Samples.rank_falsy).
Proof.
  destruct (falsy_fields_get_defaults
              Samples.profile_falsy Samples.welcome_falsy Samples.rank_falsy)
    as (_ & _ & Hp & Hw & Hr & _).
  read_rows Hp. read_rows Hw. read_rows Hr.
  repeat split; by_row ltac:(eexists; split; reflexivity).
Defined.

End NormalizerSpec.

(* ===================================================================== *)
(** ** The pipelines: loading, word-wrap, background *)
(* ===================================================================== *)

Module PipelineSpec.

Import JS Canvas RenderFacts.

(** A rejected [toBuffer] is a rejected render. *)
Lemma profile_render_rejects (world : Host.World) (o : ProfileCard.Options.t)
  (e : thrown) :
  rejects (ProfileCard.toBuffer world (ProfileCard.constructor o)) e ->
  ProfileCard.render world o = inl e.
Proof. intros H. unfold ProfileCard.render. now rewrite H. Qed.

Lemma welcome_render_rejects (world : Host.World) (o : WelcomeCard.Options.t)
  (e : thrown) :
  rejects (WelcomeCard.toBuffer world (WelcomeCard.constructor o)) e ->
  WelcomeCard.render world o = inl e.
Proof. intros H. unfold WelcomeCard.render. now rewrite H. Qed.

Lemma rank_render_rejects (world : Host.World) (o : RankCard.Options.t)
  (e : thrown) :
  rejects (RankCard.toBuffer world (RankCard.constructor o)) e ->
  RankCard.render world o = inl e.
Proof. intros H. unfold RankCard.render. now rewrite H. Qed.

(** The background stage of ProfileCard and RankCard draws when it gets
    past its load. *)
Lemma profile_background_draws (world : Host.World) (options : ProfileCard.Required.t) :
  Spec.background_passes world (ProfileCard.Required.backgroundImage options) ->
  exists ops, draws (ProfileCard.drawBackground world options) tt ops.
Proof.
  intros [H|H].
  - eexists. now apply ProfileStages.profile_drawBackground_absent.
  - destruct (truthy (ProfileCard.Required.backgroundImage options)) eqn:Ht.
    + now apply ProfileStages.profile_drawBackground_loaded.
    + eexists. now apply ProfileStages.profile_drawBackground_absent.
Qed.

Lemma rank_background_draws (world : Host.World) (options : RankCard.Required.t) :
  Spec.background_passes world (RankCard.Required.backgroundImage options) ->
  exists ops, draws (RankCard.drawBackground world options) tt ops.
Proof.
  intros [H|H].
  - eexists. now apply RankStages.rank_drawBackground_absent.
  - destruct (truthy (RankCard.Required.backgroundImage options)) eqn:Ht.
    + now apply RankStages.rank_drawBackground_loaded.
    + eexists. now apply RankStages.rank_drawBackground_absent.
Qed.

(** C3 (as amended): a remote avatar whose response has a status that is
    not ok, such as 404, makes the render of each generator reject with
    an [Error] whose message is
    [Failed to load external avatar: URL. Error: Failed to fetch image: STATUSTEXT];
    it carries the status text of the response, not the status number.
    For ProfileCard and RankCard this is the outcome when the background
    stage, which runs first, gets past its own load. *)
Theorem avatar_not_ok_rejects (world : Host.World) (response : Host.Response) :
  (Host.status response = 404%Z -> Host.ok response = false)
  /\ (forall o : WelcomeCard.Options.t,
        Spec.fetch_not_ok world (WelcomeCard.Options.avatarUrl o) response ->
        WelcomeCard.render world o
        = inl (Spec.avatar_error (WelcomeCard.Options.avatarUrl o) response))
  /\ (forall o : ProfileCard.Options.t,
        Spec.fetch_not_ok world (ProfileCard.Options.avatarUrl o) response ->
        Spec.background_passes world
          (ProfileCard.Required.backgroundImage (ProfileCard.constructor o)) ->
        ProfileCard.render world o
        = inl (Spec.avatar_error (ProfileCard.Options.avatarUrl o) response))
  /\ (forall o : RankCard.Options.t,
        Spec.fetch_not_ok world (RankCard.Options.avatarUrl o) response ->
        Spec.background_passes world
          (RankCard.Required.backgroundImage (RankCard.constructor o)) ->
        RankCard.render world o
        = inl (Spec.avatar_error (RankCard.Options.avatarUrl o) response)).
Proof.
  split; [|split; [|split]].
  - intros H. unfold Host.ok. rewrite H. reflexivity.
  - intros o (Hremote & Hfetch & Hok).
    apply welcome_render_rejects, WelcomeStages.welcome_toBuffer_rejects.
    now apply loadAvatar_not_ok.
  - intros o (Hremote & Hfetch & Hok) Hbg.
    destruct (profile_background_draws world _ Hbg) as [ops Hops].
    apply profile_render_rejects.
    apply (ProfileStages.profile_toBuffer_rejects_avatar world _ ops); [exact Hops|].
    now apply loadAvatar_not_ok.
  - intros o (Hremote & Hfetch & Hok) Hbg.
    destruct (rank_background_draws world _ Hbg) as [ops Hops].
    apply rank_render_rejects.
    apply (RankStages.rank_toBuffer_rejects_avatar world _ ops); [exact Hops|].
    now apply loadAvatar_not_ok.
Qed.

(** C3, as stated, fails: with a 404 answered as [Not Found], the three
    renders reject with a plain [Error] whose message has no [404] in it. *)
Lemma not_found_message_has_no_404 :
  WelcomeCard.render Samples.world_404
    (Samples.welcome_options "https://example.com/avatar.png" None)
  = inl (ErrorObject "Error"
           "Failed to load external avatar: https://example.com/avatar.png. Error: Failed to fetch image: Not Found")
  /\ ProfileCard.render Samples.world_404
       (Samples.profile_options "https://example.com/avatar.png" None None)
     = inl (ErrorObject "Error"
              "Failed to load external avatar: https://example.com/avatar.png. Error: Failed to fetch image: Not Found")
  /\ RankCard.render Samples.world_404
       (Samples.rank_options "https://example.com/avatar.png" (lit 50) (lit 100) None None)
     = inl (ErrorObject "Error"
              "Failed to load external avatar: https://example.com/avatar.png. Error: Failed to fetch image: Not Found")
  /\ includes "404"
       "Failed to load external avatar: https://example.com/avatar.png. Error: Failed to fetch image: Not Found"
     = false.
Proof. repeat split; vm_compute; reflexivity. Qed.

Lemma avatar_not_ok_rejects_witness :
  WelcomeCard.render Samples.world_404
    (Samples.welcome_options "https://example.com/avatar.png" None)
  = inl (Spec.avatar_error "https://example.com/avatar.png"
           {| Host.status := 404; Host.statusText := "Not Found";
              Host.arrayBuffer := inr [] |})
  /\ ProfileCard.render Samples.world_404
       (Samples.profile_options "https://example.com/avatar.png" None None)
     = inl (Spec.avatar_error "https://example.com/avatar.png"
              {| Host.status := 404; Host.statusText := "Not Found";
                 Host.arrayBuffer := inr [] |})
  /\ RankCard.render Samples.world_404
       (Samples.rank_options "https://example.com/avatar.png" (lit 50) (lit 100) None None)
     = inl (Spec.avatar_error "https://example.com/avatar.png"
              {| Host.status := 404; Host.statusText := "Not Found";
                 Host.arrayBuffer := inr [] |}).
Proof.
  destruct (avatar_not_ok_rejects Samples.world_404
              {| Host.status := 404; Host.statusText := "Not Found";
                 Host.arrayBuffer := inr [] |})
    as (_ & Hw & Hp & Hr).
  split; [|split].
  - apply (Hw (Samples.welcome_options "https://example.com/avatar.png" None)).
    repeat split.
  - apply (Hp (Samples.profile_options "https://example.com/avatar.png" None None)).
    + repeat split.
    + left. reflexivity.
  - apply (Hr (Samples.rank_options "https://example.com/avatar.png"
                 (lit 50) (lit 100) None None)).
    + repeat split.
    + left. reflexivity.
Defined.

(** C5 (as amended): the bio block of the text stage always resolves,
    and every line it draws either is not wider than the text column, as
    measured by the host under the bio font, or consists of a single word
    of the bio followed by the space that the loop appends to every word;
    it is the line, word and space, that is then wider than the column. *)
Theorem bio_lines_fit_or_single_word
  (world : Host.World) (options : ProfileCard.Required.t) (currentY : number) :
  exists currentY' ops,
    draws (ProfileCard.drawBio world options currentY) currentY' ops
    /\ (forall line,
          In line (fillTexts ops) ->
          Spec.too_wide world options line ->
          Spec.single_word (split " " (ProfileCard.Required.bio options)) line).
Proof.
  destruct (ProfileStages.profile_drawBio_lines world options currentY)
    as (currentY' & ops & Hd & Hlines).
  exists currentY', ops. split; [exact Hd|].
  intros line Hin. rewrite Forall_forall in Hlines. exact (Hlines line Hin).
Qed.

Lemma bio_lines_fit_or_single_word_witness :
  Spec.single_word (split " " "hello a") "hello ".
Proof.
  destruct (bio_lines_fit_or_single_word Samples.world_wide
              (ProfileCard.constructor
                 (Samples.profile_options "./a.png" (Some "hello a") None))
              (lit 30))
    as (currentY' & ops & Hd & Hlines).
  apply Hlines.
  - specialize (Hd []). vm_compute in Hd.
    injection Hd as _ Hops. rewrite <- Hops. vm_compute. left. reflexivity.
  - vm_compute. reflexivity.
Defined.

(** C5, as stated, fails: where a text is a hundred times as wide as
    its number of characters, the column of the default layout is 590
    wide and the bio [hello a] is drawn as the lines [hello ] and [a ].
    The first line measures 600 and is too wide, while the word [hello]
    by itself measures 500 and fits: the line is not one of a single word
    that is by itself wider than the column. *)
Lemma line_too_wide_by_its_space_only :
  match runStateT
          (ProfileCard.drawBio Samples.world_wide
             (ProfileCard.constructor
                (Samples.profile_options "./a.png" (Some "hello a") None))
             (lit 30)) [] with
  | inr (_, surface) => fillTexts surface = ["hello "; "a "]
  | inl _ => False
  end
  /\ ProfileCard.maxWidth
       (ProfileCard.constructor
          (Samples.profile_options "./a.png" (Some "hello a") None))
     = lit 590
  /\ Spec.too_wide Samples.world_wide
       (ProfileCard.constructor
          (Samples.profile_options "./a.png" (Some "hello a") None))
       "hello "
  /\ ~ Spec.too_wide Samples.world_wide
         (ProfileCard.constructor
            (Samples.profile_options "./a.png" (Some "hello a") None))
         "hello"
  /\ ~ Behaviour.single_word_too_wide_by_itself Samples.world_wide
         (ProfileCard.constructor
            (Samples.profile_options "./a.png" (Some "hello a") None))
         (split " " "hello a") "hello ".
Proof.
  assert (~ Spec.too_wide Samples.world_wide
            (ProfileCard.constructor
               (Samples.profile_options "./a.png" (Some "hello a") None))
            "hello") as Hfits.
  { unfold Spec.too_wide. vm_compute. discriminate. }
  split; [vm_compute; reflexivity|].
  split; [vm_compute; reflexivity|].
  split; [unfold Spec.too_wide; vm_compute; reflexivity|].
  split; [exact Hfits|].
  intros (word & Hin & Heq & Hwide).
  change (split " " "hello a") with ["hello"; "a"] in Hin.
  destruct Hin as [<- | [<- | []]].
  - exact (Hfits Hwide).
  - discriminate Heq.
Qed.



(** C8: the background stage of WelcomeCard draws the avatar, at full
    size on an offscreen canvas and through a blur of 8 pixels, whatever
    the options say; and two option records that differ only in
    [backgroundImage] render to the same result. *)
Theorem welcome_background_is_avatar (world : Host.World) :
  (forall (options : WelcomeCard.Required.t) (avatar : Host.Image),
     draws (loadAvatar world (WelcomeCard.Required.avatarUrl options)) avatar [] ->
     draws (WelcomeCard.drawBackground world options) tt
       (Spec.welcome_blurred_background avatar))
  /\ (forall a b : WelcomeCard.Options.t,
        Spec.welcome_same_but_backgroundImage a b ->
        WelcomeCard.render world a = WelcomeCard.render world b).
Proof.
  split.
  - intros options avatar. apply WelcomeStages.welcome_drawBackground_draws.
  - intros a b (H1 & H2 & H3 & H4 & H5 & H6 & H7 & H8 & H9 & H10 & H11).
    unfold WelcomeCard.render.
    rewrite (WelcomeStages.welcome_toBuffer_ignores_backgroundImage world
               (WelcomeCard.constructor a) (WelcomeCard.constructor b));
      [reflexivity | unfold WelcomeCard.constructor; simpl; congruence ..].
Qed.

Lemma welcome_background_is_avatar_witness :
  WelcomeCard.render Samples.world_ok (Samples.welcome_options "./a.png" None)
  = WelcomeCard.render Samples.world_ok
      (Samples.welcome_options "./a.png" (Some "./background.png")).
Proof.
  apply (proj2 (welcome_background_is_avatar Samples.world_ok)).
  repeat split.
Defined.

End PipelineSpec.

(* ===================================================================== *)
(** ** RankCard: the progress value *)
(* ===================================================================== *)

Module RankCardSpec.

Import JS NumberFacts RankCard.

(** [calculateProgress] agrees with the specification's [clamp], as
    numbers, on every quotient. *)
Lemma min_max_is_clamp (x : number) :
  sameValueZero (Math_min [lit 100; Math_max [lit 0; x]])
                (Spec.clamp x (lit 0) (lit 100)) = true.
Proof.
  rewrite min_max_cases. unfold Spec.clamp, gt, lt, sameValueZero, SFeqb, SFltb.
  rewrite lit_0.
  destruct x as [s|s| |s m e]; try reflexivity; try (destruct s; reflexivity).
  destruct s; [reflexivity|].
  change (SFcompare pzero (S754_finite false m e)) with (Some Lt).
  change (SFcompare (S754_finite false m e) pzero) with (Some Gt).
  cbv iota. rewrite (compare_antisym (lit 100) (S754_finite false m e)).
  destruct (SFcompare (S754_finite false m e) (lit 100)) as [[]|] eqn:Hc;
    cbn [option_map CompOpp isNaN andb orb]; try rewrite Hc; try reflexivity.
  - rewrite compare_antisym, Hc. reflexivity.
  - rewrite compare_finite_refl. reflexivity.
  - rewrite lit_100 in Hc. unfold SFcompare in Hc. discriminate.
Qed.

Lemma compare_100_eq (m : positive) (e : Z) :
  SFcompare (S754_finite false m e) (lit 100) = Some Eq ->
  S754_finite false m e = lit 100.
Proof.
  rewrite lit_100. intros H. apply compare_finite_eq in H as [-> ->]. reflexivity.
Qed.

(** They are the same value, sign of zero included, unless the quotient
    is -0, which [Math.max(0, -0)] turns into +0. *)
Lemma min_max_is_clamp_exact (x : number) :
  x <> nzero ->
  Math_min [lit 100; Math_max [lit 0; x]] = Spec.clamp x (lit 0) (lit 100).
Proof.
  intros Hx. rewrite min_max_cases. unfold Spec.clamp, gt, lt, SFltb.
  rewrite lit_0.
  destruct x as [s|s| |s m e]; try reflexivity; try (destruct s; reflexivity).
  - destruct s; [now contradiction Hx | reflexivity].
  - destruct s; [reflexivity|].
    change (SFcompare pzero (S754_finite false m e)) with (Some Lt).
    change (SFcompare (S754_finite false m e) pzero) with (Some Gt).
    cbv iota. rewrite (compare_antisym (lit 100) (S754_finite false m e)).
    destruct (SFcompare (S754_finite false m e) (lit 100)) as [[]|] eqn:Hc;
      cbn [option_map CompOpp isNaN].
    + symmetry. now apply compare_100_eq.
    + reflexivity.
    + reflexivity.
    + rewrite lit_100 in Hc. unfold SFcompare in Hc. discriminate.
Qed.

Lemma positive_cases (x : number) :
  gt x (lit 0) = true ->
  x = Infinity \/ exists m e, x = S754_finite false m e.
Proof.
  rewrite lit_0. unfold gt, SFltb.
  destruct x as [s|s| |s m e]; simpl; try discriminate.
  - destruct s; [discriminate | now left].
  - destruct s; [discriminate | right; now exists m, e].
Qed.

Lemma mul_nan_r (x : number) : mul x NaN = NaN.
Proof. destruct x; reflexivity. Qed.

Lemma div_nan_l (x : number) : div NaN x = NaN.
Proof. reflexivity. Qed.

(** Without a truthy [progress] option, the constructor computes it. *)
Lemma progress_derived (o : Options.t) :
  Spec.absent_or_falsy (Options.progress o) ->
  Required.progress (constructor o)
  = calculateProgress (Options.currentXP o) (Options.nextLevelXP o).
Proof.
  unfold constructor, Spec.absent_or_falsy, or_else; cbn [Required.progress].
  destruct (Options.progress o); [intros -> | intros _]; reflexivity.
Qed.

(** C1 (as amended): a supplied truthy [progress] is stored as given, so
    it is a percentage exactly when the caller's value is; a derived
    [progress] is a percentage whenever [currentXP / nextLevelXP * 100] is
    not NaN. *)
Theorem progress_kept_or_derived (o : Options.t) :
  (forall v, Options.progress o = Some v -> truthy v = true ->
     Required.progress (constructor o) = v) /\
  (forall v, Options.progress o = Some v -> truthy v = true ->
     Spec.percentage v = true ->
     Spec.percentage (Required.progress (constructor o)) = true) /\
  (Spec.absent_or_falsy (Options.progress o) ->
     isNaN (mul (div (Options.currentXP o) (Options.nextLevelXP o)) (lit 100)) = false ->
     Spec.percentage (Required.progress (constructor o)) = true).
Proof.
  unfold constructor; cbn [Required.progress].
  repeat split.
  - intros v Hv Ht. rewrite Hv. unfold or_else. now rewrite Ht.
  - intros v Hv Ht Hp. rewrite Hv. unfold or_else. now rewrite Ht.
  - intros Ha Hn. change (or_else _ _) with (Required.progress (constructor o)).
    rewrite (progress_derived o Ha). now apply min_max_percentage.
Qed.

(** C1, as stated, fails: a supplied progress of 150 is stored as 150,
    which is not in [0,100]. *)
Lemma progress_150_not_clamped :
  Required.progress
    (constructor (Samples.rank_options "./a.png" (lit 50) (lit 100) (Some (lit 150)) None))
  = lit 150
  /\ Spec.percentage
       (Required.progress
          (constructor
             (Samples.rank_options "./a.png" (lit 50) (lit 100) (Some (lit 150)) None)))
     = false.
Proof. split; reflexivity. Qed.

Lemma progress_kept_or_derived_witness :
  Required.progress
    (constructor (Samples.rank_options "./a.png" (lit 50) (lit 100) (Some (lit 75)) None))
  = lit 75
  /\ Spec.percentage
       (Required.progress
          (constructor
             (Samples.rank_options "./a.png" (lit 50) (lit 100) (Some (lit 75)) None)))
     = true
  /\ Spec.percentage
       (Required.progress
          (constructor (Samples.rank_options "./a.png" (lit 1) (lit 3) None None)))
     = true.
Proof.
  split; [|split].
  - apply (proj1 (progress_kept_or_derived
                    (Samples.rank_options "./a.png" (lit 50) (lit 100) (Some (lit 75)) None))
             (lit 75)); reflexivity.
  - apply (proj1 (proj2 (progress_kept_or_derived
                    (Samples.rank_options "./a.png" (lit 50) (lit 100) (Some (lit 75)) None)))
             (lit 75)); reflexivity.
  - apply (proj2 (proj2 (progress_kept_or_derived
                    (Samples.rank_options "./a.png" (lit 1) (lit 3) None None))));
      [exact I | reflexivity].
Defined.

(** C2: with [nextLevelXP > 0] and no explicit progress, the progress
    that the constructor computes equals
    [clamp(currentXP / nextLevelXP * 100, 0, 100)] as a number, and is
    the very same value unless the quotient is -0 (then it is +0); 50 of
    100 gives 50, 150 of 100 gives 100, and a [currentXP] of 0 gives 0. *)
Theorem default_progress_is_clamp (o : Options.t) :
  Spec.absent_or_falsy (Options.progress o) ->
  gt (Options.nextLevelXP o) (lit 0) = true ->
  sameValueZero (Required.progress (constructor o))
    (Spec.clamp (mul (div (Options.currentXP o) (Options.nextLevelXP o)) (lit 100))
       (lit 0) (lit 100)) = true
  /\ (mul (div (Options.currentXP o) (Options.nextLevelXP o)) (lit 100) <> nzero ->
      Required.progress (constructor o)
      = Spec.clamp (mul (div (Options.currentXP o) (Options.nextLevelXP o)) (lit 100))
          (lit 0) (lit 100))
  /\ (Options.currentXP o = lit 50 -> Options.nextLevelXP o = lit 100 ->
      Required.progress (constructor o) = lit 50)
  /\ (Options.currentXP o = lit 150 -> Options.nextLevelXP o = lit 100 ->
      Required.progress (constructor o) = lit 100)
  /\ (Options.currentXP o = lit 0 -> Required.progress (constructor o) = lit 0).
Proof.
  intros Habsent Hpos. rewrite (progress_derived o Habsent).
  split; [apply min_max_is_clamp|].
  split; [apply min_max_is_clamp_exact|].
  split; [intros -> ->; reflexivity|].
  split; [intros -> ->; reflexivity|].
  intros ->.
  destruct (positive_cases _ Hpos) as [-> | (m & e & ->)]; reflexivity.
Qed.

Lemma default_progress_is_clamp_witness :
  sameValueZero
    (Required.progress
       (constructor (Samples.rank_options "./a.png" (lit 1) (lit 3) None None)))
    (Spec.clamp (mul (div (lit 1) (lit 3)) (lit 100)) (lit 0) (lit 100)) = true
  /\ Required.progress
       (constructor (Samples.rank_options "./a.png" (lit 1) (lit 3) None None))
     = Spec.clamp (mul (div (lit 1) (lit 3)) (lit 100)) (lit 0) (lit 100)
  /\ Required.progress
       (constructor (Samples.rank_options "./a.png" (lit 50) (lit 100) None None))
     = lit 50
  /\ Required.progress
       (constructor (Samples.rank_options "./a.png" (lit 150) (lit 100) None None))
     = lit 100
  /\ Required.progress
       (constructor (Samples.rank_options "./a.png" (lit 0) (lit 100) None None))
     = lit 0.
Proof.
  split; [|split; [|split; [|split]]].
  - apply (default_progress_is_clamp
             (Samples.rank_options "./a.png" (lit 1) (lit 3) None None) I eq_refl).
  - apply (default_progress_is_clamp
             (Samples.rank_options "./a.png" (lit 1) (lit 3) None None) I eq_refl).
    discriminate.
  - apply (default_progress_is_clamp
             (Samples.rank_options "./a.png" (lit 50) (lit 100) None None) I eq_refl);
      reflexivity.
  - apply (default_progress_is_clamp
             (Samples.rank_options "./a.png" (lit 150) (lit 100) None None) I eq_refl);
      reflexivity.
  - apply (default_progress_is_clamp
             (Samples.rank_options "./a.png" (lit 0) (lit 100) None None) I eq_refl);
      reflexivity.
Defined.

(** C10: with [nextLevelXP = 0] and no truthy [progress] option, the
    constructor returns normally; a positive [currentXP] divides to
    Infinity and is clamped to 100, and [currentXP = 0] divides to NaN,
    which stays NaN in the progress and in the fill width of the bar. *)
Theorem zero_nextLevelXP_progress (o : Options.t) :
  Options.nextLevelXP o = lit 0 ->
  Spec.absent_or_falsy (Options.progress o) ->
  (gt (Options.currentXP o) (lit 0) = true ->
     div (Options.currentXP o) (Options.nextLevelXP o) = Infinity
     /\ Required.progress (constructor o) = lit 100)
  /\ (Options.currentXP o = lit 0 ->
      div (Options.currentXP o) (Options.nextLevelXP o) = NaN
      /\ Required.progress (constructor o) = NaN
      /\ progressWidth (constructor o) = NaN).
Proof.
  intros Hnext Ha. split.
  - intros Hpos. rewrite (progress_derived o Ha), Hnext.
    destruct (positive_cases _ Hpos) as [-> | (m & e & ->)]; split; reflexivity.
  - intros Hcur.
    assert (Required.progress (constructor o) = NaN) as Hp.
    { rewrite (progress_derived o Ha), Hnext, Hcur. reflexivity. }
    rewrite Hnext, Hcur. split; [reflexivity|]. split; [exact Hp|].
    unfold progressWidth. rewrite Hp, mul_nan_r. reflexivity.
Qed.

Lemma zero_nextLevelXP_progress_witness :
  (div (lit 5) (lit 0) = Infinity
   /\ Required.progress
        (constructor (Samples.rank_options "./a.png" (lit 5) (lit 0) None None))
      = lit 100)
  /\ (div (lit 0) (lit 0) = NaN
      /\ Required.progress
           (constructor (Samples.rank_options "./a.png" (lit 0) (lit 0) (Some (lit 0)) None))
         = NaN
      /\ progressWidth
           (constructor (Samples.rank_options "./a.png" (lit 0) (lit 0) (Some (lit 0)) None))
         = NaN).
Proof.
  split.
  - apply (proj1 (zero_nextLevelXP_progress
                    (Samples.rank_options "./a.png" (lit 5) (lit 0) None None)
                    eq_refl I)).
    reflexivity.
  - apply (proj2 (zero_nextLevelXP_progress
                    (Samples.rank_options "./a.png" (lit 0) (lit 0) (Some (lit 0)) None)
                    eq_refl eq_refl)).
    reflexivity.
Defined.

(** With [nextLevelXP = -0] instead, a positive [currentXP] divides to
    -Infinity, which is clamped to 0. *)
Lemma negative_zero_nextLevelXP :
  calculateProgress (lit 5) nzero = lit 0.
Proof. reflexivity. Qed.

End RankCardSpec.

(* ===================================================================== *)
(** ** The avatar loader, case by case *)
(* ===================================================================== *)

Module LoaderSpec.

Import JS Canvas RenderFacts.

(** A remote avatar whose request rejects. *)
Lemma loadAvatar_fetch_rejects (world : Host.World) (avatarUrl : string)
  (cause : thrown) :
  isLocalPath avatarUrl = false ->
  Host.fetch world avatarUrl = inl cause ->
  rejects (loadAvatar world avatarUrl) (Behaviour.load_error avatarUrl cause).
Proof.
  intros Hlocal Hfetch c. unfold loadAvatar. rewrite Hlocal.
  rewrite run_bind, run_catch, run_bind. unfold await. rewrite Hfetch.
  rewrite run_raise, run_raise. reflexivity.
Qed.

(** A remote avatar whose response is ok but whose body cannot be read. *)
Lemma loadAvatar_body_rejects (world : Host.World) (avatarUrl : string)
  (response : Host.Response) (cause : thrown) :
  isLocalPath avatarUrl = false ->
  Host.fetch world avatarUrl = inr response ->
  Host.ok response = true ->
  Host.arrayBuffer response = inl cause ->
  rejects (loadAvatar world avatarUrl) (Behaviour.load_error avatarUrl cause).
Proof.
  intros Hlocal Hfetch Hok Hbody c. unfold loadAvatar. rewrite Hlocal.
  rewrite run_bind, run_catch, run_bind. unfold await. rewrite Hfetch.
  rewrite run_ret, run_bind, Hok. cbn [negb]. rewrite run_ret, run_bind, Hbody.
  rewrite run_raise, run_raise. reflexivity.
Qed.

(** A remote avatar whose body is buffered: the decoder decides. *)
Lemma loadAvatar_buffered (world : Host.World) (avatarUrl : string)
  (response : Host.Response) (body : list Byte.byte) :
  isLocalPath avatarUrl = false ->
  Host.fetch world avatarUrl = inr response ->
  Host.ok response = true ->
  Host.arrayBuffer response = inr body ->
  forall c,
    runStateT (loadAvatar world avatarUrl) c
    = runStateT (loadImage world (Host.SrcBuffer body)) c.
Proof.
  intros Hlocal Hfetch Hok Hbody c. unfold loadAvatar. rewrite Hlocal.
  rewrite run_bind, run_catch, run_bind. unfold await. rewrite Hfetch.
  rewrite run_ret, run_bind, Hok. cbn [negb]. rewrite run_ret, run_bind, Hbody.
  rewrite run_ret, run_ret. reflexivity.
Qed.

(** Whatever the host, the loader resolves without a call on the surface
    or rejects, and which of the two does not depend on the surface. *)
Lemma loadImage_outcome (world : Host.World) (src : Host.ImageSrc) :
  (exists img, draws (loadImage world src) img [])
  \/ (exists e, rejects (loadImage world src) e).
Proof.
  destruct (Host.decode world src) as [e|] eqn:Hd.
  - right. exists e. now apply loadImage_rejects.
  - left. eexists. now apply loadImage_draws.
Qed.

Lemma loadAvatar_outcome (world : Host.World) (avatarUrl : string) :
  (exists img, draws (loadAvatar world avatarUrl) img [])
  \/ (exists e, rejects (loadAvatar world avatarUrl) e).
Proof.
  destruct (isLocalPath avatarUrl) eqn:Hlocal.
  - rewrite (loadAvatar_local world avatarUrl Hlocal). apply loadImage_outcome.
  - destruct (Host.fetch world avatarUrl) as [cause|response] eqn:Hfetch.
    + right. exists (Behaviour.load_error avatarUrl cause).
      now apply loadAvatar_fetch_rejects.
    + destruct (Host.ok response) eqn:Hok.
      * destruct (Host.arrayBuffer response) as [cause|body] eqn:Hbody.
        -- right. exists (Behaviour.load_error avatarUrl cause).
           now apply (loadAvatar_body_rejects world avatarUrl response).
        -- destruct (loadImage_outcome world (Host.SrcBuffer body)) as [[img H]|[e H]].
           ++ left. exists img. intros c.
              rewrite (loadAvatar_buffered world avatarUrl response body); auto.
           ++ right. exists e. intros c.
              rewrite (loadAvatar_buffered world avatarUrl response body); auto.
      * right. eexists. now apply (loadAvatar_not_ok world avatarUrl response).
Qed.

(** X1: a remote avatar whose request rejects, or whose body cannot be
    read, makes [loadAvatar] reject with an [Error] that wraps the cause:
    its message is the fixed prefix, the URL, and the message of the
    cause, or [Unknown error] when the cause is not an [Error]. *)
Theorem avatar_failure_before_decoding_is_wrapped
  (world : Host.World) (avatarUrl : string) (cause : thrown) :
  isLocalPath avatarUrl = false ->
  (Host.fetch world avatarUrl = inl cause
   \/ exists response,
        Host.fetch world avatarUrl = inr response
        /\ Host.ok response = true
        /\ Host.arrayBuffer response = inl cause) ->
  rejects (loadAvatar world avatarUrl)
    (ErrorObject "Error"
       ("Failed to load external avatar: " ++ avatarUrl ++ ". Error: "
        ++ match cause with
           | ErrorObject _ message => message
           | NonError _ => "Unknown error"
           end)).
Proof.
  intros Hlocal [Hfetch | (response & Hfetch & Hok & Hbody)].
  - now apply loadAvatar_fetch_rejects.
  - now apply (loadAvatar_body_rejects world avatarUrl response).
Qed.

Lemma avatar_failure_before_decoding_is_wrapped_witness :
  rejects (loadAvatar Cases.world_offline "https://example.com/a.png")
    (ErrorObject "Error"
       "Failed to load external avatar: https://example.com/a.png. Error: request failed, reason: ENOTFOUND")
  /\ rejects (loadAvatar Cases.world_broken_body "https://example.com/a.png")
       (ErrorObject "Error"
          "Failed to load external avatar: https://example.com/a.png. Error: Unknown error").
Proof.
  split.
  - apply (avatar_failure_before_decoding_is_wrapped Cases.world_offline
             "https://example.com/a.png"
             (ErrorObject "FetchError" "request failed, reason: ENOTFOUND"));
      [reflexivity | left; reflexivity].
  - apply (avatar_failure_before_decoding_is_wrapped Cases.world_broken_body
             "https://example.com/a.png" (NonError "aborted"));
      [reflexivity | right; eexists; repeat split].
Defined.

(** X2: once the body of a remote avatar is buffered, the decoder
    decides: the loader resolves to the image of the buffered bytes
    without a call on the surface, or rejects with the decoder's own
    error, which the [catch] does not wrap. *)
Theorem buffered_avatar_outcome_is_decoders
  (world : Host.World) (avatarUrl : string) (response : Host.Response)
  (body : list Byte.byte) :
  isLocalPath avatarUrl = false ->
  Host.fetch world avatarUrl = inr response ->
  Host.ok response = true ->
  Host.arrayBuffer response = inr body ->
  (Host.decode world (Host.SrcBuffer body) = None ->
     draws (loadAvatar world avatarUrl) (Host.Loaded (Host.SrcBuffer body)) [])
  /\ (forall e, Host.decode world (Host.SrcBuffer body) = Some e ->
        rejects (loadAvatar world avatarUrl) e).
Proof.
  intros Hlocal Hfetch Hok Hbody. split.
  - intros Hd c. rewrite (loadAvatar_buffered world avatarUrl response body); auto.
    now apply loadImage_draws.
  - intros e Hd c. rewrite (loadAvatar_buffered world avatarUrl response body); auto.
    now apply loadImage_rejects.
Qed.

Lemma buffered_avatar_outcome_is_decoders_witness :
  draws (loadAvatar Samples.world_ok "https://example.com/a.png")
    (Host.Loaded (Host.SrcBuffer [])) []
  /\ rejects (loadAvatar Cases.world_not_an_image "https://example.com/a.png")
       (ErrorObject "Error" "Unsupported image type").
Proof.
  split.
  - apply (proj1 (buffered_avatar_outcome_is_decoders Samples.world_ok
                    "https://example.com/a.png"
                    {| Host.status := 200; Host.statusText := "OK";
                       Host.arrayBuffer := inr [] |} []
                    eq_refl eq_refl eq_refl eq_refl)).
    reflexivity.
  - apply (proj2 (buffered_avatar_outcome_is_decoders Cases.world_not_an_image
                    "https://example.com/a.png"
                    {| Host.status := 200; Host.statusText := "OK";
                       Host.arrayBuffer := inr [Byte.x01; Byte.x02; Byte.x03] |}
                    [Byte.x01; Byte.x02; Byte.x03]
                    eq_refl eq_refl eq_refl eq_refl)).
    reflexivity.
Defined.

(** The stages read the host only through its decoder, its text metrics
    and its number formatting once the avatar is a local path. *)
Lemma loadAvatar_with_fetch (world : Host.World)
  (fetch : string -> thrown + Host.Response) (avatarUrl : string) :
  isLocalPath avatarUrl = true ->
  loadAvatar (Behaviour.with_fetch world fetch) avatarUrl = loadAvatar world avatarUrl.
Proof. intros H. rewrite !loadAvatar_local by exact H. reflexivity. Qed.

Lemma profile_toBuffer_with_fetch (world : Host.World)
  (fetch : string -> thrown + Host.Response) (options : ProfileCard.Required.t) :
  isLocalPath (ProfileCard.Required.avatarUrl options) = true ->
  ProfileCard.toBuffer (Behaviour.with_fetch world fetch) options
  = ProfileCard.toBuffer world options.
Proof.
  intros H. unfold ProfileCard.toBuffer, ProfileCard.drawAvatar.
  rewrite (loadAvatar_with_fetch world fetch _ H). reflexivity.
Qed.

Lemma welcome_toBuffer_with_fetch (world : Host.World)
  (fetch : string -> thrown + Host.Response) (options : WelcomeCard.Required.t) :
  isLocalPath (WelcomeCard.Required.avatarUrl options) = true ->
  WelcomeCard.toBuffer (Behaviour.with_fetch world fetch) options
  = WelcomeCard.toBuffer world options.
Proof.
  intros H. unfold WelcomeCard.toBuffer, WelcomeCard.drawBackground.
  rewrite (loadAvatar_with_fetch world fetch _ H). reflexivity.
Qed.

Lemma rank_toBuffer_with_fetch (world : Host.World)
  (fetch : string -> thrown + Host.Response) (options : RankCard.Required.t) :
  isLocalPath (RankCard.Required.avatarUrl options) = true ->
  RankCard.toBuffer (Behaviour.with_fetch world fetch) options
  = RankCard.toBuffer world options.
Proof.
  intros H. unfold RankCard.toBuffer, RankCard.drawAvatar.
  rewrite (loadAvatar_with_fetch world fetch _ H). reflexivity.
Qed.

(** X3: with a local avatar path no generator uses the HTTP client: the
    render is the same under every client, also when the background
    image of a ProfileCard or RankCard is a URL (it is handed to the
    decoder as it is). *)
Theorem local_avatar_needs_no_network
  (world : Host.World) (fetch : string -> thrown + Host.Response) :
  (forall o : ProfileCard.Options.t,
     isLocalPath (ProfileCard.Options.avatarUrl o) = true ->
     ProfileCard.render (Behaviour.with_fetch world fetch) o
     = ProfileCard.render world o)
  /\ (forall o : WelcomeCard.Options.t,
        isLocalPath (WelcomeCard.Options.avatarUrl o) = true ->
        WelcomeCard.render (Behaviour.with_fetch world fetch) o
        = WelcomeCard.render world o)
  /\ (forall o : RankCard.Options.t,
        isLocalPath (RankCard.Options.avatarUrl o) = true ->
        RankCard.render (Behaviour.with_fetch world fetch) o
        = RankCard.render world o).
Proof.
  split; [|split]; intros o H.
  - unfold ProfileCard.render. now rewrite profile_toBuffer_with_fetch.
  - unfold WelcomeCard.render. now rewrite welcome_toBuffer_with_fetch.
  - unfold RankCard.render. now rewrite rank_toBuffer_with_fetch.
Qed.

Lemma local_avatar_needs_no_network_witness :
  ProfileCard.render Cases.world_offline
    (Samples.profile_options "./a.png" None (Some "https://example.com/bg.png"))
  = ProfileCard.render Samples.world_ok
      (Samples.profile_options "./a.png" None (Some "https://example.com/bg.png"))
  /\ WelcomeCard.render Cases.world_offline (Samples.welcome_options "avatar.png" None)
     = WelcomeCard.render Samples.world_ok (Samples.welcome_options "avatar.png" None)
  /\ RankCard.render Cases.world_offline
       (Samples.rank_options "/srv/a.png" (lit 50) (lit 100) None None)
     = RankCard.render Samples.world_ok
         (Samples.rank_options "/srv/a.png" (lit 50) (lit 100) None None).
Proof.
  destruct (local_avatar_needs_no_network Samples.world_ok
              (fun _ => inl (ErrorObject "FetchError" "request failed, reason: ENOTFOUND")))
    as (Hp & Hw & Hr).
  split; [|split].
  - apply (Hp (Samples.profile_options "./a.png" None (Some "https://example.com/bg.png"))).
    reflexivity.
  - apply (Hw (Samples.welcome_options "avatar.png" None)). reflexivity.
  - apply (Hr (Samples.rank_options "/srv/a.png" (lit 50) (lit 100) None None)).
    reflexivity.
Defined.

Lemma substring_prefix (p b : string) :
  substring 0 (String.length p) (p ++ b) = p.
Proof.
  induction p as [|c p IH]; simpl.
  - destruct b; reflexivity.
  - now rewrite IH.
Qed.

Lemma substring_middle (a p b : string) :
  substring (String.length a) (String.length p) (a ++ p ++ b) = p.
Proof.
  induction a as [|c a IH]; simpl; [apply substring_prefix | exact IH].
Qed.

(** [includes] finds a non-empty string wherever it occurs. *)
Lemma includes_middle (a p b : string) :
  p <> "" -> includes p (a ++ p ++ b) = true.
Proof.
  intros Hp. unfold includes.
  destruct (index 0 p (a ++ p ++ b)) eqn:Hi; [reflexivity|].
  exfalso.
  apply (index_correct3 0 (String.length a) p (a ++ p ++ b) Hi Hp); [lia|].
  apply substring_middle.
Qed.

(** X4: a reference with [://] anywhere in it that starts neither with
    [/] nor with [./] is not taken for a local path, whatever comes
    before the [://]: it goes to the HTTP client, and the decoder is
    never asked about the reference itself. *)
Theorem reference_with_scheme_is_fetched (world : Host.World) (a b : string) :
  startsWith "/" (a ++ "://" ++ b) = false ->
  startsWith "./" (a ++ "://" ++ b) = false ->
  isLocalPath (a ++ "://" ++ b) = false
  /\ forall cause,
       Host.fetch world (a ++ "://" ++ b) = inl cause ->
       rejects (loadAvatar world (a ++ "://" ++ b))
         (Behaviour.load_error (a ++ "://" ++ b) cause).
Proof.
  intros Hslash Hdot.
  assert (isLocalPath (a ++ "://" ++ b) = false) as Hremote.
  { unfold isLocalPath. rewrite Hslash, Hdot, includes_middle; [reflexivity|].
    discriminate. }
  split; [exact Hremote|].
  intros cause Hfetch. now apply loadAvatar_fetch_rejects.
Qed.

Lemma reference_with_scheme_is_fetched_witness :
  isLocalPath "file:///tmp/avatar.png" = false
  /\ rejects (loadAvatar Cases.world_offline "file:///tmp/avatar.png")
       (Behaviour.load_error "file:///tmp/avatar.png"
          (ErrorObject "FetchError" "request failed, reason: ENOTFOUND")).
Proof.
  destruct (reference_with_scheme_is_fetched Cases.world_offline
              "file" "/tmp/avatar.png" eq_refl eq_refl) as [Hremote Hrejects].
  split; [exact Hremote|]. apply Hrejects. reflexivity.
Defined.

End LoaderSpec.

(* ===================================================================== *)
(** ** The options normalizer: what it keeps and what it guarantees *)
(* ===================================================================== *)

Module NormalizerMore.

Import JS.

#[local] Arguments or_else : simpl never.
#[local] Arguments opt_chain : simpl never.
#[local] Arguments lit : simpl never.
#[local] Arguments RankCard.calculateProgress : simpl never.
#[local] Arguments ProfileCard.getStatusColor : simpl never.

Lemma or_else_kept {A : Type} `{Truthy A} (x : option A) (d : A) :
  Behaviour.kept x (or_else x d).
Proof. intros v -> Hv. unfold or_else. now rewrite Hv. Qed.

Lemma or_else_kept_inner (x : option number) (d : number) :
  Behaviour.kept_inner x (Some (or_else x d)).
Proof. intros v -> Hv. unfold or_else. now rewrite Hv. Qed.

(** [x || d] is truthy as soon as [d] is. *)
Lemma or_else_usable {A : Type} `{Truthy A} (x : option A) (d : A) :
  truthy d = true -> truthy (or_else x d) = true.
Proof.
  intros Hd. unfold or_else. destruct x as [v|]; [|exact Hd].
  destruct (truthy v) eqn:Hv; [exact Hv | exact Hd].
Qed.

Lemma or_else_usable_inner (x : option number) (d : number) :
  truthy d = true -> Behaviour.usable (Some (or_else x d)).
Proof. intros Hd. eexists. split; [reflexivity | now apply or_else_usable]. Qed.

Lemma getStatusColor_not_empty (status : string) :
  truthy (ProfileCard.getStatusColor status) = true.
Proof.
  unfold ProfileCard.getStatusColor.
  repeat match goal with
         | |- context [if ?b then _ else _] => destruct b
         end; reflexivity.
Qed.

Ltac kept_rows :=
  repeat split; simpl;
  first [ reflexivity | apply or_else_kept | apply or_else_kept_inner
        | intros ? ->; reflexivity ].

Ltac usable_rows :=
  repeat split; simpl;
  first [ apply or_else_usable_inner; reflexivity
        | apply or_else_usable; first [reflexivity | apply getStatusColor_not_empty] ].

(** X5: each constructor hands the required fields over unchanged and
    keeps every optional value of the caller that is truthy; RankCard
    keeps a supplied [showProgress] also when it is [false]. *)
Theorem truthy_values_are_kept
  (p : ProfileCard.Options.t) (w : WelcomeCard.Options.t) (r : RankCard.Options.t) :
  Behaviour.profile_kept p /\ Behaviour.welcome_kept w /\ Behaviour.rank_kept r.
Proof.
  unfold Behaviour.profile_kept, Behaviour.welcome_kept, Behaviour.rank_kept,
    Behaviour.padding_kept.
  split; [|split]; kept_rows.
Qed.

(** X6: in every normalized configuration, whatever the caller
    supplied, the discriminator and the colours are non-empty strings,
    and every font size, every side of the padding and the border radius
    is a number that is neither 0 nor NaN. *)
Theorem normalized_fields_are_usable
  (p : ProfileCard.Options.t) (w : WelcomeCard.Options.t) (r : RankCard.Options.t) :
  Behaviour.profile_usable (ProfileCard.constructor p)
  /\ Behaviour.welcome_usable (WelcomeCard.constructor w)
  /\ Behaviour.rank_usable (RankCard.constructor r).
Proof.
  unfold Behaviour.profile_usable, Behaviour.welcome_usable, Behaviour.rank_usable,
    Behaviour.padding_usable.
  split; [|split]; usable_rows.
Qed.

Lemma truthy_values_are_kept_witness :
  ProfileCard.Required.borderRadius (ProfileCard.constructor Cases.profile_custom)
  = lit 24
  /\ WelcomeCard.Required.textColor (WelcomeCard.constructor Cases.welcome_custom)
     = "#101010"
  /\ Types.top (RankCard.Required.padding (RankCard.constructor Cases.rank_custom))
     = Some (lit 12)
  /\ RankCard.Required.showProgress (RankCard.constructor Cases.rank_custom) = false.
Proof.
  destruct (truthy_values_are_kept Cases.profile_custom Cases.welcome_custom
              Cases.rank_custom) as (Hp & Hw & Hr).
  unfold Behaviour.profile_kept, Behaviour.welcome_kept, Behaviour.rank_kept,
    Behaviour.padding_kept in *.
  decompose [and] Hp. decompose [and] Hw. decompose [and] Hr.
  repeat split;
    match goal with
    | H : Behaviour.kept _ ?n |- ?n = _ => apply H; reflexivity
    | H : Behaviour.kept_inner _ ?n |- ?n = _ => apply H; reflexivity
    | H : forall b, _ -> ?n = b |- ?n = _ => apply H; reflexivity
    end.
Defined.

(** X14: the colour of the status indicator of a ProfileCard: a truthy
    [statusColor] of the caller wins; otherwise it is the colour that
    [getStatusColor] gives for the status, and for an omitted status the
    colour of [online]. *)
Theorem status_colour_precedence (o : ProfileCard.Options.t) :
  (forall colour,
     ProfileCard.Options.statusColor o = Some colour -> truthy colour = true ->
     ProfileCard.Required.statusColor (ProfileCard.constructor o) = colour)
  /\ (Spec.absent_or_falsy (ProfileCard.Options.statusColor o) ->
      (forall status,
         ProfileCard.Options.status o = Some status -> truthy status = true ->
         ProfileCard.Required.statusColor (ProfileCard.constructor o)
         = ProfileCard.getStatusColor status)
      /\ (Spec.absent_or_falsy (ProfileCard.Options.status o) ->
          ProfileCard.Required.statusColor (ProfileCard.constructor o) = "#43B581")).
Proof.
  split.
  - intros colour Hc Ht. simpl. rewrite Hc. now apply NormalizerSpec.or_else_truthy.
  - intros Habsent.
    assert (ProfileCard.Required.statusColor (ProfileCard.constructor o)
            = ProfileCard.getStatusColor (or_else (ProfileCard.Options.status o) "online"))
      as ->.
    { simpl. unfold Spec.absent_or_falsy in Habsent.
      destruct (ProfileCard.Options.statusColor o) as [c|]; [|reflexivity].
      now apply NormalizerSpec.or_else_falsy. }
    split.
    + intros status Hs Ht. rewrite Hs. now rewrite (NormalizerSpec.or_else_truthy _ _ Ht).
    + intros Hstatus. unfold Spec.absent_or_falsy in Hstatus.
      destruct (ProfileCard.Options.status o) as [s|]; [|reflexivity].
      now rewrite (NormalizerSpec.or_else_falsy _ _ Hstatus).
Qed.

Lemma status_colour_precedence_witness :
  ProfileCard.Required.statusColor (ProfileCard.constructor Cases.profile_custom)
  = "#F04747"
  /\ ProfileCard.Required.statusColor
       (ProfileCard.constructor (Samples.profile_options "./a.png" None None))
     = "#43B581".
Proof.
  split.
  - apply (proj1 (proj2 (status_colour_precedence Cases.profile_custom) I) "dnd");
      reflexivity.
  - apply (proj2 (proj2 (status_colour_precedence
                           (Samples.profile_options "./a.png" None None)) I)).
    exact I.
Defined.

(** X15: [calculateProgress] returns NaN exactly when
    [currentXP / nextLevelXP * 100] is NaN, and a percentage otherwise;
    it is NaN when either operand is NaN, for 0 / 0 and for
    Infinity / Infinity, whatever the signs. *)
Theorem progress_NaN_exactly_when_quotient_is (currentXP nextLevelXP : number) :
  isNaN (RankCard.calculateProgress currentXP nextLevelXP)
  = isNaN (mul (div currentXP nextLevelXP) (lit 100))
  /\ (isNaN (RankCard.calculateProgress currentXP nextLevelXP) = false ->
      Spec.percentage (RankCard.calculateProgress currentXP nextLevelXP) = true)
  /\ (isNaN currentXP = true \/ isNaN nextLevelXP = true ->
      RankCard.calculateProgress currentXP nextLevelXP = NaN)
  /\ (forall s s',
        RankCard.calculateProgress (S754_zero s) (S754_zero s') = NaN
        /\ RankCard.calculateProgress (S754_infinity s) (S754_infinity s') = NaN).
Proof.
  unfold RankCard.calculateProgress.
  assert (isNaN (Math_min [lit 100; Math_max [lit 0;
                   mul (div currentXP nextLevelXP) (lit 100)]])
          = isNaN (mul (div currentXP nextLevelXP) (lit 100))) as Hiff.
  { destruct (isNaN (mul (div currentXP nextLevelXP) (lit 100))) eqn:Hn.
    - now rewrite (NumberFacts.min_max_nan _ Hn).
    - pose proof (NumberFacts.min_max_percentage _ Hn) as Hp.
      unfold Spec.percentage, le, SFleb in Hp.
      destruct (Math_min _) eqn:Hm; try reflexivity.
      rewrite NumberFacts.lit_0 in Hp. discriminate. }
  split; [exact Hiff|]. split; [|split].
  - rewrite Hiff. apply NumberFacts.min_max_percentage.
  - intros [H|H]; apply NumberFacts.min_max_nan.
    + destruct currentXP; try discriminate. reflexivity.
    + destruct nextLevelXP; try discriminate. destruct currentXP; reflexivity.
  - intros s s'. split; reflexivity.
Qed.

Lemma progress_NaN_exactly_when_quotient_is_witness :
  Spec.percentage (RankCard.calculateProgress (lit 1) (lit 3)) = true
  /\ RankCard.calculateProgress NaN (lit 3) = NaN.
Proof.
  split.
  - apply (proj1 (proj2 (progress_NaN_exactly_when_quotient_is (lit 1) (lit 3)))).
    reflexivity.
  - apply (proj1 (proj2 (proj2 (progress_NaN_exactly_when_quotient_is NaN (lit 3))))).
    left. reflexivity.
Defined.

End NormalizerMore.

(* ===================================================================== *)
(** ** The outcome of a render *)
(* ===================================================================== *)

Module OutcomeSpec.

Import JS Canvas RenderFacts.

Lemma draws_cons {B : Type} (o : op) (k : unit -> Render B) (b : B) (ops : list op) :
  draws (k tt) b ops -> draws (bind (draw o) k) b (o :: ops).
Proof.
  intros H. change (o :: ops) with ([o] ++ ops)%list.
  eapply draws_bind; [apply draws_draw | exact H].
Qed.

Lemma roundedCorners_path (width height radius : number) :
  draws (roundedCorners width height radius) tt
    (Behaviour.corner_path width height radius).
Proof.
  unfold roundedCorners, Behaviour.corner_path.
  repeat (apply draws_cons; cbv beta). apply draws_draw.
Qed.

(** A background stage draws, or rejects with the error of the decoder
    on the background image. *)
Lemma profile_background_outcome (world : Host.World) (c : ProfileCard.Required.t) :
  (Spec.background_passes world (ProfileCard.Required.backgroundImage c)
   /\ exists ops, draws (ProfileCard.drawBackground world c) tt ops)
  \/ (exists e,
        truthy (ProfileCard.Required.backgroundImage c) = true
        /\ Host.decode world (Host.SrcString (ProfileCard.Required.backgroundImage c))
           = Some e
        /\ rejects (ProfileCard.drawBackground world c) e).
Proof.
  destruct (truthy (ProfileCard.Required.backgroundImage c)) eqn:Ht.
  - destruct (Host.decode world (Host.SrcString (ProfileCard.Required.backgroundImage c)))
      as [e|] eqn:Hd.
    + right. exists e. repeat split; auto.
      now apply ProfileStages.profile_drawBackground_rejects.
    + left. split; [now right|].
      now apply ProfileStages.profile_drawBackground_loaded.
  - left. split; [now left|]. eexists.
    now apply ProfileStages.profile_drawBackground_absent.
Qed.

Lemma rank_background_outcome (world : Host.World) (c : RankCard.Required.t) :
  (Spec.background_passes world (RankCard.Required.backgroundImage c)
   /\ exists ops, draws (RankCard.drawBackground world c) tt ops)
  \/ (exists e,
        truthy (RankCard.Required.backgroundImage c) = true
        /\ Host.decode world (Host.SrcString (RankCard.Required.backgroundImage c))
           = Some e
        /\ rejects (RankCard.drawBackground world c) e).
Proof.
  destruct (truthy (RankCard.Required.backgroundImage c)) eqn:Ht.
  - destruct (Host.decode world (Host.SrcString (RankCard.Required.backgroundImage c)))
      as [e|] eqn:Hd.
    + right. exists e. repeat split; auto.
      now apply RankStages.rank_drawBackground_rejects.
    + left. split; [now right|].
      now apply RankStages.rank_drawBackground_loaded.
  - left. split; [now left|]. eexists.
    now apply RankStages.rank_drawBackground_absent.
Qed.

(** The result of a pipeline whose loads succeed: a PNG of the size of
    the card, whose last calls are the corner path. *)
Lemma profile_toBuffer_runs (world : Host.World) (c : ProfileCard.Required.t)
  (ops : list op) (avatar : Host.Image) :
  draws (ProfileCard.drawBackground world c) tt ops ->
  draws (loadAvatar world (ProfileCard.Required.avatarUrl c)) avatar [] ->
  exists drawn,
    runStateT (ProfileCard.toBuffer world c) []
    = inr (Behaviour.png ProfileCard.canvas_width ProfileCard.canvas_height
             (Behaviour.finished ProfileCard.canvas_width ProfileCard.canvas_height
                (ProfileCard.Required.borderRadius c) drawn),
           Behaviour.finished ProfileCard.canvas_width ProfileCard.canvas_height
             (ProfileCard.Required.borderRadius c) drawn).
Proof.
  intros Hb Ha. unfold ProfileCard.toBuffer.
  destruct (ProfileStages.profile_drawAvatar_draws world c avatar Ha) as [ops2 H2].
  destruct (ProfileStages.profile_drawText_draws world c) as [ops3 H3].
  rewrite run_bind, Hb, run_bind, H2, run_bind, H3, run_bind, roundedCorners_path.
  rewrite run_encode. now exists ((([] ++ ops) ++ ops2) ++ ops3)%list.
Qed.

Lemma rank_toBuffer_runs (world : Host.World) (c : RankCard.Required.t)
  (ops : list op) (avatar : Host.Image) :
  draws (RankCard.drawBackground world c) tt ops ->
  draws (loadAvatar world (RankCard.Required.avatarUrl c)) avatar [] ->
  exists drawn,
    runStateT (RankCard.toBuffer world c) []
    = inr (Behaviour.png RankCard.canvas_width RankCard.canvas_height
             (Behaviour.finished RankCard.canvas_width RankCard.canvas_height
                (RankCard.Required.borderRadius c) drawn),
           Behaviour.finished RankCard.canvas_width RankCard.canvas_height
             (RankCard.Required.borderRadius c) drawn).
Proof.
  intros Hb Ha. unfold RankCard.toBuffer.
  destruct (RankStages.rank_drawAvatar_draws world c avatar Ha) as [ops2 H2].
  destruct (RankStages.rank_drawRankInfo_draws world c) as [ops3 H3].
  destruct (RankStages.rank_drawXPInfo_draws world c) as [ops4 H4].
  rewrite run_bind, Hb, run_bind, H2, run_bind, H3, run_bind, H4, run_bind,
    roundedCorners_path.
  rewrite run_encode.
  now exists (((([] ++ ops) ++ ops2) ++ ops3) ++ ops4)%list.
Qed.

Lemma welcome_toBuffer_runs (world : Host.World) (c : WelcomeCard.Required.t)
  (avatar : Host.Image) :
  draws (loadAvatar world (WelcomeCard.Required.avatarUrl c)) avatar [] ->
  exists drawn,
    runStateT (WelcomeCard.toBuffer world c) []
    = inr (Behaviour.png WelcomeCard.canvas_width WelcomeCard.canvas_height
             (Behaviour.finished WelcomeCard.canvas_width WelcomeCard.canvas_height
                (WelcomeCard.Required.borderRadius c)
                (Spec.welcome_blurred_background avatar ++ drawn)%list),
           Behaviour.finished WelcomeCard.canvas_width WelcomeCard.canvas_height
             (WelcomeCard.Required.borderRadius c)
             (Spec.welcome_blurred_background avatar ++ drawn)%list).
Proof.
  intros Ha. unfold WelcomeCard.toBuffer.
  destruct (WelcomeStages.welcome_drawText_draws world c) as [ops3 H3].
  destruct (WelcomeStages.welcome_drawAccentBar_draws c) as [ops4 H4].
  rewrite run_bind, (WelcomeStages.welcome_drawBackground_draws world c avatar Ha),
    run_bind.
  unfold WelcomeCard.drawAvatar at 1. rewrite run_ret.
  rewrite run_bind, H3, run_bind, H4, run_bind, roundedCorners_path, run_encode.
  exists (ops3 ++ ops4)%list. unfold Behaviour.finished, Behaviour.png.
  cbn [app]. rewrite <- !app_assoc. reflexivity.
Qed.

(** The three ways a render of a ProfileCard or a RankCard can go. *)
Lemma profile_render_cases (world : Host.World) (o : ProfileCard.Options.t) :
  (exists e,
     ProfileCard.render world o = inl e
     /\ truthy (ProfileCard.Required.backgroundImage (ProfileCard.constructor o)) = true
     /\ Host.decode world
          (Host.SrcString (ProfileCard.Required.backgroundImage (ProfileCard.constructor o)))
        = Some e)
  \/ (exists e,
        ProfileCard.render world o = inl e
        /\ Spec.background_passes world
             (ProfileCard.Required.backgroundImage (ProfileCard.constructor o))
        /\ rejects (loadAvatar world (ProfileCard.Options.avatarUrl o)) e)
  \/ (exists avatar drawn,
        ProfileCard.render world o
        = inr (Behaviour.png ProfileCard.canvas_width ProfileCard.canvas_height
                 (Behaviour.finished ProfileCard.canvas_width ProfileCard.canvas_height
                    (ProfileCard.Required.borderRadius (ProfileCard.constructor o)) drawn))
        /\ Spec.background_passes world
             (ProfileCard.Required.backgroundImage (ProfileCard.constructor o))
        /\ draws (loadAvatar world (ProfileCard.Options.avatarUrl o)) avatar []).
Proof.
  destruct (profile_background_outcome world (ProfileCard.constructor o))
    as [[Hpass [ops Hops]] | (e & Ht & Hd & Hrej)].
  - destruct (LoaderSpec.loadAvatar_outcome world (ProfileCard.Options.avatarUrl o))
      as [[avatar Ha] | [e He]].
    + right. right.
      destruct (profile_toBuffer_runs world (ProfileCard.constructor o) ops avatar Hops Ha)
        as [drawn Hrun].
      exists avatar, drawn. unfold ProfileCard.render. rewrite Hrun. auto.
    + right. left. exists e. split; [|auto].
      apply PipelineSpec.profile_render_rejects.
      now apply (ProfileStages.profile_toBuffer_rejects_avatar world _ ops).
  - left. exists e. split; [|auto].
    apply PipelineSpec.profile_render_rejects.
    now apply ProfileStages.profile_toBuffer_rejects_background.
Qed.

Lemma rank_render_cases (world : Host.World) (o : RankCard.Options.t) :
  (exists e,
     RankCard.render world o = inl e
     /\ truthy (RankCard.Required.backgroundImage (RankCard.constructor o)) = true
     /\ Host.decode world
          (Host.SrcString (RankCard.Required.backgroundImage (RankCard.constructor o)))
        = Some e)
  \/ (exists e,
        RankCard.render world o = inl e
        /\ Spec.background_passes world
             (RankCard.Required.backgroundImage (RankCard.constructor o))
        /\ rejects (loadAvatar world (RankCard.Options.avatarUrl o)) e)
  \/ (exists avatar drawn,
        RankCard.render world o
        = inr (Behaviour.png RankCard.canvas_width RankCard.canvas_height
                 (Behaviour.finished RankCard.canvas_width RankCard.canvas_height
                    (RankCard.Required.borderRadius (RankCard.constructor o)) drawn))
        /\ Spec.background_passes world
             (RankCard.Required.backgroundImage (RankCard.constructor o))
        /\ draws (loadAvatar world (RankCard.Options.avatarUrl o)) avatar []).
Proof.
  destruct (rank_background_outcome world (RankCard.constructor o))
    as [[Hpass [ops Hops]] | (e & Ht & Hd & Hrej)].
  - destruct (LoaderSpec.loadAvatar_outcome world (RankCard.Options.avatarUrl o))
      as [[avatar Ha] | [e He]].
    + right. right.
      destruct (rank_toBuffer_runs world (RankCard.constructor o) ops avatar Hops Ha)
        as [drawn Hrun].
      exists avatar, drawn. unfold RankCard.render. rewrite Hrun. auto.
    + right. left. exists e. split; [|auto].
      apply PipelineSpec.rank_render_rejects.
      now apply (RankStages.rank_toBuffer_rejects_avatar world _ ops).
  - left. exists e. split; [|auto].
    apply PipelineSpec.rank_render_rejects.
    now apply RankStages.rank_toBuffer_rejects_background.
Qed.

(** The two ways a render of a WelcomeCard can go. *)
Lemma welcome_render_cases (world : Host.World) (o : WelcomeCard.Options.t) :
  (exists e,
     WelcomeCard.render world o = inl e
     /\ rejects (loadAvatar world (WelcomeCard.Options.avatarUrl o)) e)
  \/ (exists avatar drawn,
        WelcomeCard.render world o
        = inr (Behaviour.png WelcomeCard.canvas_width WelcomeCard.canvas_height
                 (Behaviour.finished WelcomeCard.canvas_width WelcomeCard.canvas_height
                    (WelcomeCard.Required.borderRadius (WelcomeCard.constructor o))
                    (Spec.welcome_blurred_background avatar ++ drawn)%list))
        /\ draws (loadAvatar world (WelcomeCard.Options.avatarUrl o)) avatar []).
Proof.
  destruct (LoaderSpec.loadAvatar_outcome world (WelcomeCard.Options.avatarUrl o))
    as [[avatar Ha] | [e He]].
  - right.
    destruct (welcome_toBuffer_runs world (WelcomeCard.constructor o) avatar Ha)
      as [drawn Hrun].
    exists avatar, drawn. unfold WelcomeCard.render. rewrite Hrun. auto.
  - left. exists e. split; [|exact He].
    apply PipelineSpec.welcome_render_rejects.
    now apply WelcomeStages.welcome_toBuffer_rejects.
Qed.

Lemma background_fails_not_passes (world : Host.World) (backgroundImage : string)
  (e : thrown) :
  truthy backgroundImage = true ->
  Host.decode world (Host.SrcString backgroundImage) = Some e ->
  ~ Spec.background_passes world backgroundImage.
Proof. intros Ht Hd [H|H]; congruence. Qed.

(** X12: a render fails only through its loads.  When the render of a
    ProfileCard or a RankCard rejects, the error is the one the decoder
    raised on the background image or the one [loadAvatar] rejected
    with; when the render of a WelcomeCard rejects, it is the one
    [loadAvatar] rejected with.  No drawing stage rejects. *)
Theorem render_fails_only_through_loads (world : Host.World) :
  (forall (o : ProfileCard.Options.t) (e : thrown),
     ProfileCard.render world o = inl e ->
     Host.decode world
       (Host.SrcString (ProfileCard.Required.backgroundImage (ProfileCard.constructor o)))
     = Some e
     \/ rejects (loadAvatar world (ProfileCard.Options.avatarUrl o)) e)
  /\ (forall (o : WelcomeCard.Options.t) (e : thrown),
        WelcomeCard.render world o = inl e ->
        rejects (loadAvatar world (WelcomeCard.Options.avatarUrl o)) e)
  /\ (forall (o : RankCard.Options.t) (e : thrown),
        RankCard.render world o = inl e ->
        Host.decode world
          (Host.SrcString (RankCard.Required.backgroundImage (RankCard.constructor o)))
        = Some e
        \/ rejects (loadAvatar world (RankCard.Options.avatarUrl o)) e).
Proof.
  split; [|split].
  - intros o e Hr.
    destruct (profile_render_cases world o)
      as [(e' & H & _ & Hd) | [(e' & H & _ & Ha) | (a & d & H & _)]];
      rewrite H in Hr; [ | | discriminate]; injection Hr as <-; auto.
  - intros o e Hr.
    destruct (welcome_render_cases world o) as [(e' & H & Ha) | (a & d & H & _)];
      rewrite H in Hr; [ | discriminate]; injection Hr as <-; auto.
  - intros o e Hr.
    destruct (rank_render_cases world o)
      as [(e' & H & _ & Hd) | [(e' & H & _ & Ha) | (a & d & H & _)]];
      rewrite H in Hr; [ | | discriminate]; injection Hr as <-; auto.
Qed.

Lemma render_fails_only_through_loads_witness :
  Host.decode Samples.world_no_file
    (Host.SrcString
       (ProfileCard.Required.backgroundImage
          (ProfileCard.constructor
             (Samples.profile_options "./a.png" None (Some "./missing.png")))))
  = Some (new_Error "Unsupported image type")
  \/ rejects (loadAvatar Samples.world_no_file "./a.png")
       (new_Error "Unsupported image type").
Proof.
  apply (proj1 (render_fails_only_through_loads Samples.world_no_file)
           (Samples.profile_options "./a.png" None (Some "./missing.png"))).
  reflexivity.
Defined.

(** X13: a render resolves exactly when its loads pass (the background
    image, if there is one, decodes, and the avatar loads), and what it
    resolves to is a PNG of the size of the card (800 by 400, 1024 by
    500, 900 by 300) whose surface ends with the twelve calls of the
    corner path at the normalized radius; the clip is the last call, no
    drawing follows it. *)
Theorem render_resolves_to_clipped_png (world : Host.World) :
  (forall o : ProfileCard.Options.t,
     ((exists buffer, ProfileCard.render world o = inr buffer)
      <-> Spec.background_passes world
            (ProfileCard.Required.backgroundImage (ProfileCard.constructor o))
          /\ exists avatar,
               draws (loadAvatar world (ProfileCard.Options.avatarUrl o)) avatar [])
     /\ forall buffer,
          ProfileCard.render world o = inr buffer ->
          exists drawn,
            buffer
            = Behaviour.png (lit 800) (lit 400)
                (Behaviour.finished (lit 800) (lit 400)
                   (ProfileCard.Required.borderRadius (ProfileCard.constructor o)) drawn))
  /\ (forall o : WelcomeCard.Options.t,
        ((exists buffer, WelcomeCard.render world o = inr buffer)
         <-> exists avatar,
               draws (loadAvatar world (WelcomeCard.Options.avatarUrl o)) avatar [])
        /\ forall buffer,
             WelcomeCard.render world o = inr buffer ->
             exists drawn,
               buffer
               = Behaviour.png (lit 1024) (lit 500)
                   (Behaviour.finished (lit 1024) (lit 500)
                      (WelcomeCard.Required.borderRadius (WelcomeCard.constructor o))
                      drawn))
  /\ (forall o : RankCard.Options.t,
        ((exists buffer, RankCard.render world o = inr buffer)
         <-> Spec.background_passes world
               (RankCard.Required.backgroundImage (RankCard.constructor o))
             /\ exists avatar,
                  draws (loadAvatar world (RankCard.Options.avatarUrl o)) avatar [])
        /\ forall buffer,
             RankCard.render world o = inr buffer ->
             exists drawn,
               buffer
               = Behaviour.png (lit 900) (lit 300)
                   (Behaviour.finished (lit 900) (lit 300)
                      (RankCard.Required.borderRadius (RankCard.constructor o)) drawn)).
Proof.
  split; [|split]; intros o.
  - destruct (profile_render_cases world o)
      as [(e & H & Ht & Hd) | [(e & H & Hp & Ha) | (a & d & H & Hp & Ha)]];
      rewrite H; (split; [split|]).
    + intros [b Hb]. discriminate.
    + intros [Hp _]. now destruct (background_fails_not_passes world _ e Ht Hd).
    + discriminate.
    + intros [b Hb]. discriminate.
    + intros [_ [a Hdraws]]. now destruct (draws_rejects_absurd _ _ _ _ Hdraws Ha).
    + discriminate.
    + intros _. split; [exact Hp | now exists a].
    + intros _. eauto.
    + intros b Hb. injection Hb as <-. now exists d.
  - destruct (welcome_render_cases world o) as [(e & H & Ha) | (a & d & H & Ha)];
      rewrite H; (split; [split|]).
    + intros [b Hb]. discriminate.
    + intros [a Hdraws]. now destruct (draws_rejects_absurd _ _ _ _ Hdraws Ha).
    + discriminate.
    + intros _. now exists a.
    + intros _. eauto.
    + intros b Hb. injection Hb as <-. eexists. reflexivity.
  - destruct (rank_render_cases world o)
      as [(e & H & Ht & Hd) | [(e & H & Hp & Ha) | (a & d & H & Hp & Ha)]];
      rewrite H; (split; [split|]).
    + intros [b Hb]. discriminate.
    + intros [Hp _]. now destruct (background_fails_not_passes world _ e Ht Hd).
    + discriminate.
    + intros [b Hb]. discriminate.
    + intros [_ [a Hdraws]]. now destruct (draws_rejects_absurd _ _ _ _ Hdraws Ha).
    + discriminate.
    + intros _. split; [exact Hp | now exists a].
    + intros _. eauto.
    + intros b Hb. injection Hb as <-. now exists d.
Qed.

Lemma render_resolves_to_clipped_png_witness :
  exists buffer,
    RankCard.render Samples.world_ok
      (Samples.rank_options "./a.png" (lit 50) (lit 100) None None) = inr buffer
    /\ exists drawn,
         buffer
         = Behaviour.png (lit 900) (lit 300)
             (Behaviour.finished (lit 900) (lit 300) (lit 10) drawn).
Proof.
  destruct (render_resolves_to_clipped_png Samples.world_ok) as (_ & _ & Hrank).
  destruct (Hrank (Samples.rank_options "./a.png" (lit 50) (lit 100) None None))
    as [Hiff Hshape].
  destruct (proj2 Hiff) as [buffer Hbuffer].
  { split; [left; reflexivity|].
    exists (Host.Loaded (Host.SrcString "./a.png")).
    rewrite loadAvatar_local by reflexivity. now apply loadImage_draws. }
  exists buffer. split; [exact Hbuffer|]. exact (Hshape buffer Hbuffer).
Defined.

(** X16: a WelcomeCard never reads its [backgroundColor] either: two
    option records that differ only in [backgroundColor] and
    [backgroundImage] render to the same result. *)
Theorem welcome_ignores_backgroundColor (world : Host.World)
  (a b : WelcomeCard.Options.t) :
  Behaviour.welcome_same_but_background a b ->
  WelcomeCard.render world a = WelcomeCard.render world b.
Proof.
  intros (H1 & H2 & H3 & H4 & H5 & H6 & H7 & H8 & H9 & H10).
  unfold WelcomeCard.render.
  rewrite (WelcomeStages.welcome_toBuffer_ignores_backgroundImage world
             (WelcomeCard.constructor a) (WelcomeCard.constructor b));
    [reflexivity | unfold WelcomeCard.constructor; simpl; congruence ..].
Qed.

Lemma welcome_ignores_backgroundColor_witness :
  WelcomeCard.render Samples.world_ok Cases.welcome_custom
  = WelcomeCard.render Samples.world_ok Cases.welcome_custom_red.
Proof.
  apply welcome_ignores_backgroundColor. repeat split.
Defined.

(** No stage of a ProfileCard reads the normalized [status]. *)
Lemma profile_toBuffer_ignores_status (world : Host.World)
  (a b : ProfileCard.Required.t) :
  ProfileCard.Required.username a = ProfileCard.Required.username b ->
  ProfileCard.Required.discriminator a = ProfileCard.Required.discriminator b ->
  ProfileCard.Required.avatarUrl a = ProfileCard.Required.avatarUrl b ->
  ProfileCard.Required.statusColor a = ProfileCard.Required.statusColor b ->
  ProfileCard.Required.bio a = ProfileCard.Required.bio b ->
  ProfileCard.Required.badges a = ProfileCard.Required.badges b ->
  ProfileCard.Required.backgroundColor a = ProfileCard.Required.backgroundColor b ->
  ProfileCard.Required.textColor a = ProfileCard.Required.textColor b ->
  ProfileCard.Required.accentColor a = ProfileCard.Required.accentColor b ->
  ProfileCard.Required.backgroundImage a = ProfileCard.Required.backgroundImage b ->
  ProfileCard.Required.fontSize a = ProfileCard.Required.fontSize b ->
  ProfileCard.Required.padding a = ProfileCard.Required.padding b ->
  ProfileCard.Required.borderRadius a = ProfileCard.Required.borderRadius b ->
  ProfileCard.Required.layout a = ProfileCard.Required.layout b ->
  ProfileCard.toBuffer world a = ProfileCard.toBuffer world b.
Proof.
  destruct a, b. cbn. intros. subst. reflexivity.
Qed.

(** X17: the [status] of a ProfileCard only chooses the default colour
    of the indicator: with a truthy [statusColor], two option records
    that differ only in [status] render to the same result. *)
Theorem status_only_chooses_a_colour (world : Host.World)
  (a b : ProfileCard.Options.t) (colour : string) :
  Behaviour.profile_same_but_status a b ->
  ProfileCard.Options.statusColor a = Some colour ->
  truthy colour = true ->
  ProfileCard.render world a = ProfileCard.render world b.
Proof.
  intros (H1 & H2 & H3 & H4 & H5 & H6 & H7 & H8 & H9 & H10 & H11 & H12 & H13 & H14)
    Hc Ht.
  unfold ProfileCard.render.
  rewrite (profile_toBuffer_ignores_status world
             (ProfileCard.constructor a) (ProfileCard.constructor b));
    [reflexivity | unfold ProfileCard.constructor; cbn; try congruence ..].
  rewrite <- H4, Hc. unfold or_else. now rewrite Ht.
Qed.

Lemma status_only_chooses_a_colour_witness :
  ProfileCard.render Samples.world_ok Cases.profile_idle_blue
  = ProfileCard.render Samples.world_ok Cases.profile_dnd_blue.
Proof.
  apply (status_only_chooses_a_colour Samples.world_ok
           Cases.profile_idle_blue Cases.profile_dnd_blue "#0000FF").
  - repeat split.
  - reflexivity.
  - reflexivity.
Defined.

End OutcomeSpec.

(* ===================================================================== *)
(** ** The text stages *)
(* ===================================================================== *)

Module TextSpec.

Import JS Canvas RenderFacts.

Lemma append_nil_right (s : string) : s ++ "" = s.
Proof. induction s as [|c s IH]; simpl; [reflexivity | now rewrite IH]. Qed.

Lemma append_associative (a b c : string) : (a ++ b) ++ c = a ++ b ++ c.
Proof. induction a as [|x a IH]; simpl; [reflexivity | now rewrite IH]. Qed.

Lemma join_all_app (a b : list string) :
  Behaviour.join_all (a ++ b) = Behaviour.join_all a ++ Behaviour.join_all b.
Proof.
  induction a as [|x a IH]; simpl; [reflexivity|].
  now rewrite IH, append_associative.
Qed.

(** Splitting at the spaces and giving each word its space back yields
    the string, with one space more at the end. *)
Lemma join_split (s : string) :
  Behaviour.join_all (map (fun word => word ++ " ") (split " " s)) = s ++ " ".
Proof.
  induction s as [|c s IH]; [reflexivity|].
  cbn [split]. destruct (Ascii.eqb_spec c " ") as [->|Hc].
  - cbn [map Behaviour.join_all fold_right].
    change (fold_right append "" (map (fun word => word ++ " ") (split " " s)))
      with (Behaviour.join_all (map (fun word => word ++ " ") (split " " s))).
    rewrite IH. reflexivity.
  - destruct (split " " s) as [|w ws] eqn:Hs.
    + now destruct (ProfileStages.profile_split_not_nil " " s).
    + cbn [map Behaviour.join_all fold_right] in *.
      simpl. simpl in IH. now rewrite IH.
Qed.

Section Profile.

Import ProfileCard.

Variable world : Host.World.
Variable options : Required.t.

(** The loop loses no word: the lines it has drawn, followed by the line
    it holds, are the line it started with followed by the words. *)
Lemma wrapLoop_text (words : list string) :
  forall (i : nat) (line : string) (currentY : number),
    exists line' currentY' ops,
      draws (wrapLoop world options words i line currentY) (line', currentY') ops
      /\ Behaviour.join_all (fillTexts ops) ++ line'
         = line ++ Behaviour.join_all (map (fun word => word ++ " ") words)
      /\ List.length (fillTexts ops) <= List.length words.
Proof.
  induction words as [|word rest IH]; intros i line currentY.
  - exists line, currentY, []. split; [apply draws_ret|].
    split; [now rewrite append_nil_right | apply le_n].
  - cbn [wrapLoop]. cbv zeta.
    destruct (gt (Host.measureText world (bioFont world options)
                    (line ++ word ++ " ")) (maxWidth options)
              && (0 <? i)%nat).
    + match goal with
      | |- context [wrapLoop world options rest ?j ?l ?y] =>
          destruct (IH j l y) as (line' & currentY' & ops & Hd & Htext & Hlen)
      end.
      exists line', currentY'. eexists. split.
      * eapply draws_bind; [apply draws_draw | exact Hd].
      * cbn [app fillTexts Behaviour.join_all fold_right map List.length].
        change (fold_right append "" (fillTexts ops))
          with (Behaviour.join_all (fillTexts ops)).
        change (fold_right append "" (map (fun word0 => word0 ++ " ") rest))
          with (Behaviour.join_all (map (fun word0 => word0 ++ " ") rest)).
        split; [|lia].
        rewrite append_associative, Htext. reflexivity.
    + destruct (IH (S i) (line ++ word ++ " ") currentY)
        as (line' & currentY' & ops & Hd & Htext & Hlen).
      exists line', currentY', ops. split; [exact Hd|].
      cbn [Behaviour.join_all fold_right map List.length].
      change (fold_right append "" (map (fun word0 => word0 ++ " ") rest))
        with (Behaviour.join_all (map (fun word0 => word0 ++ " ") rest)).
      split; [|lia].
      rewrite Htext, !append_associative. reflexivity.
Qed.

(** X7: the bio block loses and adds nothing: the lines it draws, put
    one after the other, are the bio followed by one space; there is at
    least one line and never more lines than words. An empty bio draws
    nothing and leaves the baseline where it was. *)
Theorem bio_text_is_preserved (currentY : number) :
  exists currentY' ops,
    draws (drawBio world options currentY) currentY' ops
    /\ (truthy (Required.bio options) = true ->
        Behaviour.join_all (fillTexts ops) = Required.bio options ++ " "
        /\ 1 <= List.length (fillTexts ops)
        /\ List.length (fillTexts ops)
           <= List.length (split " " (Required.bio options)))
    /\ (truthy (Required.bio options) = false -> ops = [] /\ currentY' = currentY).
Proof.
  unfold drawBio. destruct (truthy (Required.bio options)) eqn:Hbio.
  - destruct (split " " (Required.bio options)) as [|word rest] eqn:Hsplit.
    { now destruct (ProfileStages.profile_split_not_nil " " (Required.bio options)). }
    destruct (wrapLoop_text rest 1 ("" ++ word ++ " ") currentY)
      as (line & currentY' & ops & Hd & Htext & Hlen).
    do 2 eexists. split; [|split; [intros _ | discriminate]].
    + do 2 draws_step. cbv zeta.
      eapply draws_bind;
        [ cbn [wrapLoop]; cbv zeta; change (0 <? 0)%nat with false;
          rewrite andb_false_r; exact Hd
        | cbv beta iota; repeat draws_step ].
    + cbn [app fillTexts]. rewrite fillTexts_app. cbn [fillTexts].
      rewrite join_all_app, length_app. cbn [Behaviour.join_all fold_right List.length].
      rewrite append_nil_right, Htext.
      split; [|lia].
      rewrite <- (join_split (Required.bio options)), Hsplit. reflexivity.
  - exists currentY, []. split; [apply draws_ret|].
    split; [discriminate | intros _; split; reflexivity].
Qed.

(** The loop over the badges: one text per badge, in order, each on the
    baseline it was given. *)
Lemma badgeLoop_texts (badges : list string) :
  forall badgeY badgeX currentY : number,
    exists r ops,
      draws (badgeLoop world options badges badgeY badgeX currentY) r ops
      /\ fillTexts ops = map (append "• ") badges
      /\ Behaviour.fillTextYs ops = repeat badgeY (List.length badges).
Proof.
  induction badges as [|badge rest IH]; intros badgeY badgeX currentY.
  - do 2 eexists. split; [apply draws_ret | split; reflexivity].
  - cbn [badgeLoop]. cbv zeta.
    match goal with
    | |- context [badgeLoop world options rest ?y ?x ?c] =>
        destruct (IH y x c) as (r & ops & Hd & Htexts & Hys)
    end.
    do 2 eexists. split; [eapply draws_bind; [apply draws_draw | exact Hd]|].
    cbn [app fillTexts Behaviour.fillTextYs map List.length repeat].
    now rewrite Htexts, Hys.
Qed.

(** X8: the badges block draws one text per badge, in the order of the
    list, each a bullet, a space and the badge; all of them are drawn on
    one and the same baseline, also after a badge has wrapped to the left
    of the text column. Without badges nothing is drawn. *)
Theorem badges_share_one_baseline (currentY : number) :
  exists ops,
    draws (drawBadges world options currentY) tt ops
    /\ fillTexts ops = map (append "• ") (Required.badges options)
    /\ Behaviour.fillTextYs ops
       = repeat (add (or_val currentY (lit 0))
                     (or_else (FontSize.badges (Required.fontSize options)) (lit 0)))
                (List.length (Required.badges options))
    /\ (Required.badges options = [] -> ops = []).
Proof.
  unfold drawBadges. destruct (Required.badges options) as [|badge rest] eqn:Hb.
  - exists []. split; [apply draws_ret | repeat split].
  - cbv zeta.
    match goal with
    | |- context [badgeLoop world options ?l ?y ?x ?c] =>
        destruct (badgeLoop_texts l y x c) as (r & ops & Hd & Htexts & Hys)
    end.
    eexists. split; [|split; [|split; [|discriminate]]].
    + do 2 draws_step. eapply draws_bind; [exact Hd | cbv beta; apply draws_ret].
    + cbn [app fillTexts]. rewrite fillTexts_app, Htexts. cbn [fillTexts].
      now rewrite app_nil_r.
    + cbn [app Behaviour.fillTextYs].
      assert (forall a b, Behaviour.fillTextYs (a ++ b)
                          = Behaviour.fillTextYs a ++ Behaviour.fillTextYs b)%list
        as Happ.
      { induction a as [|o a IHa]; intros b; [reflexivity|].
        destruct o; simpl; now rewrite IHa. }
      rewrite Happ, Hys. cbn [Behaviour.fillTextYs]. now rewrite app_nil_r.
Qed.

(** X9: the text stage of a ProfileCard is the header, the bio block and
    the badges block, each starting at the baseline the one before
    returns; the header draws the username and the discriminator in the
    vertical layout, and in the horizontal layout it draws nothing, so
    that a horizontal card shows neither. *)
Theorem text_stage_by_layout :
  exists y1 ops1 y2 ops2 ops3,
    draws (drawHeader world options (toNumber (Types.top (Required.padding options))))
      y1 ops1
    /\ draws (drawBio world options y1) y2 ops2
    /\ draws (drawBadges world options y2) tt ops3
    /\ draws (drawText world options) tt (ops1 ++ ops2 ++ ops3)
    /\ match Required.layout options with
       | vertical =>
           fillTexts ops1 = [Required.username options; Required.discriminator options]
       | horizontal =>
           ops1 = [] /\ y1 = toNumber (Types.top (Required.padding options))
       end.
Proof.
  assert (exists y1 ops1,
            draws (drawHeader world options
                     (toNumber (Types.top (Required.padding options)))) y1 ops1
            /\ match Required.layout options with
               | vertical =>
                   fillTexts ops1
                   = [Required.username options; Required.discriminator options]
               | horizontal =>
                   ops1 = [] /\ y1 = toNumber (Types.top (Required.padding options))
               end) as (y1 & ops1 & H1 & Hlayout).
  { unfold drawHeader. destruct (Required.layout options); cbn [Layout_eqb].
    - do 2 eexists. split; [apply draws_ret | split; reflexivity].
    - do 2 eexists. split; [repeat draws_step | reflexivity]. }
  destruct (ProfileStages.profile_drawBio_lines world options y1) as (y2 & ops2 & H2 & _).
  destruct (ProfileStages.profile_drawBadges_draws world options y2) as (ops3 & H3).
  exists y1, ops1, y2, ops2, ops3.
  split; [exact H1|]. split; [exact H2|]. split; [exact H3|]. split; [|exact Hlayout].
  unfold drawText. cbv zeta.
  eapply draws_bind; [exact H1 | cbv beta].
  eapply draws_bind; [exact H2 | exact H3].
Qed.

End Profile.

Lemma bio_text_is_preserved_witness :
  exists currentY' ops,
    draws (ProfileCard.drawBio Samples.world_wide
             (ProfileCard.constructor (Samples.profile_options "./a.png" (Some "hello a") None))
             (lit 30)) currentY' ops
    /\ Behaviour.join_all (fillTexts ops) = "hello a ".
Proof.
  destruct (TextSpec.bio_text_is_preserved Samples.world_wide
              (ProfileCard.constructor (Samples.profile_options "./a.png" (Some "hello a") None))
              (lit 30))
    as (currentY' & ops & Hd & Htext & _).
  exists currentY', ops. split; [exact Hd|].
  apply Htext. reflexivity.
Defined.


Lemma badges_share_one_baseline_witness :
  exists ops,
    draws (ProfileCard.drawBadges Samples.world_ok
             (ProfileCard.constructor (Samples.profile_options "./a.png" None None))
             (lit 30)) tt ops
    /\ ops = [].
Proof.
  destruct (badges_share_one_baseline Samples.world_ok
              (ProfileCard.constructor (Samples.profile_options "./a.png" None None))
              (lit 30))
    as (ops & Hd & _ & _ & Hempty).
  exists ops. split; [exact Hd | apply Hempty; reflexivity].
Defined.

(** X10: whatever the options, the text stage of a WelcomeCard draws the
    username, then the discriminator, then the welcome line, and a
    member line exactly when the member count is greater than 0. The
    discriminator line is always there: an empty or omitted discriminator
    has become [#0000]. *)
Theorem welcome_text_lines (world : Host.World) (o : WelcomeCard.Options.t) :
  exists ops,
    draws (WelcomeCard.drawText world (WelcomeCard.constructor o)) tt ops
    /\ truthy (WelcomeCard.Required.discriminator (WelcomeCard.constructor o)) = true
    /\ fillTexts ops
       = ([ WelcomeCard.Options.username o;
            WelcomeCard.Required.discriminator (WelcomeCard.constructor o);
            ("Welcome to " ++ WelcomeCard.Options.serverName o ++ "!")%string ]
          ++ (if gt (WelcomeCard.Required.memberCount (WelcomeCard.constructor o)) (lit 0)
              then [ ("Member #"
                      ++ Host.toString world
                           (WelcomeCard.Required.memberCount (WelcomeCard.constructor o)))
                     %string ]
              else []))%list.
Proof.
  assert (truthy (WelcomeCard.Required.discriminator (WelcomeCard.constructor o)) = true)
    as Hd.
  { cbn [WelcomeCard.constructor WelcomeCard.Required.discriminator].
    now apply NormalizerMore.or_else_usable. }
  unfold WelcomeCard.drawText. cbv zeta. rewrite Hd.
  destruct (gt (WelcomeCard.Required.memberCount (WelcomeCard.constructor o)) (lit 0));
    eexists; (split; [repeat draws_step | split; [reflexivity | reflexivity]]).
Qed.

(** X11: a supplied [showProgress] decides, [false] included, whether
    the fill of the progress bar is drawn: the XP stage fills the track
    and, unless [showProgress] is [false], the fill on top of it, at the
    same place and height and with the width [track * progress / 100]. *)
Theorem progress_fill_follows_showProgress (world : Host.World) (o : RankCard.Options.t) :
  exists ops,
    draws (RankCard.drawXPInfo world (RankCard.constructor o)) tt ops
    /\ Behaviour.fillRects ops
       = Behaviour.rank_bar_track (RankCard.constructor o)
         :: match RankCard.Options.showProgress o with
            | Some false => []
            | _ => [Behaviour.rank_bar_fill (RankCard.constructor o)]
            end.
Proof.
  unfold RankCard.drawXPInfo. cbv zeta.
  assert (RankCard.Required.showProgress (RankCard.constructor o)
          = match RankCard.Options.showProgress o with
            | Some b => b
            | None => true
            end) as -> by reflexivity.
  destruct (RankCard.Options.showProgress o) as [[]|];
    eexists; (split; [repeat draws_step | reflexivity]).
Qed.

End TextSpec.
